(** * go-wpa: a control-interface client for wpa_supplicant

    A shallow embedding of the Go sources of the repository:
    - the message demultiplexer [WPACtrl] (receiveLoop, Command,
      OkCommand, FailCommand);
    - the event classifier and the network operations of
      [WPASupplicantCtrl] (parseReason, NewOnDisconnectedEvent,
      the classification goroutine, ListNetworks);
    - the simulated daemon [WPAProcessMock] of package wpatest
      (getNetwork, getNetworkStr, processMockCommand).

    Go strings are [string], byte slices are [list ascii], a run-time
    panic is the [Panic] outcome of the [go] monad, channels are bounded
    queues with a closed flag. *)

From Stdlib Require Import String Ascii List ZArith Lia Bool Arith.
From Stdlib Require Import DecimalString.
Import ListNotations.
Local Open Scope string_scope.
Local Open Scope list_scope.

(* ===================================================================== *)
(** ** Go run-time: panics, slices, strings *)
(* ===================================================================== *)

(** A computation either returns a value or panics. *)
Inductive go (A : Type) : Type :=
| Ret (a : A)
| Panic (msg : string).
Arguments Ret {A} a.
Arguments Panic {A} msg.

Definition bind {A B : Type} (m : go A) (f : A -> go B) : go B :=
  match m with
  | Ret a => f a
  | Panic msg => Panic msg
  end.

Notation "x <- m ;; k" := (bind m (fun x => k))
  (at level 61, m at next level, right associativity).

(** [a[i]]: indexing panics outside [0, len(a)). *)
Definition index {A : Type} (a : list A) (i : nat) : go A :=
  match nth_error a i with
  | Some x => Ret x
  | None => Panic "index out of range"
  end.

(** [a[lo:hi]]: slicing panics unless lo <= hi <= cap(a); every slice that
    is cut here has its capacity equal to its length. *)
Definition slice {A : Type} (a : list A) (lo hi : nat) : go (list A) :=
  if ((lo <=? hi) && (hi <=? length a))%nat
  then Ret (firstn (hi - lo) (skipn lo a))
  else Panic "slice bounds out of range".

(** [copy(dst, src)] copies min(len(dst), len(src)) elements. *)
Definition copy {A : Type} (dst src : list A) : list A :=
  let n := Nat.min (length dst) (length src) in
  firstn n src ++ skipn n dst.

Definition byte_eqb (a b : ascii) : bool := Ascii.eqb a b.

(** [strings.HasPrefix]. *)
Fixpoint HasPrefix (s p : string) {struct p} : bool :=
  match p with
  | EmptyString => true
  | String b p' =>
      match s with
      | EmptyString => false
      | String a s' => byte_eqb a b && HasPrefix s' p'
      end
  end.

(** [strings.TrimPrefix], as an option: the rest of [s] after [p]. *)
Fixpoint CutPrefix (s p : string) {struct p} : option string :=
  match p with
  | EmptyString => Some s
  | String b p' =>
      match s with
      | EmptyString => None
      | String a s' => if byte_eqb a b then CutPrefix s' p' else None
      end
  end.

Definition utf8 (l : list nat) : string :=
  string_of_list_ascii (map ascii_of_nat l).

Definition revstr (s : string) : string :=
  string_of_list_ascii (rev (list_ascii_of_string s)).

(** White space as defined by Unicode ([unicode.IsSpace]): the six ASCII
    characters tab, line feed, vertical tab, form feed, carriage return and
    space, then U+0085, U+00A0, U+1680, U+2000..U+200A, U+2028, U+2029,
    U+202F, U+205F and U+3000 in their UTF-8 encodings. *)
Definition ascii_space (c : ascii) : bool :=
  let n := nat_of_ascii c in
  (((9 <=? n) && (n <=? 13)) || (n =? 32))%nat.

Definition unicode_spaces : list string :=
  [ utf8 [194; 133]; utf8 [194; 160]; utf8 [225; 154; 128] ]
  ++ map (fun k => utf8 [226; 128; 128 + k]) (seq 0 11)
  ++ [ utf8 [226; 128; 168]; utf8 [226; 128; 169]; utf8 [226; 128; 175];
       utf8 [226; 129; 159]; utf8 [227; 128; 128] ].

Fixpoint first_cut (s : string) (ps : list string) : option string :=
  match ps with
  | [] => None
  | p :: ps' =>
      match CutPrefix s p with
      | Some r => Some r
      | None => first_cut s ps'
      end
  end.

(** The rest of [s] after its first rune when that rune is white space;
    [seqs] are the multi-byte white-space encodings to look for. *)
Definition cut_space (seqs : list string) (s : string) : option string :=
  match s with
  | EmptyString => None
  | String c r => if ascii_space c then Some r else first_cut s seqs
  end.

Fixpoint trim_spaces (fuel : nat) (seqs : list string) (s : string) : string :=
  match fuel with
  | O => s
  | S fuel' =>
      match cut_space seqs s with
      | Some r => trim_spaces fuel' seqs r
      | None => s
      end
  end.

Definition TrimLeftSpace (s : string) : string :=
  trim_spaces (String.length s) unicode_spaces s.

(** Trailing white space is stripped rune by rune from the end: on the
    reversed string that is stripping the reversed encodings from the
    front. *)
Definition TrimRightSpace (s : string) : string :=
  revstr (trim_spaces (String.length s) (map revstr unicode_spaces) (revstr s)).

(** [strings.TrimSpace]. *)
Definition TrimSpace (s : string) : string :=
  TrimRightSpace (TrimLeftSpace s).

(** [strings.Split(s, sep)] for a one-byte separator: always at least one
    field: the empty string splits into one empty field. *)
Fixpoint Split (s : string) (sep : ascii) : list string :=
  match s with
  | EmptyString => [EmptyString]
  | String c s' =>
      if byte_eqb c sep then EmptyString :: Split s' sep
      else match Split s' sep with
           | f :: fs => String c f :: fs
           | [] => [String c EmptyString]
           end
  end.

(** [strings.Join]. *)
Fixpoint Join (l : list string) (sep : string) : string :=
  match l with
  | [] => EmptyString
  | [x] => x
  | x :: l' => x ++ sep ++ Join l' sep
  end.

(* ===================================================================== *)
(** ** Errors and channels *)
(* ===================================================================== *)

(** Error values. [ErrTimeout] is the package-level sentinel
    [var ErrTimeout = errors.New("cmd timeout")], compared by identity;
    [errors_New] and [fmt_Errorf] are errors allocated at the call site;
    [transport_error] is whatever the connection reports. *)
Inductive error : Type :=
| ErrTimeout
| errors_New (text : string)
| fmt_Errorf (text : string)
| transport_error (text : string).

(** The [Error()] method: the text of an error. *)
Definition Error (e : error) : string :=
  match e with
  | ErrTimeout => "cmd timeout"
  | errors_New t => t
  | fmt_Errorf t => t
  | transport_error t => t
  end.

(** A buffered channel: the queued values, the capacity, the closed flag. *)
Record chan (A : Type) : Type := mkChan {
  queue : list A;
  capacity : nat;
  closed : bool
}.
Arguments mkChan {A} queue capacity closed.
Arguments queue {A} c.
Arguments capacity {A} c.
Arguments closed {A} c.

(** [make(chan A, n)]. *)
Definition make_chan {A : Type} (n : nat) : chan A := mkChan [] n false.

(** [close(ch)]. *)
Definition close {A : Type} (ch : chan A) : chan A :=
  mkChan (queue ch) (capacity ch) true.

(** Whether a send can proceed at once. *)
Definition has_room {A : Type} (ch : chan A) : bool :=
  (length (queue ch) <? capacity ch)%nat.

Definition enqueue {A : Type} (ch : chan A) (v : A) : chan A :=
  mkChan (queue ch ++ [v]) (capacity ch) (closed ch).

(** What a receive yields at once: the oldest queued value with ok = true,
    or the zero value with ok = false on a closed and drained channel;
    [None] when the receive has to wait. *)
Definition recv_ready {A : Type} (zero : A) (ch : chan A)
  : option (A * bool * chan A) :=
  match queue ch with
  | v :: q => Some (v, true, mkChan q (capacity ch) (closed ch))
  | [] => if closed ch then Some (zero, false, ch) else None
  end.

(* ===================================================================== *)
(** ** The message demultiplexer: WPACtrl *)
(* ===================================================================== *)

Module WPACtrl.

(** The receive buffer of receiveLoop: [buf := make([]byte, 4096)]. *)
Definition buf_size : nat := 4096.

(** The state of one WPACtrl: the two channels, the cancellation of the
    context, the datagrams written to the connection, and the buffer that
    receiveLoop allocates once and reuses for every read. *)
Record t : Type := mk {
  solicited : chan string;
  unsolicited : chan string;
  ctx_done : bool;
  written : list (list ascii);
  buf : list ascii
}.

(** NewWPACtrl: [solicited: make(chan string, 1)],
    [unsolicited: make(chan string, 100)], a zeroed buffer. *)
Definition NewWPACtrl : t :=
  mk (make_chan 1) (make_chan 100) false [] (repeat zero buf_size).

(** What one [wc.c.Read(buf)] returns. *)
Inductive read_result : Type :=
| Datagram (msg : list ascii)
| ReadError (e : error).

(** [Read(b)] of a datagram connection (TestConn.Read): the datagram is
    copied into [b] and cut at len(b); the bytes of [b] beyond it keep
    what earlier reads left there. *)
Definition Read (b : list ascii) (msg : list ascii) : nat * list ascii :=
  (Nat.min (length b) (length msg), copy b msg).

(** Where the body of the loop sends the datagram it has just read. *)
Inductive routing : Type :=
| ToEvents (payload : string)
| ToReplies (payload : string)
| Dropped.

(** Lines 62-86 of receiveLoop, up to the channel operations:
<<
    if buf[0] == byte('<') {
        if len(buf) < 3 || buf[2] != byte('>') { /* log */ }
        else { wc.unsolicited <- strings.TrimSpace(string(buf[3:n])) }
    } else {
        select { case wc.solicited <- strings.TrimSpace(string(buf[:n])): default: }
    }
>> *)
Definition route (buf : list ascii) (n : nat) : go routing :=
  b0 <- index buf 0 ;;
  if byte_eqb b0 "<" then
    if (length buf <? 3)%nat then Ret Dropped
    else
      b2 <- index buf 2 ;;
      if negb (byte_eqb b2 ">") then Ret Dropped
      else
        p <- slice buf 3 n ;;
        Ret (ToEvents (TrimSpace (string_of_list_ascii p)))
  else
    p <- slice buf 0 n ;;
    Ret (ToReplies (TrimSpace (string_of_list_ascii p))).

(** How one iteration of the loop ends. [Exited] and [Panicked] carry the
    state after the deferred [close(wc.unsolicited)] and
    [close(wc.solicited)] have run. *)
Inductive outcome : Type :=
| Continue (wc : t)
| Blocked (wc : t)
| Exited (wc : t)
| Panicked (wc : t) (msg : string).

Definition with_buf (wc : t) (b : list ascii) : t :=
  mk (solicited wc) (unsolicited wc) (ctx_done wc) (written wc) b.

Definition close_queues (wc : t) : t :=
  mk (close (solicited wc)) (close (unsolicited wc)) (ctx_done wc)
     (written wc) (buf wc).

(** The blocking send [wc.unsolicited <- v]. *)
Definition send_event (wc : t) (v : string) : outcome :=
  if has_room (unsolicited wc)
  then Continue (mk (solicited wc) (enqueue (unsolicited wc) v)
                    (ctx_done wc) (written wc) (buf wc))
  else Blocked wc.

(** The non-blocking send [select { case wc.solicited <- v: default: }]. *)
Definition offer_reply (wc : t) (v : string) : t :=
  if has_room (solicited wc)
  then mk (enqueue (solicited wc) v) (unsolicited wc)
          (ctx_done wc) (written wc) (buf wc)
  else wc.

(** One iteration of the [for] loop of receiveLoop. *)
Definition receive_step (wc : t) (r : read_result) : outcome :=
  let '(n, b, err) :=
    match r with
    | Datagram msg => let (n, b) := Read (buf wc) msg in (n, b, None)
    | ReadError e => (0, buf wc, Some e)
    end in
  let wc := with_buf wc b in
  if ctx_done wc then Exited (close_queues wc)
  else
    match err with
    | Some _ => Exited (close_queues wc)
    | None =>
        match route (buf wc) n with
        | Panic msg => Panicked (close_queues wc) msg
        | Ret Dropped => Continue wc
        | Ret (ToEvents v) => send_event wc v
        | Ret (ToReplies v) => Continue (offer_reply wc v)
        end
    end.

(** receiveLoop on the reads the connection yields one after another;
    it stops at the first iteration that does not continue. *)
Fixpoint receiveLoop (wc : t) (reads : list read_result) : outcome :=
  match reads with
  | [] => Continue wc
  | r :: reads' =>
      match receive_step wc r with
      | Continue wc' => receiveLoop wc' reads'
      | o => o
      end
  end.

(** What one call of Command meets: the error of [wc.c.Write], whether the
    timer of [time.After(wc.cmdTimeout)] has fired when the select is
    taken, and which case the run time picks when both are ready. *)
Record call_env : Type := mkEnv {
  write_err : option error;
  timer_fired : bool;
  pick_timer : bool
}.

(** Command. [None]: neither case of the select is ready, the caller is
    still waiting. *)
Definition Command (wc : t) (cmd : string) (env : call_env)
  : option (string * option error * t) :=
  match write_err env with
  | Some err =>
      Some (EmptyString, Some (fmt_Errorf ("command error: " ++ Error err)), wc)
  | None =>
      let wc := mk (solicited wc) (unsolicited wc) (ctx_done wc)
                   (written wc ++ [list_ascii_of_string cmd]) (buf wc) in
      let on_recv '(msg, ok, ch) :=
        let wc' := mk ch (unsolicited wc) (ctx_done wc) (written wc) (buf wc) in
        if negb ok then (EmptyString, Some (errors_New "failed"), wc')
        else (msg, None, wc') in
      match recv_ready EmptyString (solicited wc), timer_fired env with
      | Some r, false => Some (on_recv r)
      | Some r, true =>
          if pick_timer env then Some (EmptyString, Some ErrTimeout, wc)
          else Some (on_recv r)
      | None, true => Some (EmptyString, Some ErrTimeout, wc)
      | None, false => None
      end
  end.

(** OkCommand. *)
Definition OkCommand (wc : t) (cmd : string) (env : call_env)
  : option (option error * t) :=
  match Command wc cmd env with
  | None => None
  | Some (rsp, err, wc') =>
      match err with
      | Some e => Some (Some e, wc')
      | None =>
          if negb (String.eqb rsp "OK") then Some (Some (errors_New rsp), wc')
          else Some (None, wc')
      end
  end.

(** FailCommand. *)
Definition FailCommand (wc : t) (cmd : string) (env : call_env)
  : option (string * option error * t) :=
  match Command wc cmd env with
  | None => None
  | Some (rsp, err, wc') =>
      match err with
      | Some e => Some (EmptyString, Some e, wc')
      | None =>
          if String.eqb rsp "FAIL" then Some (EmptyString, Some (errors_New rsp), wc')
          else Some (rsp, err, wc')
      end
  end.

Definition Attach (wc : t) := OkCommand wc "ATTACH".
Definition Detach (wc : t) := OkCommand wc "DETACH".

(** [wc.cancel()]. *)
Definition cancel (wc : t) : t :=
  mk (solicited wc) (unsolicited wc) true (written wc) (buf wc).

(** Close: [wc.Detach(); wc.cancel(); wc.c.Close()]. The result of Detach
    is not looked at; [None] while Detach is still waiting. Closing the
    connection itself is an effect on the transport. *)
Definition Close (wc : t) (env : call_env) : option t :=
  match Detach wc env with
  | None => None
  | Some (_, wc') => Some (cancel wc')
  end.

(** A consumer's receive on [wc.Unsolicited()]. *)
Definition recv_unsolicited (wc : t) : option (string * bool * t) :=
  match recv_ready EmptyString (unsolicited wc) with
  | None => None
  | Some (msg, ok, ch) =>
      Some (msg, ok, mk (solicited wc) ch (ctx_done wc) (written wc) (buf wc))
  end.

End WPACtrl.

(* ===================================================================== *)
(** ** Regular expressions (package regexp, as far as the pattern needs) *)
(* ===================================================================== *)

Module Regexp.

(** The syntax that [dre] uses. The pattern and the text around its
    matches are ASCII, so matching byte by byte finds the same matches as
    matching rune by rune. *)
Inductive re : Type :=
| Lit (s : string)               (* literal text *)
| AnyChar                        (* .   any character but line feed *)
| Class (p : ascii -> bool)      (* [...] *)
| Cat (a b : re)                 (* a b *)
| StarLazy (r : re)              (* r*? prefer fewer *)
| Plus (r : re)                  (* r+  prefer more *)
| Group (r : re).                (* (r) capturing group 1 *)

(** A match: the text left after it and what group 1 captured. *)
Definition result : Type := (string * option string)%type.
Definition cont : Type := string -> option string -> option result.

(** The first [n] bytes of [s]. *)
Fixpoint take (n : nat) (s : string) : string :=
  match n, s with
  | S n', String c s' => String c (take n' s')
  | _, _ => EmptyString
  end.

(** The part of [s] that was consumed to reach its suffix [rest]. *)
Definition consumed (s rest : string) : string :=
  take (String.length s - String.length rest) s.

Definition shorter (s' s : string) : bool :=
  (String.length s' <? String.length s)%nat.

(** What matching one sub-expression does: given the text, the capture
    so far and the continuation. *)
Definition matcher : Type := string -> option string -> cont -> option result.

(** [r*?] at [s]: first try to go on without [r]; failing that, match [r]
    once more (on a non-empty piece) and repeat. *)
Fixpoint star_lazy (step : matcher) (k : cont) (fuel : nat)
    (s : string) (cap : option string) : option result :=
  match k s cap with
  | Some res => Some res
  | None =>
      match fuel with
      | O => None
      | S fuel' =>
          step s cap
               (fun s' cap' =>
                  if shorter s' s then star_lazy step k fuel' s' cap'
                  else None)
      end
  end.

(** The repetitions of [r+] after the first: first try to match [r] once
    more (on a non-empty piece); failing that, go on. *)
Fixpoint more_greedy (step : matcher) (k : cont) (fuel : nat)
    (s : string) (cap : option string) : option result :=
  match fuel with
  | O => k s cap
  | S fuel' =>
      match step s cap
                 (fun s' cap' =>
                    if shorter s' s then more_greedy step k fuel' s' cap'
                    else None)
      with
      | Some res => Some res
      | None => k s cap
      end
  end.

(** Leftmost-first (Perl-like) matching by backtracking: [run r s cap k]
    matches [r] at the start of [s] and hands the rest to [k]; the first
    way of matching that makes [k] succeed wins. A repetition consumes at
    least one byte per round, so the length of the text bounds the rounds. *)
Fixpoint run (r : re) (s : string) (cap : option string) (k : cont)
  : option result :=
  match r with
  | Lit l =>
      match CutPrefix s l with
      | Some rest => k rest cap
      | None => None
      end
  | AnyChar =>
      match s with
      | String c rest => if byte_eqb c "010" then None else k rest cap
      | EmptyString => None
      end
  | Class p =>
      match s with
      | String c rest => if p c then k rest cap else None
      | EmptyString => None
      end
  | Cat a b => run a s cap (fun s' cap' => run b s' cap' k)
  | StarLazy r' => star_lazy (run r') k (String.length s) s cap
  | Plus r' => run r' s cap (more_greedy (run r') k (String.length s))
  | Group r' => run r' s cap (fun s' _ => k s' (Some (consumed s s')))
  end.

(** The leftmost match: the suffix of [s] where it starts, and the match. *)
Fixpoint search (r : re) (s : string) : option (string * result) :=
  match run r s None (fun rest cap => Some (rest, cap)) with
  | Some m => Some (s, m)
  | None =>
      match s with
      | EmptyString => None
      | String _ s' => search r s'
      end
  end.

(** [FindStringSubmatch]: nil without a match, else the text of the match
    followed by the text of group 1. *)
Definition FindStringSubmatch (r : re) (s : string) : list string :=
  match search r s with
  | None => []
  | Some (start, (rest, cap)) =>
      [ consumed start rest;
        match cap with Some g => g | None => EmptyString end ]
  end.

End Regexp.

(* ===================================================================== *)
(** ** The event classifier and network operations: WPASupplicantCtrl *)
(* ===================================================================== *)

Module WPASupplicantCtrl.

Import Regexp.

Definition is_digit (c : ascii) : bool :=
  let n := nat_of_ascii c in ((48 <=? n) && (n <=? 57))%nat.

(** [var dre = regexp.MustCompile("CTRL-EVENT-DISCONNECTED.*?reason=([0-9]+)")] *)
Definition dre : re :=
  Cat (Lit "CTRL-EVENT-DISCONNECTED")
      (Cat (StarLazy AnyChar)
           (Cat (Lit "reason=") (Group (Plus (Class is_digit))))).

(** parseReason. *)
Definition parseReason (msg : string) : string :=
  let found := FindStringSubmatch dre msg in
  if (length found <? 2)%nat then "0"
  else nth 1 found EmptyString.

(** Reason codes (IEEE Std 802.11-2016, 9.4.1.7, Table 9-45). *)
Definition commonReasonCodes : list (string * string) :=
  [ ("2", "invalid-auth");
    ("3", "sta-left-ess");
    ("4", "inactivity");
    ("5", "ap-overloaded");
    ("6", "class-2-nonauth");
    ("7", "class-3-nonassoc");
    ("8", "sta-left-bss");
    ("9", "not-authenticated-responder");
    ("10", "bad-power-cap");
    ("11", "bad-channels");
    ("14", "mic-failure");
    ("15", "four-way-handshake-timeout");
    ("16", "group-key-handshake-timeout");
    ("17", "four-way-handshake-mismatch");
    ("18", "invalid-group-cipher");
    ("19", "invalid-pairwise-cipher");
    ("20", "invalid-akmp");
    ("21", "unsupported-rsn");
    ("22", "invalid-rsn");
    ("23", "8021x-auth-failed");
    ("24", "cipher-rejcted-due-to-policy");
    ("32", "qos");
    ("33", "qos-bandwidth");
    ("34", "noisy-channel-cant-ack");
    ("35", "outside-txop-limits");
    ("36", "peer-leaving-bss");
    ("37", "peer-rejects-mechanism");
    ("38", "peer-mechanism-needs-setup");
    ("39", "peer-timeout");
    ("45", "peer-cipher-suite-not-supported") ].

(** [m[key]] on a map[string]string: the zero value for a missing key. *)
Fixpoint map_get (m : list (string * string)) (key : string) : string :=
  match m with
  | [] => EmptyString
  | (k, v) :: m' => if String.eqb k key then v else map_get m' key
  end.

(** The typed events; every one embeds baseEvent{raw}. *)
Inductive WPASupplicantEvent : Type :=
| OnConnectedEvent (raw : string)
| OnDisconnectedEvent (raw : string) (reason : string)
| OnNotFoundEvent (raw : string)
| OnScanFailedEvent (raw : string)
| OnScanStartedEvent (raw : string)
| OnScanResultsEvent (raw : string)
| OnScanEvent (raw : string)
| OnEvent (raw : string).

Definition WPAString (e : WPASupplicantEvent) : string :=
  match e with
  | OnConnectedEvent raw | OnDisconnectedEvent raw _ | OnNotFoundEvent raw
  | OnScanFailedEvent raw | OnScanStartedEvent raw | OnScanResultsEvent raw
  | OnScanEvent raw | OnEvent raw => raw
  end.

(** NewOnDisconnectedEvent. *)
Definition NewOnDisconnectedEvent (msg : string) : WPASupplicantEvent :=
  let reason := parseReason msg in
  let sreason := map_get commonReasonCodes reason in
  let sreason := (reason ++ ":" ++ sreason)%string in
  OnDisconnectedEvent msg sreason.

(** The [Reason()] method of OnDisconnectedEvent. *)
Definition Reason (e : WPASupplicantEvent) : string :=
  match e with
  | OnDisconnectedEvent _ reason => reason
  | _ => EmptyString
  end.

(** The body of the loop of the goroutine that NewWPASupplicantCtrl
    starts: the event sent on [supCtrl.events] for one message. *)
Definition classify (msg : string) : WPASupplicantEvent :=
  if HasPrefix msg "CTRL-EVENT-CONNECTED" then OnConnectedEvent msg
  else if HasPrefix msg "CTRL-EVENT-DISCONNECTED" then NewOnDisconnectedEvent msg
  else if HasPrefix msg "CTRL-EVENT-NETWORK-NOT-FOUND" then OnNotFoundEvent msg
  else if HasPrefix msg "CTRL-EVENT-SCAN-FAILED" then OnScanFailedEvent msg
  else if HasPrefix msg "CTRL-EVENT-SCAN-STARTED" then OnScanStartedEvent msg
  else if HasPrefix msg "CTRL-EVENT-SCAN-RESULTS" then OnScanResultsEvent msg
  else if HasPrefix msg "CTRL-EVENT-BSS-ADDED" then OnScanEvent msg
  else OnEvent msg.

(** The goroutine over the messages that [ctrl.Unsolicited()] yields until
    it is closed: the events it sends, in order. *)
Definition classifier (msgs : list string) : list WPASupplicantEvent :=
  map classify msgs.

Record Network : Type := mkNetwork { ID : string; SSID : string }.

(** The loop of ListNetworks:
<<
    for i, net := range nets {
        f := strings.Split(net, "\t")
        result[i] = Network{ID: f[0], SSID: f[1]}
    }
>> *)
Fixpoint parse_lines (nets : list string) : go (list Network) :=
  match nets with
  | [] => Ret []
  | net :: nets' =>
      let f := Split net "009" in
      id <- index f 0 ;;
      ssid <- index f 1 ;;
      rest <- parse_lines nets' ;;
      Ret (mkNetwork id ssid :: rest)
  end.

(** ListNetworks after [rsp, err := c.ctrl.FailCommand("LIST_NETWORKS")]. *)
Definition parse_networks (rsp : string) (err : option error)
  : go (list Network * option error) :=
  match err with
  | Some e => Ret ([], Some e)
  | None =>
      let lines := Split rsp "010" in
      nets <- slice lines 1 (length lines) ;;
      result <- parse_lines nets ;;
      Ret (result, None)
  end.

(** ListNetworks over a WPACtrl. *)
Definition ListNetworks (wc : WPACtrl.t) (env : WPACtrl.call_env)
  : option (go (list Network * option error) * WPACtrl.t) :=
  match WPACtrl.FailCommand wc "LIST_NETWORKS" env with
  | None => None
  | Some (rsp, err, wc') => Some (parse_networks rsp err, wc')
  end.

Definition quote : string := String "034" EmptyString.

(** AddNetwork. *)
Definition AddNetwork (wc : WPACtrl.t) (env : WPACtrl.call_env)
  : option (string * option error * WPACtrl.t) :=
  match WPACtrl.FailCommand wc "ADD_NETWORK" env with
  | None => None
  | Some (resp, err, wc') =>
      match err with
      | Some e => Some (EmptyString, Some e, wc')
      | None => Some (resp, None, wc')
      end
  end.

(** [fmt.Sprintf("ENABLE_NETWORK %s", network)]. *)
Definition EnableNetwork_command (network : string) : string :=
  "ENABLE_NETWORK " ++ network.

(** The command of SetSSID: SET_NETWORK, the network, ssid, and the ssid
    between double quotes. *)
Definition SetSSID_command (network ssid : string) : string :=
  "SET_NETWORK " ++ network ++ " ssid " ++ quote ++ ssid ++ quote.

(** The command of SetPSK: SET_NETWORK, the network, psk, and the key
    between double quotes. *)
Definition SetPSK_command (network psk : string) : string :=
  "SET_NETWORK " ++ network ++ " psk " ++ quote ++ psk ++ quote.

(** [fmt.Sprintf("REMOVE_NETWORK %s", id)]. *)
Definition RemoveNetwork_command (id : string) : string :=
  "REMOVE_NETWORK " ++ id.

Definition EnableNetwork (wc : WPACtrl.t) (network : string)
    (env : WPACtrl.call_env) :=
  WPACtrl.OkCommand wc (EnableNetwork_command network) env.

Definition SetSSID (wc : WPACtrl.t) (network ssid : string)
    (env : WPACtrl.call_env) :=
  WPACtrl.OkCommand wc (SetSSID_command network ssid) env.

Definition SetPSK (wc : WPACtrl.t) (network psk : string)
    (env : WPACtrl.call_env) :=
  WPACtrl.OkCommand wc (SetPSK_command network psk) env.

Definition RemoveNetwork (wc : WPACtrl.t) (id : string)
    (env : WPACtrl.call_env) :=
  WPACtrl.OkCommand wc (RemoveNetwork_command id) env.

End WPASupplicantCtrl.

(* ===================================================================== *)
(** ** The simulated daemon of package wpatest: WPAProcessMock *)
(* ===================================================================== *)

Module WPAProcessMock.

Local Open Scope Z_scope.

Definition is_digit := WPASupplicantCtrl.is_digit.

(** The value of a run of decimal digits; [None] at any other byte. *)
Fixpoint digits_value (s : string) (acc : Z) : option Z :=
  match s with
  | EmptyString => Some acc
  | String c s' =>
      if is_digit c
      then digits_value s' (acc * 10 + (Z.of_nat (nat_of_ascii c) - 48))
      else None
  end.

(** [strconv.Atoi] with a 64-bit int: an optional sign, then one or more
    decimal digits, and a value that fits; [None] is a non-nil error. *)
Definition Atoi (s : string) : option Z :=
  let '(neg, ds) :=
    match s with
    | String "-" r => (true, r)
    | String "+" r => (false, r)
    | _ => (false, s)
    end in
  match ds with
  | EmptyString => None
  | _ =>
      match digits_value ds 0 with
      | None => None
      | Some n =>
          let v := if neg then - n else n in
          if (- 2 ^ 63 <=? v) && (v <=? 2 ^ 63 - 1) then Some v else None
      end
  end.

(** [strconv.Itoa], and the verb %d. *)
Definition Itoa (z : Z) : string := NilZero.string_of_int (Z.to_int z).

Fixpoint trim_left_byte (s : string) (c : ascii) : string :=
  match s with
  | String a s' => if byte_eqb a c then trim_left_byte s' c else s
  | EmptyString => EmptyString
  end.

(** [strings.Trim(s, cutset)] for a cutset of one byte. *)
Definition Trim (s : string) (c : ascii) : string :=
  revstr (trim_left_byte (revstr (trim_left_byte s c)) c).

Record network : Type := mkNet {
  id : Z;
  ssid : string;
  psk : string;
  flags : string
}.

(** The fields of WPAProcessMock that processMockCommand reads or writes.
    [networks []*network]: a nil pointer is [None]; every non-nil entry
    points to a struct of its own, so a [*network] taken from the slice is
    the position it was taken from. [unsolConn] names the connection that
    attached; [OnNetworkEnabled] tells whether the callback is set, and
    [enabled] lists the ids it was started with. *)
Record t : Type := mk {
  unsolConn : option nat;
  networks : list (option network);
  OnNetworkEnabled : bool;
  enabled : list Z
}.

Definition with_networks (w : t) (ns : list (option network)) : t :=
  mk (unsolConn w) ns (OnNetworkEnabled w) (enabled w).

(** [a[i] = v]. *)
Fixpoint store {A : Type} (a : list A) (i : nat) (v : A) : go (list A) :=
  match a, i with
  | [], _ => Panic "index out of range"
  | _ :: a', O => Ret (v :: a')
  | x :: a', S i' => r <- store a' i' v ;; Ret (x :: r)
  end.

(** A non-nil [*network]: where it points in [w.networks], and the struct
    there. *)
Definition ptr : Type := (nat * network)%type.

(** getNetwork:
<<
    if id < 0 || id > len(w.networks) { return nil }
    return w.networks[id]
>> *)
Definition getNetwork (w : t) (id : Z) : go (option ptr) :=
  if (id <? 0) || (id >? Z.of_nat (length (networks w))) then Ret None
  else
    e <- index (networks w) (Z.to_nat id) ;;
    Ret (match e with
         | Some n => Some (Z.to_nat id, n)
         | None => None
         end).

(** getNetworkStr. *)
Definition getNetworkStr (w : t) (idstr : string) : go (option ptr) :=
  match Atoi idstr with
  | None => Ret None
  | Some id => getNetwork w id
  end.

(** The loop of the LIST_NETWORKS case; [net.id] on a nil entry is a nil
    pointer dereference. *)
Fixpoint list_lines (ns : list (option network)) : go (list string) :=
  match ns with
  | [] => Ret []
  | None :: _ => Panic "invalid memory address or nil pointer dereference"
  | Some net :: ns' =>
      rest <- list_lines ns' ;;
      Ret ((Itoa (id net) ++ String "009" (ssid net)
            ++ String "009" (String "009" ("[" ++ flags net ++ "]")))%string
           :: rest)
  end.

(** A field of a network set through a pointer. *)
Definition set_at (w : t) (p : ptr) (f : network -> network) : go t :=
  ns <- store (networks w) (fst p) (Some (f (snd p))) ;;
  Ret (with_networks w ns).

(** processMockCommand: the reply and the state it leaves. *)
Definition processMockCommand (w : t) (cmd : string) (conn : nat)
  : go (string * t) :=
  let fields := Split cmd " " in
  f0 <- index fields 0 ;;
  if String.eqb f0 "PING" then Ret ("PONG", w)
  else if String.eqb f0 "ATTACH" then
    Ret ("OK", mk (Some conn) (networks w) (OnNetworkEnabled w) (enabled w))
  else if String.eqb f0 "LIST_NETWORKS" then
    lines <- list_lines (networks w) ;;
    Ret (Join ("network id / ssid / bssid / flags" :: lines) (String "010" EmptyString), w)
  else if String.eqb f0 "ADD_NETWORK" then
    let id := Z.of_nat (length (networks w)) in
    Ret (Itoa id,
         with_networks w (networks w ++ [Some (mkNet id EmptyString EmptyString EmptyString)]))
  else if String.eqb f0 "REMOVE_NETWORK" then
    if (length fields <? 2)%nat then Ret ("FAIL", w)
    else
      f1 <- index fields 1 ;;
      net <- getNetworkStr w f1 ;;
      match net with
      | None => Ret ("FAIL", w)
      | Some (_, n) =>
          if id n =? Z.of_nat (length (networks w)) - 1 then
            ns <- slice (networks w) 0 (length (networks w) - 1) ;;
            Ret ("OK", with_networks w ns)
          else if id n <? 0 then Panic "index out of range"
          else
            ns <- store (networks w) (Z.to_nat (id n)) None ;;
            Ret ("OK", with_networks w ns)
      end
  else if String.eqb f0 "ENABLE_NETWORK" then
    if (length fields <? 2)%nat then Ret ("FAIL", w)
    else
      f1 <- index fields 1 ;;
      net <- getNetworkStr w f1 ;;
      match net with
      | None => Ret ("FAIL", w)
      | Some p =>
          w1 <- set_at w p (fun n => mkNet (id n) (ssid n) (psk n) "CURRENT") ;;
          if OnNetworkEnabled w1
          then Ret ("OK", mk (unsolConn w1) (networks w1) (OnNetworkEnabled w1)
                            (enabled w1 ++ [id (snd p)]))
          else Panic "go of nil func value"
      end
  else if String.eqb f0 "SET_NETWORK" then
    if (length fields <? 4)%nat then Ret ("FAIL", w)
    else
      f1 <- index fields 1 ;;
      net <- getNetworkStr w f1 ;;
      match net with
      | None => Ret ("FAIL", w)
      | Some p =>
          f2 <- index fields 2 ;;
          f3 <- index fields 3 ;;
          if String.eqb f2 "ssid" then
            w1 <- set_at w p
                    (fun n => mkNet (id n) (Trim f3 "034") (psk n) (flags n)) ;;
            Ret ("OK", w1)
          else if String.eqb f2 "psk" then
            w1 <- set_at w p
                    (fun n => mkNet (id n) (ssid n) (Trim f3 "034") (flags n)) ;;
            Ret ("OK", w1)
          else Ret ("FAIL", w)
      end
  else Ret (("UNKNOWN_COMMAND: " ++ f0)%string, w).

(** NewWPAProcessMock: no network, nothing attached, no callback. *)
Definition NewWPAProcessMock : t := mk None [] false [].

(** *** The rest of the mock: expectations and unsolicited messages *)

Record commandPair : Type := mkPair { cmd : string; rsp : string }.

(** How a call made from a test ends: it returns, it stops the test with
    [t.Fatal], or it panics. *)
Inductive test (A : Type) : Type :=
| Done (a : A)
| Fatal (msg : string)
| Crash (msg : string).
Arguments Done {A} a.
Arguments Fatal {A} msg.
Arguments Crash {A} msg.

(** The mock with its expectation, what [t.Error] and [t.Errorf] have
    recorded, and the datagrams written so far, each with the connection
    it was written to. *)
Record harness : Type := mkHarness {
  mock : t;
  expect : option commandPair;
  t_errors : list string;
  sent : list (nat * string)
}.

Definition NewHarness : harness := mkHarness NewWPAProcessMock None [] [].

(** What one iteration of readLoop meets: the result of [ReadFrom], of
    [Get] and of [Write]. *)
Record loop_io : Type := mkIO {
  read_from : string + error;
  get : nat + error;
  write : option error
}.

Inductive loop_end : Type :=
| Again (h : harness)
| Stopped (h : harness).

Definition record_error (h : harness) (msg : string) : harness :=
  mkHarness (mock h) (expect h) (t_errors h ++ [msg]) (sent h).

(** One iteration of readLoop. *)
Definition readLoop_step (h : harness) (io : loop_io) : go loop_end :=
  match read_from io with
  | inr _ => Ret (Stopped h)
  | inl c =>
      match get io with
      | inr _ => Ret (Stopped (record_error h "couldn't get return conn"))
      | inl oc =>
          let answer : go (option (string * harness)) :=
            match expect h with
            | Some e =>
                if negb (String.eqb c (cmd e)) then Ret None
                else Ret (Some (rsp e,
                                mkHarness (mock h) None (t_errors h) (sent h)))
            | None =>
                r <- processMockCommand (mock h) c oc ;;
                Ret (Some (fst r,
                           mkHarness (snd r) None (t_errors h) (sent h)))
            end in
          a <- answer ;;
          match a with
          | None =>
              Ret (Stopped
                     (record_error h
                        ("cmd " ++ c ++ " is not "
                         ++ match expect h with
                            | Some e => cmd e
                            | None => EmptyString
                            end)%string))
          | Some (r, h1) =>
              let h2 := mkHarness (mock h1) (expect h1) (t_errors h1)
                                  (sent h1 ++ [(oc, r)]) in
              match write io with
              | Some _ => Ret (Stopped (record_error h2 "response err"))
              | None => Ret (Again h2)
              end
          end
      end
  end.

(** SendUnsol; [wr] is what [w.unsolConn.Write] returns. With no
    connection attached the call is made on a nil interface. *)
Definition SendUnsol (h : harness) (msg : string) (wr : nat * option error)
  : test harness :=
  match unsolConn (mock h) with
  | None => Crash "invalid memory address or nil pointer dereference"
  | Some c =>
      let h' := mkHarness (mock h) (expect h) (t_errors h)
                          (sent h ++ [(c, msg)]) in
      match snd wr with
      | Some err => Fatal (Error err)
      | None =>
          if negb (fst wr =? String.length msg)%nat then Fatal "incomplete send"
          else Done h'
      end
  end.

(** Expect. *)
Definition Expect (h : harness) (c r : string) : test harness :=
  match expect h with
  | Some _ => Fatal "already expecting"
  | None => Done (mkHarness (mock h) (Some (mkPair c r)) (t_errors h) (sent h))
  end.

Definition connected_message (id : Z) : string :=
  ("<2>CTRL-EVENT-CONNECTED - Connection to 00:1a:dd:18:a4:25 completed [id="
   ++ Itoa id ++ " id_str=]")%string.

Definition disconnected_message : string :=
  "<2>CTRL-EVENT-DISCONNECTED bssid=00:1a:dd:18:a4:25 reason=3 locally_generated=1".

(** AnnounceConnected. *)
Definition AnnounceConnected (h : harness) (id : Z) (wr : nat * option error)
  : test harness :=
  match getNetwork (mock h) id with
  | Panic m => Crash m
  | Ret None => Fatal "announce missing network"
  | Ret (Some _) => SendUnsol h (connected_message id) wr
  end.

(** AnnounceDisconnected. *)
Definition AnnounceDisconnected (h : harness) (id : Z) (wr : nat * option error)
  : test harness :=
  match getNetwork (mock h) id with
  | Panic m => Crash m
  | Ret None => Fatal "announce missing network"
  | Ret (Some _) => SendUnsol h disconnected_message wr
  end.

End WPAProcessMock.

(* ===================================================================== *)
(** ** The in-memory connection of package wpatest: TestConn *)
(* ===================================================================== *)

Module TestConn.

(** The two channels that a listening connection shares with every
    connection dialed from it, named as the listener names them. *)
Record link : Type := mkLink {
  inmsgs : chan (list ascii);
  outmsgs : chan (list ascii)
}.

(** A TestConn on a link: the listening end, or a dialed end, which has
    the two channels swapped. *)
Inductive t : Type := Listening | Dialed.

(** NewTestListenConn (and NewTestConn): two fresh channels of capacity
    100. *)
Definition NewTestListenConn : link := mkLink (make_chan 100) (make_chan 100).

(** Dial: [&TestConn{inmsgs: tc.outmsgs, outmsgs: tc.inmsgs}]. *)
Definition Dial (tc : t) : t :=
  match tc with
  | Listening => Dialed
  | Dialed => Listening
  end.

(** Get returns the connection itself. *)
Definition Get (tc : t) : t := tc.

Definition in_of (l : link) (tc : t) : chan (list ascii) :=
  match tc with Listening => inmsgs l | Dialed => outmsgs l end.

Definition out_of (l : link) (tc : t) : chan (list ascii) :=
  match tc with Listening => outmsgs l | Dialed => inmsgs l end.

Definition set_in (l : link) (tc : t) (ch : chan (list ascii)) : link :=
  match tc with
  | Listening => mkLink ch (outmsgs l)
  | Dialed => mkLink (inmsgs l) ch
  end.

Definition set_out (l : link) (tc : t) (ch : chan (list ascii)) : link :=
  match tc with
  | Listening => mkLink (inmsgs l) ch
  | Dialed => mkLink ch (outmsgs l)
  end.

(** Read: [None] while the receive waits.
<<
    msg, ok := <-tc.inmsgs
    if !ok { return 0, errors.New("closed") }
    n := len(b)
    if len(b) > len(msg) { n = len(msg) }
    copy(b, msg)
    return n, nil
>> *)
Definition Read (l : link) (tc : t) (b : list ascii)
  : option (nat * option error * list ascii * link) :=
  match recv_ready [] (in_of l tc) with
  | None => None
  | Some (msg, ok, ch) =>
      if negb ok then Some (0, Some (errors_New "closed"), b, set_in l tc ch)
      else
        let n := if (length msg <? length b)%nat then length msg else length b in
        Some (n, None, copy b msg, set_in l tc ch)
  end.

(** Write: a send on a closed channel panics; [None] while the send waits
    for room. *)
Definition Write (l : link) (tc : t) (b : list ascii)
  : option (go (nat * option error * link)) :=
  let m := copy (repeat zero (length b)) b in
  if closed (out_of l tc) then Some (Panic "send on closed channel")
  else if has_room (out_of l tc)
       then Some (Ret (length m, None, set_out l tc (enqueue (out_of l tc) m)))
       else None.

(** [close(ch)] panics on a channel that is closed already. *)
Definition close_once (ch : chan (list ascii)) : go (chan (list ascii)) :=
  if closed ch then Panic "close of closed channel" else Ret (close ch).

(** Close: [close(tc.inmsgs); close(tc.outmsgs)]. *)
Definition Close (l : link) (tc : t) : go link :=
  i <- close_once (in_of l tc) ;;
  let l1 := set_in l tc i in
  o <- close_once (out_of l1 tc) ;;
  Ret (set_out l1 tc o).

(** What the reader of a WPACtrl on this connection gets from a read. *)
Definition conn_read (l : link) (tc : t) : option (WPACtrl.read_result * link) :=
  match recv_ready [] (in_of l tc) with
  | None => None
  | Some (msg, ok, ch) =>
      Some (if negb ok then WPACtrl.ReadError (errors_New "closed")
            else WPACtrl.Datagram msg,
            set_in l tc ch)
  end.

End TestConn.

(* ===================================================================== *)
(** ** Notions the statements below are phrased with *)
(* ===================================================================== *)

(** [[]byte(s)]. *)
Definition bytes (s : string) : list ascii := list_ascii_of_string s.

(** The shape of a priority marker: the first three bytes are '<', an
    ASCII digit and '>'. *)
Definition has_priority_marker (msg : list ascii) : bool :=
  match msg with
  | a :: b :: c :: _ =>
      byte_eqb a "<" && WPASupplicantCtrl.is_digit b && byte_eqb c ">"
  | _ => false
  end.

(** The state an iteration of the reader leaves. *)
Definition state_of (o : WPACtrl.outcome) : WPACtrl.t :=
  match o with
  | WPACtrl.Continue wc | WPACtrl.Blocked wc | WPACtrl.Exited wc
  | WPACtrl.Panicked wc _ => wc
  end.

(** The buffer of receiveLoop keeps the length it was made with. *)
Definition wf_ctrl (wc : WPACtrl.t) : Prop :=
  length (WPACtrl.buf wc) = WPACtrl.buf_size.

(** A reader state with one reply waiting. *)
Definition ctrl_with_reply (rsp : string) : WPACtrl.t :=
  WPACtrl.mk (mkChan [rsp] 1 false) (make_chan 100) false []
             (repeat zero WPACtrl.buf_size).

(** An environment in which the write succeeds and the timer has not
    fired. *)
Definition calm : WPACtrl.call_env := WPACtrl.mkEnv None false false.

(** The variants of a typed event. *)
Inductive variant : Type :=
| Connected | Disconnected | NetworkNotFound | ScanFailed | ScanStarted
| ScanResults | BssAdded | Generic.

Definition variant_of (e : WPASupplicantCtrl.WPASupplicantEvent) : variant :=
  match e with
  | WPASupplicantCtrl.OnConnectedEvent _ => Connected
  | WPASupplicantCtrl.OnDisconnectedEvent _ _ => Disconnected
  | WPASupplicantCtrl.OnNotFoundEvent _ => NetworkNotFound
  | WPASupplicantCtrl.OnScanFailedEvent _ => ScanFailed
  | WPASupplicantCtrl.OnScanStartedEvent _ => ScanStarted
  | WPASupplicantCtrl.OnScanResultsEvent _ => ScanResults
  | WPASupplicantCtrl.OnScanEvent _ => BssAdded
  | WPASupplicantCtrl.OnEvent _ => Generic
  end.

(** The known prefixes, in the order they are tried. *)
Definition known_prefixes : list (string * variant) :=
  [ ("CTRL-EVENT-CONNECTED", Connected);
    ("CTRL-EVENT-DISCONNECTED", Disconnected);
    ("CTRL-EVENT-NETWORK-NOT-FOUND", NetworkNotFound);
    ("CTRL-EVENT-SCAN-FAILED", ScanFailed);
    ("CTRL-EVENT-SCAN-STARTED", ScanStarted);
    ("CTRL-EVENT-SCAN-RESULTS", ScanResults);
    ("CTRL-EVENT-BSS-ADDED", BssAdded) ].

(** The variant of the first prefix of the table that [msg] starts with,
    Generic when it starts with none. *)
Fixpoint first_match (msg : string) (table : list (string * variant)) : variant :=
  match table with
  | [] => Generic
  | (p, v) :: table' => if HasPrefix msg p then v else first_match msg table'
  end.

(** [strings.Contains]. *)
Fixpoint Contains (s sub : string) : bool :=
  HasPrefix s sub ||
  match s with
  | String _ s' => Contains s' sub
  | EmptyString => false
  end.

Definition line_feed : string := String "010" EmptyString.

(** The longest run of digits at the start of [s], and what follows it. *)
Fixpoint take_digits (s : string) : string :=
  match s with
  | String c r =>
      if WPASupplicantCtrl.is_digit c then String c (take_digits r)
      else EmptyString
  | EmptyString => EmptyString
  end.

Fixpoint skip_digits (s : string) : string :=
  match s with
  | String c r => if WPASupplicantCtrl.is_digit c then skip_digits r else s
  | EmptyString => EmptyString
  end.

Fixpoint all_digits (s : string) : bool :=
  match s with
  | String c r => WPASupplicantCtrl.is_digit c && all_digits r
  | EmptyString => true
  end.

Definition starts_with_digit (s : string) : bool :=
  match s with
  | String c _ => WPASupplicantCtrl.is_digit c
  | EmptyString => false
  end.

(** Whether "reason=" followed by a digit occurs somewhere in [s]. *)
Fixpoint has_reason_code (s : string) : bool :=
  match CutPrefix s "reason=" with
  | Some r => starts_with_digit r
  | None => false
  end ||
  match s with
  | String _ s' => has_reason_code s'
  | EmptyString => false
  end.

(** What the tail [reason=([0-9]+)] of the pattern matches at the very
    start of [s]. *)
Definition reason_here (s : string) : option Regexp.result :=
  match CutPrefix s "reason=" with
  | Some (String c r) =>
      if WPASupplicantCtrl.is_digit c
      then Some (skip_digits r, Some (String c (take_digits r)))
      else None
  | _ => None
  end.

(** What [.*?reason=([0-9]+)] matches at the start of [s]: the first
    place on the line where the tail matches. *)
Fixpoint scan (s : string) : option Regexp.result :=
  match reason_here s with
  | Some m => Some m
  | None =>
      match s with
      | String c s' => if byte_eqb c "010" then None else scan s'
      | EmptyString => None
      end
  end.

(** What the whole pattern matches at the start of [s]. *)
Definition match_here (s : string) : option Regexp.result :=
  match CutPrefix s "CTRL-EVENT-DISCONNECTED" with
  | Some r => scan r
  | None => None
  end.

(** The leftmost match in [s]. *)
Fixpoint find_reason (s : string) : option Regexp.result :=
  match match_here s with
  | Some m => Some m
  | None =>
      match s with
      | String _ s' => find_reason s'
      | EmptyString => None
      end
  end.

(** A line of a LIST_NETWORKS reply is well formed when it has at least two
    tab-separated fields. *)
Definition fields_ok (line : string) : bool :=
  (2 <=? length (Split line "009"))%nat.

(** The Network that a line stands for: its first two fields. *)
Definition network_of_line (line : string) : WPASupplicantCtrl.Network :=
  let f := Split line "009" in
  WPASupplicantCtrl.mkNetwork (nth 0 f EmptyString) (nth 1 f EmptyString).

(** A reply of two lines, the second with one field only. *)
Definition one_field_reply : string :=
  String "h" (String "010" (String "0" EmptyString)).

(** The id names an existing network of the mock: it lies in
    [0, len(networks)) and the entry there is not nil. *)
Definition names_network (w : WPAProcessMock.t) (id : Z) : bool :=
  (0 <=? id)%Z && (id <? Z.of_nat (length (WPAProcessMock.networks w)))%Z &&
  match nth_error (WPAProcessMock.networks w) (Z.to_nat id) with
  | Some (Some _) => true
  | _ => false
  end.

(** The continuation at the end of a pattern. *)
Definition final : Regexp.cont := fun rest cap => Some (rest, cap).

(** The tail of [dre], after [.*?]. *)
Definition tail_re : Regexp.re :=
  Regexp.Cat (Regexp.Lit "reason=")
             (Regexp.Group (Regexp.Plus (Regexp.Class WPASupplicantCtrl.is_digit))).

(** Whether the byte [c] occurs in [s]. *)
Fixpoint has_byte (s : string) (c : ascii) : bool :=
  match s with
  | String a s' => byte_eqb a c || has_byte s' c
  | EmptyString => false
  end.

(** The commands of the mock that look a network up by the id [idstr]. *)
Inductive lookup_command (idstr : string) : string -> Prop :=
| lookup_remove : lookup_command idstr ("REMOVE_NETWORK " ++ idstr)
| lookup_enable : lookup_command idstr ("ENABLE_NETWORK " ++ idstr)
| lookup_set (key value : string) :
    has_byte key " " = false ->
    lookup_command idstr ("SET_NETWORK " ++ idstr ++ " " ++ key ++ " " ++ value).

(** Whether [s] begins, or ends, with a white-space rune. *)
Definition leading_space (s : string) : bool :=
  match cut_space unicode_spaces s with
  | Some _ => true
  | None => false
  end.

Definition trailing_space (s : string) : bool :=
  match cut_space (map revstr unicode_spaces) (revstr s) with
  | Some _ => true
  | None => false
  end.

(** The encodings to cut are not empty. *)
Definition nonempty_all (seqs : list string) : bool :=
  forallb (fun p => negb (String.eqb p EmptyString)) seqs.

(** A datagram that the reader takes for an event: three bytes or more,
    '<' first and '>' third; and the payload it puts on the event queue. *)
Definition is_event_datagram (msg : list ascii) : bool :=
  match msg with
  | a :: _ :: c :: _ => byte_eqb a "<" && byte_eqb c ">"
  | _ => false
  end.

Definition event_payload (msg : list ascii) : string :=
  TrimSpace (string_of_list_ascii (firstn (WPACtrl.buf_size - 3) (skipn 3 msg))).

(** A datagram that the reader takes for a reply: not empty and not
    beginning with '<'; and the text it offers to the reply queue. *)
Definition is_reply_datagram (msg : list ascii) : bool :=
  match msg with
  | a :: _ => negb (byte_eqb a "<")
  | [] => false
  end.

Definition reply_payload (msg : list ascii) : string :=
  TrimSpace (string_of_list_ascii (firstn WPACtrl.buf_size msg)).

(** The invariant of the mock: a network stored at position i has id i. *)
Definition ids_ok (w : WPAProcessMock.t) : Prop :=
  forall i n,
    nth_error (WPAProcessMock.networks w) i = Some (Some n) ->
    WPAProcessMock.id n = Z.of_nat i.

(** The replies to a sequence of commands, and the state they leave. *)
Fixpoint run_commands (w : WPAProcessMock.t) (cmds : list string) (conn : nat)
  : go (list string * WPAProcessMock.t) :=
  match cmds with
  | [] => Ret ([], w)
  | c :: cmds' =>
      r <- WPAProcessMock.processMockCommand w c conn ;;
      rest <- run_commands (snd r) cmds' conn ;;
      Ret (fst r :: fst rest, snd rest)
  end.

(** The network that ADD_NETWORK creates at position [i]. *)
Definition fresh_network (i : nat) : option WPAProcessMock.network :=
  Some (WPAProcessMock.mkNet (Z.of_nat i) EmptyString EmptyString EmptyString).

(** The characters with the Unicode property White_Space, by code point:
    the characters that [unicode.IsSpace] accepts. *)
Definition White_Space : list N :=
  ([9; 10; 11; 12; 13; 32; 133; 160; 5760]
   ++ map (fun k => 8192 + N.of_nat k) (seq 0 11)
   ++ [8232; 8233; 8239; 8287; 12288])%N.

(** The UTF-8 encoding of a code point ([utf8.EncodeRune]). *)
Definition encode_rune (r : N) : string :=
  string_of_list_ascii (map ascii_of_N
    (if r <? 128 then [r]
     else if r <? 2048 then [192 + r / 64; 128 + r mod 64]
     else if r <? 65536
          then [224 + r / 4096; 128 + (r / 64) mod 64; 128 + r mod 64]
          else [240 + r / 262144; 128 + (r / 4096) mod 64;
                128 + (r / 64) mod 64; 128 + r mod 64])%N).

(** The white-space runes as they occur in a string. *)
Definition space_runes : list string := map encode_rune White_Space.

(** A string that consists of white-space runes only. *)
Inductive white_run : string -> Prop :=
| white_nil : white_run EmptyString
| white_cons (r s : string) :
    In r space_runes -> white_run s -> white_run (r ++ s).

(** [strings.HasSuffix]. *)
Definition HasSuffix (s p : string) : bool := HasPrefix (revstr s) (revstr p).

Definition rune_in (r : string) (l : list string) : bool :=
  existsb (String.eqb r) l.

(** The text that marks a disconnect event. *)
Definition anchor : string := "CTRL-EVENT-DISCONNECTED".

(** The code of a disconnect message, in words.  At the very start of
    [s]: the run of digits behind "reason=", when a digit follows it
    directly. *)
Definition spec_digits_after_token (s : string) : option string :=
  match CutPrefix s "reason=" with
  | Some r => if starts_with_digit r then Some (take_digits r) else None
  | None => None
  end.

(** On the line that [s] begins with: the digits behind the first
    "reason=" that a digit follows directly; a "reason=" that no digit
    follows is passed over, and the search ends at the line feed. *)
Fixpoint spec_code_on_line (s : string) : option string :=
  match spec_digits_after_token s with
  | Some code => Some code
  | None =>
      match s with
      | String c s' =>
          if byte_eqb c "010" then None else spec_code_on_line s'
      | EmptyString => None
      end
  end.

(** In the message: the code on the rest of the line behind the first
    occurrence of the anchor that has one. *)
Fixpoint spec_code_after_anchor (s : string) : option string :=
  match
    match CutPrefix s anchor with
    | Some r => spec_code_on_line r
    | None => None
    end
  with
  | Some code => Some code
  | None =>
      match s with
      | String _ s' => spec_code_after_anchor s'
      | EmptyString => None
      end
  end.

(** The code is "0" when the message has none. *)
Definition spec_reason_code (msg : string) : string :=
  match spec_code_after_anchor msg with
  | Some code => code
  | None => "0"
  end.

(** [msg] holds, behind [pre], the anchor and then on the same line, behind
    [mid], a "reason=" with the whole run of digits [code] directly behind
    it. *)
Definition token_at (msg pre mid code rest : string) : Prop :=
  msg = (pre ++ anchor ++ mid ++ "reason=" ++ code ++ rest)%string /\
  has_byte mid "010" = false /\
  starts_with_digit code = true /\ all_digits code = true /\
  starts_with_digit rest = false.

(** A continuation byte of UTF-8, 10xxxxxx; and a string of such bytes. *)
Definition cont_byte (c : ascii) : bool :=
  let n := nat_of_ascii c in ((128 <=? n) && (n <? 192))%nat.

Fixpoint all_cont (s : string) : bool :=
  match s with
  | String c s' => cont_byte c && all_cont s'
  | EmptyString => true
  end.

(** No string of the list is a prefix of another one. *)
Definition prefix_free (seqs : list string) : bool :=
  forallb (fun q =>
    forallb (fun r =>
      String.eqb q r || (negb (HasPrefix r q) && negb (HasPrefix q r)))
      seqs) seqs.

(** No string of the list is empty or begins with an ASCII white-space
    character. *)
Definition no_space_head (seqs : list string) : bool :=
  forallb (fun p =>
    match p with
    | String c _ => negb (ascii_space c)
    | EmptyString => false
    end) seqs.

(** A rune begins with a byte that is no continuation byte, and goes on
    with continuation bytes only. *)
Definition rune_shaped (r : string) : bool :=
  match r with
  | String a r' => negb (cont_byte a) && all_cont r'
  | EmptyString => false
  end.

(** The line of a LIST_NETWORKS reply that the mock prints for a network:
    the verb "%d\t%s\t\t[%s]" on its id, ssid and flags. *)
Definition list_line (n : WPAProcessMock.network) : string :=
  WPAProcessMock.Itoa (WPAProcessMock.id n)
  ++ String "009" (WPAProcessMock.ssid n
  ++ String "009" (String "009" ("[" ++ WPAProcessMock.flags n ++ "]"))).

(* ===================================================================== *)
(** ** Slices and copies *)
(* ===================================================================== *)

Local Open Scope nat_scope.

Lemma copy_length {A : Type} (dst src : list A) :
  length (copy dst src) = length dst.
Proof.
  unfold copy.
  rewrite length_app, length_firstn, length_skipn.
  lia.
Qed.

Lemma firstn_min_length {A : Type} (n : nat) (l : list A) :
  firstn (Nat.min n (length l)) l = firstn n l.
Proof.
  destruct (Nat.le_ge_cases n (length l)) as [H | H].
  - now rewrite Nat.min_l.
  - rewrite Nat.min_r by assumption.
    now rewrite firstn_all, firstn_all2.
Qed.

Lemma nth_error_copy {A : Type} (dst src : list A) (i : nat) :
  i < length dst -> i < length src ->
  nth_error (copy dst src) i = nth_error src i.
Proof.
  intros Hd Hs. unfold copy.
  rewrite nth_error_app1 by (rewrite length_firstn; lia).
  rewrite nth_error_firstn.
  destruct (Nat.ltb_spec i (Nat.min (length dst) (length src))); [reflexivity | lia].
Qed.

Lemma slice_copy {A : Type} (dst src : list A) (lo : nat) :
  lo <= length src -> lo <= length dst ->
  slice (copy dst src) lo (Nat.min (length dst) (length src)) =
  Ret (firstn (length dst - lo) (skipn lo src)).
Proof.
  intros Hs Hd. unfold slice.
  rewrite copy_length.
  replace (lo <=? Nat.min (length dst) (length src)) with true
    by (symmetry; apply Nat.leb_le; lia).
  replace (Nat.min (length dst) (length src) <=? length dst) with true
    by (symmetry; apply Nat.leb_le; lia).
  cbn [andb]. f_equal. unfold copy.
  set (n := Nat.min (length dst) (length src)).
  rewrite skipn_app, length_firstn.
  replace (lo - Nat.min n (length src)) with 0 by lia.
  cbn [skipn].
  rewrite firstn_app, length_skipn, length_firstn.
  replace (n - lo - (Nat.min n (length src) - lo)) with 0 by lia.
  cbn [firstn]. rewrite app_nil_r.
  rewrite skipn_firstn_comm, firstn_firstn.
  replace (Nat.min (n - lo) (n - lo)) with (n - lo) by lia.
  replace (n - lo) with (Nat.min (length dst - lo) (length (skipn lo src)))
    by (rewrite length_skipn; lia).
  apply firstn_min_length.
Qed.

(* ===================================================================== *)
(** ** TrimSpace *)
(* ===================================================================== *)

Section Trimming.

Lemma append_length (a b : string) :
  String.length (a ++ b) = String.length a + String.length b.
Proof. induction a as [| c a IH]; cbn; [reflexivity | now rewrite IH]. Qed.

Lemma append_assoc (a b c : string) :
  ((a ++ b) ++ c = a ++ (b ++ c))%string.
Proof. induction a as [| x a IH]; cbn; [reflexivity | now rewrite IH]. Qed.

Lemma list_of_append (a b : string) :
  list_ascii_of_string (a ++ b)
  = list_ascii_of_string a ++ list_ascii_of_string b.
Proof. induction a as [| c a IH]; cbn; [reflexivity | now rewrite IH]. Qed.

Lemma string_of_app (l1 l2 : list ascii) :
  string_of_list_ascii (l1 ++ l2)
  = (string_of_list_ascii l1 ++ string_of_list_ascii l2)%string.
Proof. induction l1 as [| c l1 IH]; cbn; [reflexivity | now rewrite IH]. Qed.

Lemma revstr_involutive (s : string) : revstr (revstr s) = s.
Proof.
  unfold revstr.
  now rewrite list_ascii_of_string_of_list_ascii, rev_involutive,
    string_of_list_ascii_of_string.
Qed.

Lemma revstr_app (a b : string) :
  revstr (a ++ b) = (revstr b ++ revstr a)%string.
Proof.
  unfold revstr. now rewrite list_of_append, rev_app_distr, string_of_app.
Qed.

Lemma string_length_list (s : string) :
  String.length s = length (list_ascii_of_string s).
Proof. induction s as [| c s IH]; cbn; [reflexivity | now rewrite IH]. Qed.

Lemma revstr_length (s : string) : String.length (revstr s) = String.length s.
Proof.
  unfold revstr.
  now rewrite string_length_list, list_ascii_of_string_of_list_ascii,
    length_rev, <- string_length_list.
Qed.

Lemma CutPrefix_split (s p r : string) :
  CutPrefix s p = Some r -> s = (p ++ r)%string.
Proof.
  revert s. induction p as [| b p IH]; intros s H; cbn in H.
  - now injection H as ->.
  - destruct s as [| a s]; [discriminate |].
    unfold byte_eqb in H. destruct (Ascii.eqb_spec a b) as [-> |]; [| discriminate].
    cbn. now rewrite (IH s H).
Qed.

Lemma first_cut_split (s r : string) (seqs : list string) :
  nonempty_all seqs = true ->
  first_cut s seqs = Some r ->
  exists p, p <> EmptyString /\ s = (p ++ r)%string.
Proof.
  induction seqs as [| q seqs IH]; intros Hne H; [discriminate |].
  cbn in Hne. apply andb_prop in Hne as [Hq Hne].
  cbn in H. destruct (CutPrefix s q) as [r' |] eqn:E.
  - injection H as ->. exists q. split; [| now apply CutPrefix_split].
    intros ->. discriminate.
  - now apply IH.
Qed.

Lemma cut_space_split (s r : string) (seqs : list string) :
  nonempty_all seqs = true ->
  cut_space seqs s = Some r ->
  exists p, p <> EmptyString /\ s = (p ++ r)%string.
Proof.
  intros Hne H. destruct s as [| c s]; [discriminate |].
  cbn [cut_space] in H. destruct (ascii_space c).
  - injection H as ->. exists (String c EmptyString).
    split; [discriminate | reflexivity].
  - now apply (first_cut_split _ _ seqs).
Qed.

(** Trimming cuts a prefix off, and what is left starts with no white
    space. *)
Lemma trim_spaces_spec (seqs : list string) :
  nonempty_all seqs = true ->
  forall fuel s,
    String.length s <= fuel ->
    cut_space seqs (trim_spaces fuel seqs s) = None /\
    exists pre, s = (pre ++ trim_spaces fuel seqs s)%string.
Proof.
  intros Hne. induction fuel as [| fuel IH]; intros s Hlen.
  - destruct s; [| cbn in Hlen; lia].
    split; [reflexivity | exists EmptyString; reflexivity].
  - cbn [trim_spaces]. destruct (cut_space seqs s) as [r |] eqn:E.
    + destruct (cut_space_split s r seqs Hne E) as (p & Hp & ->).
      rewrite append_length in Hlen.
      assert (Hpl : 0 < String.length p)
        by (destruct p; [contradiction | cbn; lia]).
      destruct (IH r ltac:(lia)) as [Hcut [pre Hpre]].
      split; [exact Hcut |].
      exists (p ++ pre)%string. rewrite append_assoc. now rewrite <- Hpre.
    + split; [exact E | exists EmptyString; reflexivity].
Qed.

Lemma CutPrefix_extend (u w p r : string) :
  CutPrefix u p = Some r -> CutPrefix (u ++ w) p = Some (r ++ w)%string.
Proof.
  revert u. induction p as [| b p IH]; intros u H; cbn in H.
  - now injection H as ->.
  - destruct u as [| a u]; [discriminate |].
    cbn. destruct (byte_eqb a b); [now apply IH | discriminate].
Qed.

Lemma cut_space_extend (seqs : list string) (u w r : string) :
  cut_space seqs u = Some r -> cut_space seqs (u ++ w) <> None.
Proof.
  intros H. destruct u as [| c u]; [discriminate |].
  cbn [cut_space append] in *. destruct (ascii_space c); [discriminate |].
  change (String c (u ++ w)) with (String c u ++ w)%string.
  induction seqs as [| q seqs IH]; [discriminate |].
  cbn [first_cut] in *.
  destruct (CutPrefix (String c u) q) as [r' |] eqn:E.
  - rewrite (CutPrefix_extend _ w _ _ E). discriminate.
  - destruct (CutPrefix (String c u ++ w) q); [discriminate | now apply IH].
Qed.

(** What TrimSpace returns neither begins nor ends with white space. *)
Lemma TrimSpace_trimmed (s : string) :
  leading_space (TrimSpace s) = false /\ trailing_space (TrimSpace s) = false.
Proof.
  unfold TrimSpace, TrimRightSpace, TrimLeftSpace.
  set (t := trim_spaces (String.length s) unicode_spaces s).
  destruct (trim_spaces_spec unicode_spaces eq_refl (String.length s) s
              (le_n _)) as [Hlead _].
  fold t in Hlead.
  destruct (trim_spaces_spec (map revstr unicode_spaces) eq_refl
              (String.length t) (revstr t)
              ltac:(rewrite revstr_length; lia)) as [Htrail [pre Hpre]].
  set (x := trim_spaces (String.length t) (map revstr unicode_spaces) (revstr t))
    in *.
  split.
  - unfold leading_space.
    destruct (cut_space unicode_spaces (revstr x)) as [r |] eqn:E; [| reflexivity].
    exfalso.
    assert (Ht : t = (revstr x ++ revstr pre)%string).
    { rewrite <- revstr_app, <- Hpre. now rewrite revstr_involutive. }
    apply (cut_space_extend unicode_spaces (revstr x) (revstr pre) r E).
    now rewrite <- Ht.
  - unfold trailing_space. rewrite revstr_involutive. now rewrite Htrail.
Qed.

End Trimming.

(* ===================================================================== *)
(** ** The background reader *)
(* ===================================================================== *)

Section Reader.

Import WPACtrl.

Lemma NewWPACtrl_wf : wf_ctrl NewWPACtrl.
Proof. unfold wf_ctrl, NewWPACtrl; cbn [buf]. apply repeat_length. Qed.

(** An iteration leaves a buffer of the same length. *)
Lemma receive_step_wf (wc : t) (r : read_result) :
  wf_ctrl wc -> wf_ctrl (state_of (receive_step wc r)).
Proof.
  unfold wf_ctrl, receive_step. intros Hwf.
  destruct r as [msg | e]; cbn [Read].
  - destruct (ctx_done wc) eqn:Hd; cbn [with_buf ctx_done].
    + rewrite Hd. cbn. now rewrite copy_length.
    + rewrite Hd. cbn [buf].
      destruct (route _ _) as [[v | v |] | m]; cbn.
      * unfold send_event. destruct (has_room _); cbn; now rewrite copy_length.
      * unfold offer_reply. destruct (has_room _); cbn; now rewrite copy_length.
      * now rewrite copy_length.
      * now rewrite copy_length.
  - cbn [with_buf ctx_done]. destruct (ctx_done wc); cbn; assumption.
Qed.

(** Routing of a datagram of three bytes or more: only the first and the
    third byte decide. *)
Lemma route_three_bytes (b : list ascii) (b0 b1 b2 : ascii) (rest : list ascii) :
  length b = buf_size ->
  let msg := b0 :: b1 :: b2 :: rest in
  route (snd (Read b msg)) (fst (Read b msg)) =
  Ret (if byte_eqb b0 "<" then
         if byte_eqb b2 ">" then
           ToEvents (TrimSpace (string_of_list_ascii (firstn (buf_size - 3) rest)))
         else Dropped
       else ToReplies (TrimSpace (string_of_list_ascii (firstn buf_size msg)))).
Proof.
  intros Hb msg. unfold Read, route. cbn [fst snd].
  assert (H3 : 3 <= length msg) by (subst msg; cbn [length]; lia).
  assert (Hbs : buf_size = 4096) by reflexivity.
  unfold index.
  rewrite !nth_error_copy by lia.
  subst msg. cbn [nth_error bind].
  rewrite copy_length.
  replace (length b <? 3) with false by (symmetry; apply Nat.ltb_ge; lia).
  rewrite !slice_copy by (cbn [length]; lia).
  rewrite Hb.
  destruct (byte_eqb b0 "<"); cbn [bind].
  - destruct (byte_eqb b2 ">"); cbn [negb bind]; reflexivity.
  - rewrite Nat.sub_0_r. reflexivity.
Qed.

End Reader.

Section Demultiplexer.

Import WPACtrl.

(** C1, as stated, fails: on a fresh reader the datagram "<a>x" has no
    digit between its brackets, yet its payload is put on the event queue;
    and the datagram "<2x", which has not the shape of an event either, is
    put on neither queue instead of being treated as a reply. *)
Lemma event_without_digit_counterexample :
  has_priority_marker (bytes "<a>x") = false /\
  receive_step NewWPACtrl (Datagram (bytes "<a>x")) =
    Continue (mk (make_chan 1) (mkChan ["x"%string] 100 false) false []
                 (copy (buf NewWPACtrl) (bytes "<a>x"))) /\
  has_priority_marker (bytes "<2x") = false /\
  receive_step NewWPACtrl (Datagram (bytes "<2x")) =
    Continue (mk (make_chan 1) (make_chan 100) false []
                 (copy (buf NewWPACtrl) (bytes "<2x"))).
Proof. repeat split; vm_compute; reflexivity. Qed.

(** The iteration of the reader on a datagram of three bytes or more. *)
Lemma receive_step_three_bytes
    (wc : t) (b0 b1 b2 : ascii) (rest : list ascii) :
  wf_ctrl wc -> ctx_done wc = false ->
  let msg := b0 :: b1 :: b2 :: rest in
  let wc' := with_buf wc (copy (buf wc) msg) in
  route (buf wc') (Nat.min buf_size (length msg)) =
    Ret (if byte_eqb b0 "<" then
           if byte_eqb b2 ">" then
             ToEvents (TrimSpace (string_of_list_ascii (firstn (buf_size - 3) rest)))
           else Dropped
         else ToReplies (TrimSpace (string_of_list_ascii (firstn buf_size msg))))
  /\
  receive_step wc (Datagram msg) =
    (if byte_eqb b0 "<" then
       if byte_eqb b2 ">" then
         send_event wc'
           (TrimSpace (string_of_list_ascii (firstn (buf_size - 3) rest)))
       else Continue wc'
     else
       Continue (offer_reply wc'
                   (TrimSpace (string_of_list_ascii (firstn buf_size msg))))).
Proof.
  intros Hwf Hdone msg wc'.
  pose proof (route_three_bytes (buf wc) b0 b1 b2 rest Hwf) as Hr.
  cbn zeta in Hr. unfold Read in Hr. cbn [fst snd] in Hr.
  fold msg in Hr. rewrite Hwf in Hr.
  split.
  - subst wc'. cbn [with_buf buf]. exact Hr.
  - unfold receive_step, Read. cbn [with_buf ctx_done buf].
    rewrite Hdone. fold msg. rewrite Hwf, Hr.
    destruct (byte_eqb b0 "<"); [destruct (byte_eqb b2 ">") |]; reflexivity.
Qed.

(** C5 (defect in the code): the guard of receiveLoop tests [len(buf)],
    the length of the 4096-byte buffer, where the length [n] of the
    datagram is meant. After the event "<2>x" the buffer still holds '>'
    as third byte, so the two-byte datagram "<2" passes the guard and
    [buf[3:n]] panics; the reader does not drop the message and go on.
    On a fresh buffer the same datagram is dropped. *)
Theorem short_marker_after_event_panics :
  (exists wc,
      receiveLoop NewWPACtrl [Datagram (bytes "<2>x"); Datagram (bytes "<2")]
        = Panicked wc "slice bounds out of range" /\
      queue (unsolicited wc) = ["x"%string] /\
      closed (unsolicited wc) = true /\ closed (solicited wc) = true) /\
  (exists wc,
      receiveLoop NewWPACtrl [Datagram (bytes "<2")] = Continue wc /\
      queue (unsolicited wc) = [] /\ queue (solicited wc) = []).
Proof. split; eexists; vm_compute; repeat split. Qed.

(** What does hold of C5: with '<' first and a third byte other than '>',
    a datagram of three bytes or more is dropped, neither queue changes
    and the reader goes on. *)
Lemma malformed_marker_dropped (wc : t) (b1 b2 : ascii) (rest : list ascii) :
  wf_ctrl wc -> ctx_done wc = false -> b2 <> ">"%char ->
  exists wc',
    receive_step wc (Datagram ("<"%char :: b1 :: b2 :: rest)) = Continue wc' /\
    solicited wc' = solicited wc /\ unsolicited wc' = unsolicited wc.
Proof.
  intros Hwf Hdone Hb2.
  destruct (receive_step_three_bytes wc "<" b1 b2 rest Hwf Hdone) as [_ H].
  cbn zeta in H. rewrite H. cbn [byte_eqb Ascii.eqb].
  unfold byte_eqb.
  destruct (Ascii.eqb_spec b2 ">") as [E | _]; [contradiction |].
  eexists; repeat split.
Qed.

End Demultiplexer.

Section Commands.

Import WPACtrl.

(** A received value is what Command returns. *)
Lemma Command_receives (wc : t) (cmd rsp : string) (q : list string) (env : call_env) :
  write_err env = None -> timer_fired env = false ->
  queue (solicited wc) = rsp :: q ->
  Command wc cmd env =
    Some (rsp, None,
          mk (mkChan q (capacity (solicited wc)) (closed (solicited wc)))
             (unsolicited wc) (ctx_done wc)
             (written wc ++ [list_ascii_of_string cmd]) (buf wc)).
Proof.
  intros Hw Ht Hq. unfold Command, recv_ready.
  rewrite Hw, Ht. cbn [solicited]. rewrite Hq. reflexivity.
Qed.

(** C6: when the reply received for a command is "OK", OkCommand returns no
    error; for every other reply, "FAIL" included, it returns an error
    whose text is that reply. *)
Theorem OkCommand_reply (wc wc' : t) (cmd rsp : string) (env : call_env) :
  Command wc cmd env = Some (rsp, None, wc') ->
  (rsp = "OK"%string -> OkCommand wc cmd env = Some (None, wc')) /\
  (rsp <> "OK"%string ->
   exists e, OkCommand wc cmd env = Some (Some e, wc') /\ Error e = rsp).
Proof.
  intros Hc. unfold OkCommand. rewrite Hc.
  destruct (String.eqb_spec rsp "OK") as [E | N]; cbn [negb].
  - split; [reflexivity | intros H; contradiction].
  - split; [intros H; contradiction |].
    intros _. exists (errors_New rsp). split; reflexivity.
Qed.

Lemma OkCommand_reply_witness :
  (("FAIL" = "OK")%string ->
   OkCommand (ctrl_with_reply "FAIL") "TEST_CMD" calm
   = Some (None, mk (mkChan [] 1 false) (make_chan 100) false
                    [bytes "TEST_CMD"] (repeat zero buf_size))) /\
  (("FAIL" <> "OK")%string ->
   exists e,
     OkCommand (ctrl_with_reply "FAIL") "TEST_CMD" calm
     = Some (Some e, mk (mkChan [] 1 false) (make_chan 100) false
                        [bytes "TEST_CMD"] (repeat zero buf_size))
     /\ Error e = "FAIL"%string).
Proof.
  apply (OkCommand_reply (ctrl_with_reply "FAIL") _ "TEST_CMD" "FAIL" calm).
  reflexivity.
Defined.

(** C7: when the reply received for a command is "FAIL", FailCommand
    returns an error; every other reply, "OK" included, is returned as it
    is with no error. *)
Theorem FailCommand_reply (wc wc' : t) (cmd rsp : string) (env : call_env) :
  Command wc cmd env = Some (rsp, None, wc') ->
  (rsp = "FAIL"%string ->
   exists e, FailCommand wc cmd env = Some (EmptyString, Some e, wc')) /\
  (rsp <> "FAIL"%string -> FailCommand wc cmd env = Some (rsp, None, wc')).
Proof.
  intros Hc. unfold FailCommand. rewrite Hc.
  destruct (String.eqb_spec rsp "FAIL") as [E | N].
  - split; [| intros H; contradiction].
    intros _. exists (errors_New rsp). reflexivity.
  - split; [intros H; contradiction | reflexivity].
Qed.

Lemma FailCommand_reply_witness :
  (("OK" = "FAIL")%string ->
   exists e,
     FailCommand (ctrl_with_reply "OK") "TEST_CMD" calm
     = Some (EmptyString, Some e,
             mk (mkChan [] 1 false) (make_chan 100) false
                [bytes "TEST_CMD"] (repeat zero buf_size))) /\
  (("OK" <> "FAIL")%string ->
   FailCommand (ctrl_with_reply "OK") "TEST_CMD" calm
   = Some ("OK"%string, None,
           mk (mkChan [] 1 false) (make_chan 100) false
              [bytes "TEST_CMD"] (repeat zero buf_size))).
Proof.
  apply (FailCommand_reply (ctrl_with_reply "OK") _ "TEST_CMD" "OK" calm).
  reflexivity.
Defined.

(** The reader closes both queues when a read fails. *)
Lemma read_error_closes_queues (wc : t) (e : error) :
  exists wc',
    receive_step wc (ReadError e) = Exited wc' /\
    closed (solicited wc') = true /\ closed (unsolicited wc') = true /\
    queue (solicited wc') = queue (solicited wc).
Proof.
  unfold receive_step. cbn [with_buf ctx_done].
  destruct (ctx_done wc); eexists; repeat split.
Qed.

(** C8: a Command that waits on a reply queue which is closed with no
    value left returns at once, and what it returns is an error that is
    not the timeout error and that no other path of Command produces: an
    error of Command with that text always comes from the closed queue. *)
Theorem Command_on_closed_queue (wc : t) (cmd : string) (env : call_env) :
  write_err env = None -> timer_fired env = false ->
  queue (solicited wc) = [] -> closed (solicited wc) = true ->
  exists e wc',
    Command wc cmd env = Some (EmptyString, Some e, wc') /\
    e <> ErrTimeout /\ Error e <> Error ErrTimeout /\
    (forall wc2 cmd2 env2 rsp2 e2 wc2',
        Command wc2 cmd2 env2 = Some (rsp2, Some e2, wc2') ->
        Error e2 = Error e ->
        write_err env2 = None /\
        queue (solicited wc2) = [] /\ closed (solicited wc2) = true).
Proof.
  intros Hw Ht Hq Hc.
  exists (errors_New "failed"). eexists. split; [| split; [| split]].
  - unfold Command, recv_ready. rewrite Hw, Ht. cbn [solicited].
    rewrite Hq, Hc. reflexivity.
  - discriminate.
  - cbn. discriminate.
  - intros wc2 cmd2 env2 rsp2 e2 wc2' H2 Ht2. cbn [Error] in Ht2.
    unfold Command, recv_ready in H2.
    destruct (write_err env2) as [werr |].
    { injection H2 as _ He _. subst e2. cbn in Ht2. discriminate. }
    cbn [solicited] in H2.
    destruct (queue (solicited wc2)) as [| v q].
    + destruct (closed (solicited wc2)).
      * repeat split.
      * destruct (timer_fired env2); [| discriminate].
        injection H2 as _ He _. subst e2. cbn in Ht2. discriminate.
    + destruct (timer_fired env2); [destruct (pick_timer env2) |];
        cbn in H2; try discriminate.
      injection H2 as _ He _. subst e2. cbn in Ht2. discriminate.
Qed.

Lemma Command_on_closed_queue_witness :
  exists e wc',
    Command (close_queues NewWPACtrl) "PING" calm
      = Some (EmptyString, Some e, wc') /\
    e <> ErrTimeout /\ Error e <> Error ErrTimeout /\
    (forall wc2 cmd2 env2 rsp2 e2 wc2',
        Command wc2 cmd2 env2 = Some (rsp2, Some e2, wc2') ->
        Error e2 = Error e ->
        write_err env2 = None /\
        queue (solicited wc2) = [] /\ closed (solicited wc2) = true).
Proof.
  apply (Command_on_closed_queue (close_queues NewWPACtrl) "PING" calm);
    reflexivity.
Defined.

(** Without the closure the same call would wait, and once the timer has
    fired it returns the timeout sentinel. *)
Lemma Command_waits_then_times_out (cmd : string) :
  Command NewWPACtrl cmd calm = None /\
  exists wc', Command NewWPACtrl cmd (mkEnv None true false)
              = Some (EmptyString, Some ErrTimeout, wc').
Proof. split; [reflexivity | eexists; reflexivity]. Qed.

End Commands.

(* ===================================================================== *)
(** ** Prefixes *)
(* ===================================================================== *)

Lemma HasPrefix_app (s p : string) :
  HasPrefix s p = true -> exists r, s = (p ++ r)%string.
Proof.
  revert s. induction p as [| b p IH]; intros s H.
  - exists s. reflexivity.
  - destruct s as [| a s]; [discriminate |].
    cbn in H. apply andb_prop in H as [Hab Hp].
    apply Ascii.eqb_eq in Hab. subst b.
    destruct (IH s Hp) as [r ->]. exists r. reflexivity.
Qed.

Lemma CutPrefix_HasPrefix (s p : string) :
  CutPrefix s p = None <-> HasPrefix s p = false.
Proof.
  revert s. induction p as [| b p IH]; intros s; cbn.
  - split; intros H; discriminate H.
  - destruct s as [| a s]; [tauto |].
    unfold byte_eqb. destruct (Ascii.eqb a b); cbn; [apply IH | tauto].
Qed.

Lemma CutPrefix_app (p r : string) : CutPrefix (p ++ r) p = Some r.
Proof.
  induction p as [| b p IH]; cbn; [reflexivity |].
  unfold byte_eqb. now rewrite Ascii.eqb_refl.
Qed.

(* ===================================================================== *)
(** ** The event classifier *)
(* ===================================================================== *)

Section Classifier.

Import WPASupplicantCtrl.

(** No message starts with two different known prefixes. *)
Lemma known_prefixes_exclusive (msg p q : string) (v u : variant) :
  In (p, v) known_prefixes -> In (q, u) known_prefixes ->
  HasPrefix msg p = true -> HasPrefix msg q = true ->
  p = q /\ v = u.
Proof.
  intros Hp Hq Hmp Hmq.
  destruct (HasPrefix_app _ _ Hmp) as [r ->].
  cbn [known_prefixes In] in Hp, Hq.
  repeat (destruct Hp as [Hp | Hp]; [injection Hp as <- <- |]);
    try contradiction;
    repeat (destruct Hq as [Hq | Hq]; [injection Hq as <- <- |]);
    try contradiction;
    first [ split; reflexivity | cbn in Hmq; discriminate ].
Qed.

(** C4: classification is total and goes by prefix. Every payload yields
    one typed event, of the variant of the first known prefix it starts
    with and Generic when it starts with none; the event wraps the raw
    message; the known prefixes exclude one another, so at most one of them
    ever matches; and the classifier sends one event per message. *)
Theorem classify_total_by_prefix :
  (forall msg,
      variant_of (classify msg) = first_match msg known_prefixes /\
      WPAString (classify msg) = msg) /\
  (forall msg,
      (forall p v, In (p, v) known_prefixes -> HasPrefix msg p = false) <->
      classify msg = OnEvent msg) /\
  (forall msg p v,
      In (p, v) known_prefixes -> HasPrefix msg p = true ->
      variant_of (classify msg) = v) /\
  (forall msgs,
      length (classifier msgs) = length msgs /\
      map WPAString (classifier msgs) = msgs).
Proof.
  assert (H1 : forall msg,
             variant_of (classify msg) = first_match msg known_prefixes /\
             WPAString (classify msg) = msg).
  { intros msg. unfold classify. cbn [known_prefixes first_match].
    repeat match goal with
           | |- context [if HasPrefix msg ?p then _ else _] =>
               destruct (HasPrefix msg p)
           end; split; reflexivity. }
  split; [exact H1 |]. split; [| split].
  - intros msg. split.
    + intros Hno. unfold classify.
      assert (Hno' : forall p, In p (map fst known_prefixes) ->
                               HasPrefix msg p = false).
      { intros p Hin. apply in_map_iff in Hin as [[q v] [<- Hin]].
        apply (Hno q v Hin). }
      rewrite !Hno' by (cbn; tauto). reflexivity.
    + intros Hc p v Hin.
      destruct (HasPrefix msg p) eqn:Hp; [| reflexivity].
      exfalso.
      assert (Hv : variant_of (classify msg) = Generic) by now rewrite Hc.
      destruct (H1 msg) as [Hfm _]. rewrite Hv in Hfm.
      cbn [known_prefixes In] in Hin.
      cbn [known_prefixes first_match] in Hfm.
      repeat (destruct Hin as [Hin | Hin];
              [injection Hin as <- <-; rewrite ?Hp in Hfm;
               repeat match type of Hfm with
                      | context [if HasPrefix msg ?p then _ else _] =>
                          destruct (HasPrefix msg p)
                      end; discriminate |]).
      contradiction.
  - intros msg p v Hin Hp.
    destruct (H1 msg) as [-> _].
    assert (Hgen : forall table,
               (forall q u, In (q, u) table -> In (q, u) known_prefixes) ->
               In (p, v) table -> first_match msg table = v).
    { induction table as [| [q u] table IH]; intros Hsub Hin'.
      - contradiction.
      - cbn [first_match].
        destruct (HasPrefix msg q) eqn:Hq.
        + symmetry.
          apply (known_prefixes_exclusive msg p q v u Hin
                   (Hsub q u (or_introl eq_refl)) Hp Hq).
        + destruct Hin' as [E | Hin'].
          * injection E as -> ->. congruence.
          * apply IH; [| exact Hin'].
            intros q' u' H'. apply Hsub. now right. }
    apply Hgen; [tauto | exact Hin].
  - intros msgs. unfold classifier. split.
    + apply length_map.
    + rewrite map_map. rewrite <- (map_id msgs) at 2.
      apply map_ext. intros msg. apply H1.
Qed.

Lemma classify_total_by_prefix_witness :
  variant_of (classify "CTRL-EVENT-CONNECTED - Connection completed") = Connected /\
  classify "CTRL-EVENT-SOMETHING" = OnEvent "CTRL-EVENT-SOMETHING".
Proof.
  destruct classify_total_by_prefix as [_ [H2 [H3 _]]].
  split.
  - exact (H3 "CTRL-EVENT-CONNECTED - Connection completed"%string
              "CTRL-EVENT-CONNECTED"%string Connected
              (or_introl eq_refl) eq_refl).
  - apply (proj1 (H2 "CTRL-EVENT-SOMETHING"%string)).
    intros p v Hin. cbn [known_prefixes In] in Hin.
    repeat (destruct Hin as [Hin | Hin];
            [injection Hin as <- <-; reflexivity |]).
    contradiction.
Defined.

End Classifier.

(* ===================================================================== *)
(** ** The pattern of parseReason *)
(* ===================================================================== *)

Section Reasons.

Import Regexp WPASupplicantCtrl.

Lemma skip_digits_length (s : string) :
  String.length (skip_digits s) <= String.length s.
Proof.
  induction s as [| c r IH]; cbn; [lia |].
  destruct (is_digit c); cbn; lia.
Qed.

Lemma consumed_digits (s : string) :
  consumed s (skip_digits s) = take_digits s.
Proof.
  unfold consumed. induction s as [| c r IH]; cbn [skip_digits take_digits].
  - reflexivity.
  - destruct (is_digit c).
    + pose proof (skip_digits_length r) as Hl.
      cbn [String.length].
      replace (S (String.length r) - String.length (skip_digits r))
        with (S (String.length r - String.length (skip_digits r))) by lia.
      cbn [take]. now rewrite IH.
    + now rewrite Nat.sub_diag.
Qed.

(** [[0-9]+] is greedy: before a continuation that never fails, the
    repetitions take every digit there is. *)
Lemma more_greedy_digits (k : cont) :
  (forall s cap, k s cap <> None) ->
  forall fuel s cap,
    String.length s <= fuel ->
    more_greedy (run (Class is_digit)) k fuel s cap = k (skip_digits s) cap.
Proof.
  intros Hk. induction fuel as [| fuel IH]; intros s cap Hlen.
  - destruct s; [reflexivity | cbn in Hlen; lia].
  - cbn [more_greedy run]. destruct s as [| c r]; [reflexivity |].
    cbn [skip_digits]. destruct (is_digit c); [| reflexivity].
    unfold shorter. cbn [String.length].
    replace (String.length r <? S (String.length r)) with true
      by (symmetry; apply Nat.ltb_lt; lia).
    cbn [String.length] in Hlen. rewrite IH by lia.
    destruct (k (skip_digits r) cap) eqn:E; [reflexivity |].
    now apply Hk in E.
Qed.

Lemma run_tail (s : string) (cap : option string) :
  run tail_re s cap final = reason_here s.
Proof.
  unfold tail_re, reason_here. cbn [run].
  destruct (CutPrefix s "reason=") as [[| c r] |]; [reflexivity | | reflexivity].
  destruct (is_digit c) eqn:Hc; [| reflexivity].
  rewrite more_greedy_digits.
  - pose proof (consumed_digits (String c r)) as Hd.
    cbn [skip_digits take_digits] in Hd. rewrite Hc in Hd.
    unfold final. now rewrite Hd.
  - intros; discriminate.
  - cbn [String.length]. lia.
Qed.

Lemma scan_unfold (s : string) :
  scan s = match reason_here s with
           | Some m => Some m
           | None =>
               match s with
               | String c s' => if byte_eqb c "010" then None else scan s'
               | EmptyString => None
               end
           end.
Proof. destruct s; reflexivity. Qed.

(** [.*?] is lazy: it stops at the first place where the tail matches. *)
Lemma star_lazy_scan (fuel : nat) (s : string) (cap : option string) :
  String.length s <= fuel ->
  star_lazy (run AnyChar) (fun s' cap' => run tail_re s' cap' final) fuel s cap
  = scan s.
Proof.
  revert s cap. induction fuel as [| fuel IH]; intros s cap Hlen.
  - destruct s; [| cbn in Hlen; lia]. reflexivity.
  - rewrite scan_unfold. cbn [star_lazy]. rewrite run_tail.
    destruct (reason_here s); [reflexivity |].
    cbn [run]. destruct s as [| c r]; [reflexivity |].
    destruct (byte_eqb c "010"); [reflexivity |].
    unfold shorter. cbn [String.length].
    replace (String.length r <? S (String.length r)) with true
      by (symmetry; apply Nat.ltb_lt; lia).
    apply IH. cbn [String.length] in Hlen. lia.
Qed.

(** The backtracking matcher on [dre] is the scan of the line. *)
Lemma run_dre (s : string) : run dre s None final = match_here s.
Proof.
  unfold dre, match_here. cbn [run].
  destruct (CutPrefix s "CTRL-EVENT-DISCONNECTED") as [r |]; [| reflexivity].
  apply star_lazy_scan. lia.
Qed.

Lemma search_dre (s : string) :
  option_map snd (search dre s) = find_reason s.
Proof.
  induction s as [| c s IH]; cbn [search find_reason];
    fold final; rewrite run_dre;
    destruct (match_here _); try reflexivity.
  exact IH.
Qed.

(** parseReason in terms of the scan. *)
Lemma parseReason_find (msg : string) :
  parseReason msg =
  match find_reason msg with
  | Some (_, Some g) => g
  | Some (_, None) => EmptyString
  | None => "0"%string
  end.
Proof.
  unfold parseReason, FindStringSubmatch.
  rewrite <- search_dre.
  destruct (search dre msg) as [[start [rest [g |]]] |]; reflexivity.
Qed.

End Reasons.

Section DisconnectReason.

Import Regexp WPASupplicantCtrl.

#[local] Arguments is_digit : simpl never.

Lemma find_reason_unfold (s : string) :
  find_reason s = match match_here s with
                  | Some m => Some m
                  | None =>
                      match s with
                      | String _ s' => find_reason s'
                      | EmptyString => None
                      end
                  end.
Proof. destruct s; reflexivity. Qed.

Lemma has_reason_code_unfold (s : string) :
  has_reason_code s =
  match CutPrefix s "reason=" with
  | Some r => starts_with_digit r
  | None => false
  end || match s with
         | String _ s' => has_reason_code s'
         | EmptyString => false
         end.
Proof. destruct s; reflexivity. Qed.

Lemma no_code_reason_here (s : string) :
  has_reason_code s = false -> reason_here s = None.
Proof.
  rewrite has_reason_code_unfold. intros H.
  apply orb_false_elim in H as [H _].
  unfold reason_here.
  destruct (CutPrefix s "reason=") as [[| c r] |]; try reflexivity.
  cbn in H. now rewrite H.
Qed.

Lemma no_code_scan (s : string) : has_reason_code s = false -> scan s = None.
Proof.
  induction s as [| c s IH]; intros H; rewrite scan_unfold;
    rewrite (no_code_reason_here _ H); [reflexivity |].
  rewrite has_reason_code_unfold in H.
  apply orb_false_elim in H as [_ H].
  destruct (byte_eqb c "010"); [reflexivity | now apply IH].
Qed.

Lemma no_code_suffix (p s r : string) :
  CutPrefix s p = Some r -> has_reason_code s = false ->
  has_reason_code r = false.
Proof.
  revert s. induction p as [| b p IH]; intros s Hc H; cbn in Hc.
  - now injection Hc as <-.
  - destruct s as [| a s]; [discriminate |].
    destruct (byte_eqb a b); [| discriminate].
    apply (IH s Hc).
    rewrite has_reason_code_unfold in H.
    now apply orb_false_elim in H as [_ H].
Qed.

Lemma no_code_find (s : string) :
  has_reason_code s = false -> find_reason s = None.
Proof.
  induction s as [| c s IH]; intros H; rewrite find_reason_unfold;
    unfold match_here.
  - reflexivity.
  - destruct (CutPrefix (String c s) "CTRL-EVENT-DISCONNECTED") as [r |] eqn:E.
    + rewrite (no_code_scan r (no_code_suffix _ _ _ E H)).
      apply IH. rewrite has_reason_code_unfold in H.
      now apply orb_false_elim in H as [_ H].
    + apply IH. rewrite has_reason_code_unfold in H.
      now apply orb_false_elim in H as [_ H].
Qed.

(** Without "reason=" followed by a digit anywhere, the code is "0". *)
Lemma parseReason_no_code (msg : string) :
  has_reason_code msg = false -> parseReason msg = "0"%string.
Proof.
  intros H. rewrite parseReason_find. now rewrite (no_code_find _ H).
Qed.

Lemma no_token_no_code (s : string) :
  Contains s "reason=" = false -> has_reason_code s = false.
Proof.
  induction s as [| c s IH]; intros H; rewrite has_reason_code_unfold.
  - reflexivity.
  - cbn [Contains] in H. apply orb_false_elim in H as [Hp Hc].
    apply CutPrefix_HasPrefix in Hp. rewrite Hp. cbn [orb].
    now apply IH.
Qed.

Lemma digits_then_rest (ds rest : string) :
  all_digits ds = true -> starts_with_digit rest = false ->
  take_digits (ds ++ rest) = ds /\ skip_digits (ds ++ rest) = rest.
Proof.
  intros Hd Hr. induction ds as [| d ds IH]; cbn.
  - destruct rest as [| c r]; [split; reflexivity |].
    cbn in Hr |- *. rewrite Hr. split; reflexivity.
  - cbn in Hd. apply andb_prop in Hd as [Hd1 Hd2].
    rewrite Hd1. destruct (IH Hd2) as [-> ->]. split; reflexivity.
Qed.

Lemma HasPrefix_longer (u v p : string) :
  String.length p <= String.length u ->
  HasPrefix (u ++ v) p = HasPrefix u p.
Proof.
  revert u. induction p as [| b p IH]; intros u Hl; [reflexivity |].
  destruct u as [| a u]; [cbn in Hl; lia |].
  cbn. rewrite IH; [reflexivity | cbn in Hl; lia].
Qed.

Lemma HasPrefix_middle (p m a x : string) :
  String.length p <= String.length m + String.length a ->
  HasPrefix (m ++ a ++ x) p = HasPrefix (m ++ a) p.
Proof.
  revert m. induction p as [| b p IH]; intros m Hl; [reflexivity |].
  destruct m as [| c m].
  - cbn [append]. apply HasPrefix_longer. cbn in Hl |- *. lia.
  - cbn. rewrite IH; [reflexivity | cbn in Hl; lia].
Qed.

(** The scan finds the first "reason=" token of the line when digits
    follow it, and captures all of them. *)
Lemma scan_token (mid ds rest : string) (d : ascii) :
  Contains mid line_feed = false ->
  Contains (mid ++ "reason") "reason=" = false ->
  is_digit d = true -> all_digits ds = true ->
  starts_with_digit rest = false ->
  scan (mid ++ "reason=" ++ String d ds ++ rest)
  = Some (rest, Some (String d ds)).
Proof.
  intros Hnl Hno Hd Hds Hrest.
  destruct (digits_then_rest ds rest Hds Hrest) as [Ht Hs].
  induction mid as [| c m IH]; rewrite scan_unfold.
  - cbn. rewrite Hd, Ht, Hs. reflexivity.
  - cbn [Contains line_feed] in Hnl.
    apply orb_false_elim in Hnl as [Hc Hnl]. cbn in Hc.
    rewrite andb_true_r in Hc.
    cbn [append Contains] in Hno.
    apply orb_false_elim in Hno as [Hp Hno].
    assert (Hcut : CutPrefix (String c m ++ "reason=" ++ String d ds ++ rest)
                             "reason=" = None).
    { apply CutPrefix_HasPrefix.
      change (String c m ++ "reason=" ++ String d ds ++ rest)%string
        with (String c m ++ "reason" ++ ("=" ++ String d ds ++ rest))%string.
      rewrite HasPrefix_middle by (cbn; lia).
      exact Hp. }
    unfold reason_here. rewrite Hcut.
    cbn [append]. rewrite Hc. now apply IH.
Qed.

Lemma parseReason_token (mid ds rest : string) (d : ascii) :
  Contains mid line_feed = false ->
  Contains (mid ++ "reason") "reason=" = false ->
  is_digit d = true -> all_digits ds = true ->
  starts_with_digit rest = false ->
  parseReason ("CTRL-EVENT-DISCONNECTED" ++ mid ++ "reason=" ++ String d ds ++ rest)
  = String d ds.
Proof.
  intros Hnl Hno Hd Hds Hrest.
  rewrite parseReason_find, find_reason_unfold.
  unfold match_here. rewrite CutPrefix_app.
  now rewrite (scan_token mid ds rest d Hnl Hno Hd Hds Hrest).
Qed.

End DisconnectReason.

Section DisconnectReasonClaim.

Import Regexp WPASupplicantCtrl.

#[local] Arguments is_digit : simpl never.

Lemma spec_code_on_line_unfold (s : string) :
  spec_code_on_line s =
  match spec_digits_after_token s with
  | Some code => Some code
  | None =>
      match s with
      | String c s' =>
          if byte_eqb c "010" then None else spec_code_on_line s'
      | EmptyString => None
      end
  end.
Proof. destruct s; reflexivity. Qed.

Lemma spec_code_after_anchor_unfold (s : string) :
  spec_code_after_anchor s =
  match
    match CutPrefix s anchor with
    | Some r => spec_code_on_line r
    | None => None
    end
  with
  | Some code => Some code
  | None =>
      match s with
      | String _ s' => spec_code_after_anchor s'
      | EmptyString => None
      end
  end.
Proof. destruct s; reflexivity. Qed.

(** *** The scan of the pattern and the code in words *)

Lemma reason_here_spec (s : string) :
  option_map snd (reason_here s) = option_map Some (spec_digits_after_token s).
Proof.
  unfold reason_here, spec_digits_after_token.
  destruct (CutPrefix s "reason=") as [[| c r] |]; try reflexivity.
  cbn [starts_with_digit take_digits]. destruct (is_digit c); reflexivity.
Qed.

Lemma scan_spec (s : string) :
  option_map snd (scan s) = option_map Some (spec_code_on_line s).
Proof.
  induction s as [| c s IH]; rewrite scan_unfold, spec_code_on_line_unfold;
    pose proof (reason_here_spec) as Hl.
  - specialize (Hl EmptyString).
    destruct (reason_here EmptyString) as [[rest cap] |],
             (spec_digits_after_token EmptyString) as [code |];
      cbn in Hl; try discriminate Hl; [exact Hl | reflexivity].
  - specialize (Hl (String c s)).
    destruct (reason_here (String c s)) as [[rest cap] |],
             (spec_digits_after_token (String c s)) as [code |];
      cbn in Hl; try discriminate Hl; [exact Hl |].
    destruct (byte_eqb c "010"); [reflexivity | exact IH].
Qed.

Lemma find_reason_spec (s : string) :
  option_map snd (find_reason s) = option_map Some (spec_code_after_anchor s).
Proof.
  induction s as [| c s IH];
    rewrite find_reason_unfold, spec_code_after_anchor_unfold;
    unfold match_here, anchor.
  - destruct (CutPrefix EmptyString "CTRL-EVENT-DISCONNECTED") as [r |];
      [| reflexivity].
    pose proof (scan_spec r) as Hl.
    destruct (scan r) as [[rest cap] |], (spec_code_on_line r) as [code |];
      cbn in Hl; try discriminate Hl; [exact Hl | reflexivity].
  - destruct (CutPrefix (String c s) "CTRL-EVENT-DISCONNECTED") as [r |];
      [| exact IH].
    pose proof (scan_spec r) as Hl.
    destruct (scan r) as [[rest cap] |], (spec_code_on_line r) as [code |];
      cbn in Hl; try discriminate Hl; [exact Hl | exact IH].
Qed.

(** The pattern, run by the matcher, finds the code that the words
    describe. *)
Lemma parseReason_spec (msg : string) : parseReason msg = spec_reason_code msg.
Proof.
  rewrite parseReason_find. unfold spec_reason_code.
  pose proof (find_reason_spec msg) as Hl.
  destruct (find_reason msg) as [[rest [g |]] |],
           (spec_code_after_anchor msg) as [code |];
    cbn in Hl; try discriminate Hl; [| reflexivity].
  now injection Hl as ->.
Qed.

(** *** What the words mean *)

Lemma take_skip_digits (s : string) : s = (take_digits s ++ skip_digits s)%string.
Proof.
  induction s as [| c s IH]; [reflexivity |].
  cbn [take_digits skip_digits]. destruct (is_digit c); [| reflexivity].
  cbn [append]. now rewrite <- IH.
Qed.

Lemma take_digits_all (s : string) : all_digits (take_digits s) = true.
Proof.
  induction s as [| c s IH]; [reflexivity |].
  cbn [take_digits]. destruct (is_digit c) eqn:E; [| reflexivity].
  cbn [all_digits]. now rewrite E, IH.
Qed.

Lemma skip_digits_start (s : string) : starts_with_digit (skip_digits s) = false.
Proof.
  induction s as [| c s IH]; [reflexivity |].
  cbn [skip_digits]. destruct (is_digit c) eqn:E; [exact IH |].
  cbn [starts_with_digit]. exact E.
Qed.

Lemma take_digits_start (s : string) :
  starts_with_digit s = true -> starts_with_digit (take_digits s) = true.
Proof.
  destruct s as [| c s]; [discriminate |].
  cbn [starts_with_digit take_digits]. intros E. rewrite E. exact E.
Qed.

Lemma starts_with_digit_app (a b : string) :
  starts_with_digit a = true -> starts_with_digit (a ++ b) = true.
Proof. destruct a; [discriminate | intros H; exact H]. Qed.

Lemma append_same_length (a b x y : string) :
  (a ++ x = b ++ y)%string -> String.length a = String.length b ->
  a = b /\ x = y.
Proof.
  revert b. induction a as [| c a IH]; intros [| d b] H Hl;
    try discriminate Hl.
  - split; [reflexivity | exact H].
  - cbn in H, Hl. injection H as -> H. injection Hl as Hl.
    destruct (IH b H Hl) as [-> ->]. split; reflexivity.
Qed.

Lemma append_cancel (a x y : string) : (a ++ x = a ++ y)%string -> x = y.
Proof. intros H. now destruct (append_same_length a a x y H eq_refl). Qed.

(** The code on a line stands behind a "reason=" of that line, and no
    "reason=" before that one has a digit behind it. *)
Lemma spec_code_on_line_sound (s code : string) :
  spec_code_on_line s = Some code ->
  exists mid rest,
    s = (mid ++ "reason=" ++ code ++ rest)%string /\
    has_byte mid "010" = false /\
    starts_with_digit code = true /\ all_digits code = true /\
    starts_with_digit rest = false /\
    forall mid' tail,
      s = (mid' ++ "reason=" ++ tail)%string ->
      starts_with_digit tail = true ->
      String.length mid <= String.length mid'.
Proof.
  induction s as [| c s IH]; rewrite spec_code_on_line_unfold;
    unfold spec_digits_after_token.
  - cbn. discriminate.
  - destruct (CutPrefix (String c s) "reason=") as [r |] eqn:Ecut.
    + destruct (starts_with_digit r) eqn:Ed.
      * intros H. injection H as <-.
        exists EmptyString, (skip_digits r).
        apply CutPrefix_split in Ecut.
        split; [| split; [reflexivity | split; [| split; [| split]]]].
        -- rewrite Ecut at 1. cbn [append]. now rewrite <- take_skip_digits.
        -- now apply take_digits_start.
        -- apply take_digits_all.
        -- apply skip_digits_start.
        -- intros mid' tail _ _. cbn. lia.
      * destruct (byte_eqb c "010") eqn:Ec; [discriminate |].
        intros H. destruct (IH H) as (mid & rest & Hs & Hnl & Hc & Ha & Hr & Hmin).
        exists (String c mid), rest.
        split; [exact (f_equal (String c) Hs) |].
        split; [cbn [has_byte]; now rewrite Ec, Hnl |].
        split; [exact Hc |]. split; [exact Ha |]. split; [exact Hr |].
        intros [| c' m'] tail Hs' Hd.
        -- exfalso. cbn [append] in Hs'.
           change (String c s = "reason=" ++ tail)%string in Hs'.
           rewrite Hs', CutPrefix_app in Ecut. injection Ecut as <-.
           congruence.
        -- cbn [append] in Hs'. injection Hs' as _ Hs'.
           cbn [String.length]. apply le_n_S. now apply (Hmin m' tail).
    + destruct (byte_eqb c "010") eqn:Ec; [discriminate |].
      intros H. destruct (IH H) as (mid & rest & Hs & Hnl & Hc & Ha & Hr & Hmin).
      exists (String c mid), rest.
      split; [exact (f_equal (String c) Hs) |].
      split; [cbn [has_byte]; now rewrite Ec, Hnl |].
      split; [exact Hc |]. split; [exact Ha |]. split; [exact Hr |].
      intros [| c' m'] tail Hs' Hd.
      * exfalso. cbn [append] in Hs'.
        change (String c s = "reason=" ++ tail)%string in Hs'.
        rewrite Hs', CutPrefix_app in Ecut. discriminate Ecut.
      * cbn [append] in Hs'. injection Hs' as _ Hs'.
        cbn [String.length]. apply le_n_S. now apply (Hmin m' tail).
Qed.

(** A "reason=" with a digit behind it, on the line, gives the line a
    code. *)
Lemma spec_code_on_line_complete (mid tail : string) :
  has_byte mid "010" = false -> starts_with_digit tail = true ->
  spec_code_on_line (mid ++ "reason=" ++ tail) <> None.
Proof.
  intros Hnl Hd. induction mid as [| c mid IH];
    rewrite spec_code_on_line_unfold; unfold spec_digits_after_token.
  - cbn [append]. change (String "r" (String "e" (String "a" (String "s"
      (String "o" (String "n" (String "=" tail)))))))
      with ("reason=" ++ tail)%string.
    rewrite CutPrefix_app, Hd. discriminate.
  - cbn [has_byte] in Hnl. apply orb_false_elim in Hnl as [Hc Hnl].
    destruct (CutPrefix (String c mid ++ "reason=" ++ tail) "reason=") as [r |].
    + destruct (starts_with_digit r); [discriminate |].
      cbn [append]. rewrite Hc. now apply IH.
    + cbn [append]. rewrite Hc. now apply IH.
Qed.

(** The code of a message is the code of the line behind an anchor, and
    no anchor before that one has a code on its line. *)
Lemma spec_code_after_anchor_sound (s code : string) :
  spec_code_after_anchor s = Some code ->
  exists pre r,
    s = (pre ++ anchor ++ r)%string /\
    spec_code_on_line r = Some code /\
    forall pre' r',
      s = (pre' ++ anchor ++ r')%string ->
      String.length pre' < String.length pre ->
      spec_code_on_line r' = None.
Proof.
  induction s as [| c s IH]; rewrite spec_code_after_anchor_unfold.
  - cbn. discriminate.
  - destruct (CutPrefix (String c s) anchor) as [r |] eqn:Ecut.
    + destruct (spec_code_on_line r) as [code' |] eqn:Er.
      * intros H. injection H as <-.
        exists EmptyString, r. apply CutPrefix_split in Ecut.
        split; [exact Ecut |]. split; [exact Er |].
        intros pre' r' _ Hl. cbn in Hl. lia.
      * intros H. destruct (IH H) as (pre & r0 & Hs & Hr0 & Hmin).
        exists (String c pre), r0.
        split; [exact (f_equal (String c) Hs) |]. split; [exact Hr0 |].
        intros [| c' p'] r' Hs' Hl.
        -- cbn [append] in Hs'. rewrite Hs', CutPrefix_app in Ecut.
           injection Ecut as <-. exact Er.
        -- cbn [append] in Hs'. injection Hs' as _ Hs'.
           apply (Hmin p' r' Hs'). cbn in Hl. lia.
    + intros H. destruct (IH H) as (pre & r0 & Hs & Hr0 & Hmin).
      exists (String c pre), r0.
      split; [exact (f_equal (String c) Hs) |]. split; [exact Hr0 |].
      intros [| c' p'] r' Hs' Hl.
      * cbn [append] in Hs'. rewrite Hs', CutPrefix_app in Ecut.
        discriminate Ecut.
      * cbn [append] in Hs'. injection Hs' as _ Hs'.
        apply (Hmin p' r' Hs'). cbn in Hl. lia.
Qed.

Lemma spec_code_after_anchor_complete (pre r : string) :
  spec_code_on_line r <> None ->
  spec_code_after_anchor (pre ++ anchor ++ r) <> None.
Proof.
  intros Hr. induction pre as [| c pre IH];
    rewrite spec_code_after_anchor_unfold.
  - cbn [append]. rewrite CutPrefix_app.
    destruct (spec_code_on_line r); [discriminate | contradiction].
  - destruct (CutPrefix (String c pre ++ anchor ++ r) anchor) as [r' |].
    + destruct (spec_code_on_line r'); [discriminate |].
      cbn [append]. exact IH.
    + cbn [append]. exact IH.
Qed.

(** The code in words is the code of the first anchor that has a
    "reason=" with digits on its line, and of the first such "reason=". *)
Lemma spec_code_after_anchor_token (msg : string) :
  match spec_code_after_anchor msg with
  | None => forall pre mid code rest, ~ token_at msg pre mid code rest
  | Some code =>
      exists pre mid rest,
        token_at msg pre mid code rest /\
        forall pre' mid' code' rest',
          token_at msg pre' mid' code' rest' ->
          String.length pre <= String.length pre' /\
          (String.length pre' = String.length pre ->
           String.length mid <= String.length mid')
  end.
Proof.
  destruct (spec_code_after_anchor msg) as [code |] eqn:E.
  - destruct (spec_code_after_anchor_sound _ _ E) as (pre & r & Hs & Hr & Hfirst).
    destruct (spec_code_on_line_sound _ _ Hr)
      as (mid & rest & Hr' & Hnl & Hc & Ha & Hrest & Hmin).
    exists pre, mid, rest. split.
    + unfold token_at. rewrite Hs, Hr'. repeat split; assumption.
    + intros pre' mid' code' rest' (Hs' & Hnl' & Hc' & Ha' & Hrest').
      assert (Hle : String.length pre <= String.length pre').
      { destruct (Nat.le_gt_cases (String.length pre) (String.length pre'))
          as [Hle | Hlt]; [exact Hle | exfalso].
        apply (spec_code_on_line_complete mid' (code' ++ rest') Hnl'
                 (starts_with_digit_app _ _ Hc')).
        exact (Hfirst pre' _ Hs' Hlt). }
      split; [exact Hle |]. intros Heq.
      rewrite Hs in Hs'.
      destruct (append_same_length _ _ _ _ Hs' (eq_sym Heq)) as [_ Hs''].
      apply append_cancel in Hs''.
      apply (Hmin mid' (code' ++ rest')%string);
        [congruence | now apply starts_with_digit_app].
  - intros pre mid code rest (Hs & Hnl & Hc & Ha & Hrest).
    apply (spec_code_after_anchor_complete pre (mid ++ "reason=" ++ code ++ rest))
      ; [| now rewrite <- Hs].
    apply spec_code_on_line_complete;
      [exact Hnl | now apply starts_with_digit_app].
Qed.

Lemma no_anchor_no_code (s : string) :
  Contains s anchor = false -> spec_code_after_anchor s = None.
Proof.
  induction s as [| c s IH]; intros H; rewrite spec_code_after_anchor_unfold.
  - reflexivity.
  - change (Contains (String c s) anchor)
      with (HasPrefix (String c s) anchor || Contains s anchor) in H.
    apply orb_false_elim in H as [Hp Hc].
    apply CutPrefix_HasPrefix in Hp. rewrite Hp. now apply IH.
Qed.

(** C3, as stated, fails: in "reason=4asdf" the value that follows
    "reason=" is not numeric, yet the digit it begins with is taken for
    the code and the reason is rendered "4:inactivity", not "0:". *)
Lemma leading_digit_counterexample :
  all_digits "4asdf" = false /\
  Reason (NewOnDisconnectedEvent
            "CTRL-EVENT-DISCONNECTED bssid=00:1a:dd:18:f2:45 reason=4asdf")
    = "4:inactivity"%string /\
  "4:inactivity"%string <> "0:"%string.
Proof. repeat split. discriminate. Qed.

(** C3 (amended): the reason of a disconnect event is rendered as the
    code, a colon and the label of the code in the reason table, empty when
    the table does not have the code.  The code is found as follows: take
    the first occurrence of CTRL-EVENT-DISCONNECTED in the message that is
    followed, before any line feed, by a "reason=" with a digit directly
    behind it; the code is the whole run of digits behind the first such
    "reason=" (a "reason=" that no digit follows directly is passed over,
    and what comes behind the run of digits does not matter); the code is
    "0" when the message has no such occurrence, in particular when it has
    no "reason=" or no CTRL-EVENT-DISCONNECTED. *)
Theorem disconnect_reason_rendering :
  (forall msg,
      Reason (NewOnDisconnectedEvent msg) =
      (spec_reason_code msg ++ ":"
       ++ map_get commonReasonCodes (spec_reason_code msg))%string) /\
  (forall msg,
      (parseReason msg = "0"%string /\
       Reason (NewOnDisconnectedEvent msg) = "0:"%string /\
       forall pre mid code rest, ~ token_at msg pre mid code rest) \/
      (exists pre mid rest,
          token_at msg pre mid (parseReason msg) rest /\
          Reason (NewOnDisconnectedEvent msg) =
            (parseReason msg ++ ":"
             ++ map_get commonReasonCodes (parseReason msg))%string /\
          forall pre' mid' code' rest',
            token_at msg pre' mid' code' rest' ->
            String.length pre <= String.length pre' /\
            (String.length pre' = String.length pre ->
             String.length mid <= String.length mid'))) /\
  (forall msg pre mid code rest,
      token_at msg pre mid code rest ->
      (forall pre' mid' code' rest',
          token_at msg pre' mid' code' rest' ->
          String.length pre <= String.length pre' /\
          (String.length pre' = String.length pre ->
           String.length mid <= String.length mid')) ->
      Reason (NewOnDisconnectedEvent msg) =
      (code ++ ":" ++ map_get commonReasonCodes code)%string) /\
  (forall msg,
      Contains msg "reason=" = false ->
      Reason (NewOnDisconnectedEvent msg) = "0:"%string) /\
  (forall msg,
      Contains msg anchor = false ->
      Reason (NewOnDisconnectedEvent msg) = "0:"%string) /\
  (forall msg,
      has_reason_code msg = false ->
      Reason (NewOnDisconnectedEvent msg) = "0:"%string).
Proof.
  assert (Hren : forall msg,
             Reason (NewOnDisconnectedEvent msg) =
             (spec_reason_code msg ++ ":"
              ++ map_get commonReasonCodes (spec_reason_code msg))%string).
  { intros msg. unfold NewOnDisconnectedEvent, Reason.
    now rewrite parseReason_spec. }
  split; [exact Hren |]. split; [| split; [| split; [| split]]].
  - intros msg. rewrite Hren, parseReason_spec. unfold spec_reason_code.
    pose proof (spec_code_after_anchor_token msg) as H.
    destruct (spec_code_after_anchor msg) as [code |].
    + right. destruct H as (pre & mid & rest & Htok & Hmin).
      exists pre, mid, rest. split; [exact Htok |]. split; [reflexivity | exact Hmin].
    + left. split; [reflexivity |]. split; [reflexivity | exact H].
  - intros msg pre mid code rest Htok Hmin. rewrite Hren.
    unfold spec_reason_code.
    pose proof (spec_code_after_anchor_token msg) as H.
    destruct (spec_code_after_anchor msg) as [code0 |];
      [| now apply H in Htok].
    destruct H as (pre0 & mid0 & rest0 & Htok0 & Hmin0).
    destruct (Hmin _ _ _ _ Htok0) as [Hp Hm].
    destruct (Hmin0 _ _ _ _ Htok) as [Hp0 Hm0].
    assert (Hpl : String.length pre = String.length pre0) by lia.
    assert (Hml : String.length mid = String.length mid0).
    { specialize (Hm (eq_sym Hpl)). specialize (Hm0 Hpl). lia. }
    destruct Htok as (Hs & _ & _ & Ha & Hr).
    destruct Htok0 as (Hs0 & _ & _ & Ha0 & Hr0).
    rewrite Hs in Hs0.
    destruct (append_same_length _ _ _ _ Hs0 Hpl) as [_ H1].
    apply append_cancel in H1.
    destruct (append_same_length _ _ _ _ H1 Hml) as [_ H2].
    apply append_cancel in H2.
    destruct (digits_then_rest code rest Ha Hr) as [Ht _].
    destruct (digits_then_rest code0 rest0 Ha0 Hr0) as [Ht0 _].
    assert (Hc : code = code0) by congruence.
    now rewrite Hc.
  - intros msg H. unfold NewOnDisconnectedEvent, Reason.
    now rewrite (parseReason_no_code msg (no_token_no_code msg H)).
  - intros msg H. rewrite Hren. unfold spec_reason_code.
    now rewrite (no_anchor_no_code msg H).
  - intros msg H. unfold NewOnDisconnectedEvent, Reason.
    now rewrite (parseReason_no_code msg H).
Qed.

Lemma disconnect_reason_rendering_witness :
  Reason (NewOnDisconnectedEvent
            "CTRL-EVENT-DISCONNECTED bssid=00:1a:dd:18:f2:45 reason=2")
    = "2:invalid-auth"%string /\
  Reason (NewOnDisconnectedEvent
            "CTRL-EVENT-DISCONNECTED bssid=00:1a:dd:18:f2:45")
    = "0:"%string /\
  Reason (NewOnDisconnectedEvent
            "CTRL-EVENT-DISCONNECTED bssid=00:1a:dd:18:f2:45 reason=1235")
    = "1235:"%string /\
  Reason (NewOnDisconnectedEvent
            "CTRL-EVENT-DISCONNECTED bssid=00:1a:dd:18:f2:45 reason=asdf4")
    = "0:"%string /\
  Reason (NewOnDisconnectedEvent
            "CTRL-EVENT-DISCONNECTED bssid=00:1a:dd:18:a4:25 reason=3 locally_generated=1")
    = "3:sta-left-ess"%string /\
  Reason (NewOnDisconnectedEvent
            "CTRL-EVENT-DISCONNECTED bssid=00:1a:dd:18:f2:45 reason=asdf4 reason=5")
    = "5:ap-overloaded"%string /\
  Reason (NewOnDisconnectedEvent "reason=2") = "0:"%string /\
  Reason (NewOnDisconnectedEvent
            (String "C" (String "T" (String "R" (String "L" (String "-"
            (String "E" (String "V" (String "E" (String "N" (String "T"
            (String "-" (String "D" (String "I" (String "S" (String "C"
            (String "O" (String "N" (String "N" (String "E" (String "C"
            (String "T" (String "E" (String "D" (String "010"
               "reason=2")))))))))))))))))))))))))
    = "0:"%string /\
  Reason (NewOnDisconnectedEvent
            (anchor ++ String "010" (anchor ++ " reason=7"))%string)
    = "7:class-3-nonassoc"%string /\
  (exists pre mid rest,
      token_at "CTRL-EVENT-DISCONNECTED bssid=00:1a:dd:18:f2:45 reason=asdf4 reason=5"
               pre mid "5" rest) /\
  Reason (NewOnDisconnectedEvent "CTRL-EVENT-DISCONNECTED reason=x reason=11 a")
    = ("11" ++ ":" ++ map_get commonReasonCodes "11")%string.
Proof.
  destruct disconnect_reason_rendering as (H1 & H2 & H3 & H4 & H5 & H6).
  split; [exact (H1 "CTRL-EVENT-DISCONNECTED bssid=00:1a:dd:18:f2:45 reason=2"%string) |].
  split; [exact (H4 "CTRL-EVENT-DISCONNECTED bssid=00:1a:dd:18:f2:45"%string eq_refl) |].
  split; [exact (H1 "CTRL-EVENT-DISCONNECTED bssid=00:1a:dd:18:f2:45 reason=1235"%string) |].
  split; [exact (H6 "CTRL-EVENT-DISCONNECTED bssid=00:1a:dd:18:f2:45 reason=asdf4"%string
                    eq_refl) |].
  split; [exact (H1 "CTRL-EVENT-DISCONNECTED bssid=00:1a:dd:18:a4:25 reason=3 locally_generated=1"%string) |].
  split; [exact (H1 "CTRL-EVENT-DISCONNECTED bssid=00:1a:dd:18:f2:45 reason=asdf4 reason=5"%string) |].
  split; [exact (H5 "reason=2"%string eq_refl) |].
  split; [exact (H1 (anchor ++ String "010" "reason=2")%string) |].
  split; [exact (H1 (anchor ++ String "010" (anchor ++ " reason=7"))%string) |].
  split.
  - destruct (H2 "CTRL-EVENT-DISCONNECTED bssid=00:1a:dd:18:f2:45 reason=asdf4 reason=5")
      as [[H0 _] | (pre & mid & rest & Htok & _)].
    + vm_compute in H0. discriminate H0.
    + exists pre, mid, rest. exact Htok.
  - destruct (H2 "CTRL-EVENT-DISCONNECTED reason=x reason=11 a")
      as [[H0 _] | (pre & mid & rest & Htok & _ & Hmin)].
    + vm_compute in H0. discriminate H0.
    + exact (H3 _ pre mid "11"%string rest Htok Hmin).
Defined.

End DisconnectReasonClaim.

(* ===================================================================== *)
(** ** ListNetworks *)
(* ===================================================================== *)

Section Networks.

Import WPASupplicantCtrl.

Lemma index_nth (f : list string) (i : nat) :
  i < length f -> index f i = Ret (nth i f EmptyString).
Proof.
  intros H. unfold index.
  destruct (nth_error f i) eqn:E.
  - now rewrite (nth_error_nth f i EmptyString E).
  - apply nth_error_None in E. lia.
Qed.

(** Lines that all have two fields or more are parsed one by one, in
    order. *)
Lemma parse_lines_wellformed (nets : list string) :
  forallb fields_ok nets = true ->
  parse_lines nets = Ret (map network_of_line nets).
Proof.
  induction nets as [| net nets IH]; intros H; [reflexivity |].
  cbn [forallb] in H. apply andb_prop in H as [Hok Hrest].
  unfold fields_ok in Hok. apply Nat.leb_le in Hok.
  cbn [parse_lines map]. rewrite !index_nth by lia.
  cbn [bind]. rewrite (IH Hrest). reflexivity.
Qed.

(** A line with fewer than two fields makes the loop panic. *)
Lemma parse_lines_malformed (nets : list string) :
  forallb fields_ok nets = false ->
  parse_lines nets = Panic "index out of range".
Proof.
  induction nets as [| net nets IH]; intros H; [discriminate |].
  cbn [forallb] in H. cbn [parse_lines].
  destruct (fields_ok net) eqn:Hok.
  - unfold fields_ok in Hok. apply Nat.leb_le in Hok.
    rewrite !index_nth by lia. cbn [bind].
    cbn [andb] in H. rewrite (IH H). reflexivity.
  - unfold fields_ok in Hok. apply Nat.leb_gt in Hok.
    unfold index.
    destruct (Split net "009") as [| f0 [| f1 fs]]; cbn in Hok |- *;
      [reflexivity | reflexivity | lia].
Qed.

Lemma Split_nonempty (s : string) (sep : ascii) : Split s sep <> [].
Proof.
  destruct s as [| c s]; cbn; [discriminate |].
  destruct (byte_eqb c sep); [discriminate |].
  destruct (Split s sep); discriminate.
Qed.

(** What ListNetworks returns on a reply: the first line is discarded, the
    others are parsed in order when they are well formed; one malformed
    line and the call panics. *)
Lemma parse_networks_spec (rsp : string) :
  let nets := tl (Split rsp "010") in
  parse_networks rsp None =
  if forallb fields_ok nets
  then Ret (map network_of_line nets, None)
  else Panic "index out of range".
Proof.
  intros nets. unfold parse_networks, slice. subst nets.
  pose proof (Split_nonempty rsp "010") as Hne.
  destruct (Split rsp "010") as [| header nets]; [contradiction |].
  cbn [length tl]. rewrite Nat.leb_refl.
  cbn [Nat.leb andb skipn bind].
  replace (S (length nets) - 1) with (length nets) by lia.
  rewrite firstn_all.
  destruct (forallb fields_ok nets) eqn:H.
  - rewrite (parse_lines_wellformed nets H). reflexivity.
  - rewrite (parse_lines_malformed nets H). reflexivity.
Qed.

(** C2 (defect in the code): ListNetworks reads [f[1]] without looking at
    the number of fields. On the reply of two lines whose second line is
    the single field "0", the call panics with an index out of range;
    it returns no parse error. *)
Theorem ListNetworks_one_field_line_panics :
  fields_ok "0" = false /\
  parse_networks one_field_reply None = Panic "index out of range" /\
  exists wc',
    ListNetworks (ctrl_with_reply one_field_reply) calm
    = Some (Panic "index out of range", wc').
Proof.
  split; [reflexivity |]. split; [reflexivity |].
  eexists. reflexivity.
Qed.

End Networks.

(* ===================================================================== *)
(** ** The simulated daemon *)
(* ===================================================================== *)

Section Mock.

Import WPAProcessMock.

(** The guard of getNetwork lets the index len(networks) through. *)
Lemma getNetwork_at_length (w : t) :
  getNetwork w (Z.of_nat (length (networks w))) = Panic "index out of range".
Proof.
  unfold getNetwork.
  replace (Z.of_nat (length (networks w)) <? 0)%Z with false
    by (symmetry; apply Z.ltb_ge; lia).
  replace (Z.of_nat (length (networks w)) >? Z.of_nat (length (networks w)))%Z
    with false by (symmetry; rewrite Z.gtb_ltb; apply Z.ltb_ge; lia).
  cbn [orb]. rewrite Nat2Z.id. unfold index.
  replace (nth_error (networks w) (length (networks w))) with (@None (option network))
    by (symmetry; apply nth_error_None; lia).
  reflexivity.
Qed.

(** Every other index that names no network yields nil. *)
Lemma getNetwork_rejects (w : t) (id : Z) :
  names_network w id = false ->
  id <> Z.of_nat (length (networks w)) ->
  getNetwork w id = Ret None.
Proof.
  intros Hn Hne. unfold getNetwork, names_network in *.
  destruct (id <? 0)%Z eqn:Hneg; [reflexivity |].
  destruct (id >? Z.of_nat (length (networks w)))%Z eqn:Hgt; [reflexivity |].
  cbn [orb]. apply Z.ltb_ge in Hneg.
  rewrite Z.gtb_ltb in Hgt. apply Z.ltb_ge in Hgt.
  replace (0 <=? id)%Z with true in Hn by (symmetry; apply Z.leb_le; lia).
  replace (id <? Z.of_nat (length (networks w)))%Z with true in Hn
    by (symmetry; apply Z.ltb_lt; lia).
  cbn [andb] in Hn. unfold index.
  destruct (nth_error (networks w) (Z.to_nat id)) as [[n |] |] eqn:E.
  - discriminate.
  - reflexivity.
  - apply nth_error_None in E. lia.
Qed.

(** An index that names a network yields that network. *)
Lemma getNetwork_finds (w : t) (id : Z) :
  names_network w id = true ->
  exists n, getNetwork w id = Ret (Some (Z.to_nat id, n)) /\
            nth_error (networks w) (Z.to_nat id) = Some (Some n).
Proof.
  intros Hn. unfold names_network in Hn.
  apply andb_prop in Hn as [Hr Hn]. apply andb_prop in Hr as [H0 Hlt].
  apply Z.leb_le in H0. apply Z.ltb_lt in Hlt.
  unfold getNetwork, index.
  replace (id <? 0)%Z with false by (symmetry; apply Z.ltb_ge; lia).
  replace (id >? Z.of_nat (length (networks w)))%Z with false
    by (symmetry; rewrite Z.gtb_ltb; apply Z.ltb_ge; lia).
  cbn [orb].
  destruct (nth_error (networks w) (Z.to_nat id)) as [[n |] |];
    try discriminate.
  exists n. split; reflexivity.
Qed.

Lemma Split_app_sep (a b : string) (sep : ascii) :
  has_byte a sep = false ->
  Split (a ++ String sep b) sep = a :: Split b sep.
Proof.
  induction a as [| c a IH]; intros H; cbn.
  - unfold byte_eqb. now rewrite Ascii.eqb_refl.
  - cbn in H. apply orb_false_elim in H as [Hc Ha].
    rewrite Hc, (IH Ha). reflexivity.
Qed.

Lemma Split_no_sep (a : string) (sep : ascii) :
  has_byte a sep = false -> Split a sep = [a].
Proof.
  induction a as [| c a IH]; intros H; cbn; [reflexivity |].
  cbn in H. apply orb_false_elim in H as [Hc Ha].
  rewrite Hc, (IH Ha). reflexivity.
Qed.

(** The commands that look a network up reply "FAIL" or go on according
    to getNetworkStr alone: a panic of the lookup is a panic of the
    command, and nil is answered with "FAIL" and an unchanged state. *)
Lemma lookup_command_fails (w : t) (idstr cmd : string) (conn : nat) :
  has_byte idstr " " = false ->
  lookup_command idstr cmd ->
  (forall m, getNetworkStr w idstr = Panic m ->
             processMockCommand w cmd conn = Panic m) /\
  (getNetworkStr w idstr = Ret None ->
   processMockCommand w cmd conn = Ret ("FAIL"%string, w)).
Proof.
  intros Hid Hcmd.
  assert (Hfields : exists verb rest,
             Split cmd " " = verb :: idstr :: rest /\
             ((verb = "REMOVE_NETWORK"%string /\ rest = []) \/
              (verb = "ENABLE_NETWORK"%string /\ rest = []) \/
              (verb = "SET_NETWORK"%string /\ 2 <= length rest))).
  { destruct Hcmd as [| | key value Hkey].
    - exists "REMOVE_NETWORK"%string, [].
      change ("REMOVE_NETWORK " ++ idstr)%string
        with ("REMOVE_NETWORK" ++ String " " idstr)%string.
      rewrite Split_app_sep by reflexivity.
      rewrite (Split_no_sep idstr " " Hid). tauto.
    - exists "ENABLE_NETWORK"%string, [].
      change ("ENABLE_NETWORK " ++ idstr)%string
        with ("ENABLE_NETWORK" ++ String " " idstr)%string.
      rewrite Split_app_sep by reflexivity.
      rewrite (Split_no_sep idstr " " Hid). tauto.
    - exists "SET_NETWORK"%string, (key :: Split value " ").
      change ("SET_NETWORK " ++ idstr ++ " " ++ key ++ " " ++ value)%string
        with ("SET_NETWORK" ++ String " " (idstr ++ String " " (key ++ String " " value)))%string.
      rewrite !Split_app_sep by (assumption || reflexivity).
      split; [reflexivity |]. right; right. split; [reflexivity |].
      pose proof (Split_nonempty value " ") as Hne.
      destruct (Split value " "); [contradiction | cbn; lia]. }
  destruct Hfields as (verb & rest & Hsplit & Hverb).
  unfold processMockCommand. rewrite Hsplit.
  cbn [index nth_error bind length].
  destruct Hverb as [[-> ->] | [[-> ->] | [-> Hlen]]].
  - cbn [String.eqb Ascii.eqb Bool.eqb Nat.ltb Nat.leb length].
    split; [intros m -> | intros ->]; reflexivity.
  - cbn [String.eqb Ascii.eqb Bool.eqb Nat.ltb Nat.leb length].
    split; [intros m -> | intros ->]; reflexivity.
  - cbn [String.eqb Ascii.eqb Bool.eqb].
    replace (S (S (length rest)) <? 4) with false
      by (symmetry; apply Nat.ltb_ge; lia).
    split; [intros m -> | intros ->]; reflexivity.
Qed.

(** For an id that names no network, every such command replies "FAIL"
    and leaves the state as it is, but for the id len(networks), where it
    panics. *)
Lemma lookup_command_missing_id (w : t) (idstr cmd : string) (conn : nat) :
  has_byte idstr " " = false ->
  lookup_command idstr cmd ->
  match Atoi idstr with
  | None => processMockCommand w cmd conn = Ret ("FAIL"%string, w)
  | Some id =>
      (id = Z.of_nat (length (networks w)) ->
       processMockCommand w cmd conn = Panic "index out of range") /\
      (names_network w id = false -> id <> Z.of_nat (length (networks w)) ->
       processMockCommand w cmd conn = Ret ("FAIL"%string, w))
  end.
Proof.
  intros Hid Hcmd.
  destruct (lookup_command_fails w idstr cmd conn Hid Hcmd) as [Hp Hn].
  unfold getNetworkStr in Hp, Hn.
  destruct (Atoi idstr) as [id |].
  - split.
    + intros ->. apply Hp, getNetwork_at_length.
    + intros Hno Hne. apply Hn. now apply getNetwork_rejects.
  - now apply Hn.
Qed.

(** C10 (defect in the code): getNetwork tests [id > len(w.networks)]
    where [id >= len(w.networks)] is meant. The id equal to the number of
    stored networks names no network, yet REMOVE_NETWORK, ENABLE_NETWORK and
    SET_NETWORK with that id index the slice out of range and panic; they
    do not reply "FAIL". *)
Theorem processMockCommand_id_at_length_panics :
  names_network NewWPAProcessMock 0 = false /\
  getNetwork NewWPAProcessMock 0 = Panic "index out of range" /\
  processMockCommand NewWPAProcessMock "REMOVE_NETWORK 0" 0
    = Panic "index out of range" /\
  processMockCommand NewWPAProcessMock "ENABLE_NETWORK 0" 0
    = Panic "index out of range" /\
  processMockCommand NewWPAProcessMock "SET_NETWORK 0 ssid x" 0
    = Panic "index out of range" /\
  processMockCommand NewWPAProcessMock "REMOVE_NETWORK 1" 0
    = Ret ("FAIL"%string, NewWPAProcessMock).
Proof. repeat split. Qed.

End Mock.

(* ===================================================================== *)
(** ** Runs of the reader, Close and the commands *)
(* ===================================================================== *)

Section ReaderRuns.

Import WPACtrl.

Lemma route_reply_datagram (b msg : list ascii) :
  length b = buf_size -> is_reply_datagram msg = true ->
  route (copy b msg) (Nat.min (length b) (length msg))
  = Ret (ToReplies (reply_payload msg)).
Proof.
  intros Hb Hr. destruct msg as [| b0 rest]; [discriminate |].
  assert (Hbs : buf_size = 4096) by reflexivity.
  cbn [is_reply_datagram] in Hr. apply negb_true_iff in Hr.
  unfold route, index.
  rewrite nth_error_copy by (cbn [length]; lia).
  cbn [nth_error bind]. rewrite Hr.
  rewrite slice_copy by (cbn [length]; lia).
  cbn [bind skipn]. rewrite Hb, Nat.sub_0_r.
  unfold reply_payload. reflexivity.
Qed.

Lemma route_event_datagram (b msg : list ascii) :
  length b = buf_size -> is_event_datagram msg = true ->
  route (copy b msg) (Nat.min (length b) (length msg))
  = Ret (ToEvents (event_payload msg)).
Proof.
  intros Hb He. destruct msg as [| b0 [| b1 [| b2 rest]]]; try discriminate.
  cbn [is_event_datagram] in He. apply andb_prop in He as [H0 H2].
  pose proof (route_three_bytes b b0 b1 b2 rest Hb) as Hr.
  cbn zeta in Hr. unfold Read in Hr. cbn [fst snd] in Hr.
  rewrite Hr, H0, H2. cbn [andb negb].
  unfold event_payload. cbn [skipn]. reflexivity.
Qed.

(** A reply that arrives while the reply slot is taken is dropped: the
    reader goes on, and both queues are as they were. *)
Theorem reply_dropped_when_slot_full (wc : t) (msg : list ascii) :
  wf_ctrl wc -> ctx_done wc = false ->
  is_reply_datagram msg = true ->
  has_room (solicited wc) = false ->
  exists wc',
    receive_step wc (Datagram msg) = Continue wc' /\
    solicited wc' = solicited wc /\ unsolicited wc' = unsolicited wc.
Proof.
  intros Hwf Hdone Hr Hfull.
  unfold receive_step, Read. cbn [with_buf ctx_done buf].
  rewrite Hdone, (route_reply_datagram _ _ Hwf Hr).
  unfold offer_reply. cbn [with_buf solicited]. rewrite Hfull.
  eexists. repeat split.
Qed.

Lemma reply_dropped_when_slot_full_witness :
  exists wc',
    receive_step (ctrl_with_reply "FAIL") (Datagram (bytes "OK")) = Continue wc' /\
    solicited wc' = solicited (ctrl_with_reply "FAIL") /\
    unsolicited wc' = unsolicited (ctrl_with_reply "FAIL").
Proof.
  apply (reply_dropped_when_slot_full (ctrl_with_reply "FAIL") (bytes "OK"));
    reflexivity.
Defined.

(** Events keep their order: a run of event datagrams that the event
    queue has room for appends their payloads to it one after the other,
    and leaves the reply queue alone. *)
Theorem events_enqueued_in_order (msgs : list (list ascii)) (wc : t) :
  wf_ctrl wc -> ctx_done wc = false ->
  forallb is_event_datagram msgs = true ->
  length (queue (unsolicited wc)) + length msgs <= capacity (unsolicited wc) ->
  exists wc',
    receiveLoop wc (map Datagram msgs) = Continue wc' /\
    queue (unsolicited wc') = queue (unsolicited wc) ++ map event_payload msgs /\
    solicited wc' = solicited wc.
Proof.
  revert wc. induction msgs as [| msg msgs IH]; intros wc Hwf Hdone Hall Hroom.
  - exists wc. cbn. rewrite app_nil_r. repeat split.
  - cbn [forallb] in Hall. apply andb_prop in Hall as [He Hall].
    cbn [length] in Hroom. cbn [map receiveLoop].
    assert (Hstep : receive_step wc (Datagram msg) =
              Continue (mk (solicited wc)
                           (enqueue (unsolicited wc) (event_payload msg))
                           (ctx_done wc) (written wc) (copy (buf wc) msg))).
    { unfold receive_step, Read. cbn [with_buf ctx_done buf].
      rewrite Hdone, (route_event_datagram _ _ Hwf He).
      unfold send_event, has_room. cbn [with_buf unsolicited].
      replace (length (queue (unsolicited wc)) <? capacity (unsolicited wc))
        with true by (symmetry; apply Nat.ltb_lt; lia).
      cbn [with_buf solicited unsolicited ctx_done written buf].
      rewrite ?Hdone. reflexivity. }
    rewrite Hstep.
    edestruct (IH (mk (solicited wc)
                      (enqueue (unsolicited wc) (event_payload msg))
                      (ctx_done wc) (written wc) (copy (buf wc) msg)))
      as (wc' & Hrun & Hq & Hs).
    + unfold wf_ctrl. cbn [buf]. now rewrite copy_length.
    + exact Hdone.
    + exact Hall.
    + cbn [unsolicited enqueue queue capacity]. rewrite length_app. cbn. lia.
    + exists wc'. split; [exact Hrun |]. split; [| exact Hs].
      rewrite Hq. cbn [unsolicited enqueue queue map].
      now rewrite <- app_assoc.
Qed.

Lemma events_enqueued_in_order_witness :
  exists wc',
    receiveLoop NewWPACtrl
      (map Datagram [bytes "<2>CTRL-EVENT-SCAN-STARTED";
                     bytes "<3>CTRL-EVENT-SCAN-RESULTS"])
    = Continue wc' /\
    queue (unsolicited wc')
    = queue (unsolicited NewWPACtrl)
      ++ map event_payload [bytes "<2>CTRL-EVENT-SCAN-STARTED";
                            bytes "<3>CTRL-EVENT-SCAN-RESULTS"] /\
    solicited wc' = solicited NewWPACtrl.
Proof.
  apply (events_enqueued_in_order
           [bytes "<2>CTRL-EVENT-SCAN-STARTED"; bytes "<3>CTRL-EVENT-SCAN-RESULTS"]
           NewWPACtrl NewWPACtrl_wf eq_refl eq_refl).
  cbn. lia.
Defined.

Lemma app_one_neq {A : Type} (l : list A) (x : A) : l ++ [x] <> l.
Proof.
  intros H. apply (f_equal (@length A)) in H.
  rewrite length_app in H. cbn in H. lia.
Qed.

(** C1 (amended): for every inbound datagram that is three bytes long or
    more, or that is not empty and does not begin with '<', the reader
    puts it on the event queue if and only if it is three bytes long or
    more with '<' as first byte and '>' as third byte, the byte between
    them not being inspected (while the event queue is full the reader
    waits with it); a datagram of three bytes or more that begins with '<'
    and has no '>' as third byte is put on neither queue; and every datagram
    that is not empty and does not begin with '<', whatever its length, is
    treated as a reply: it is put on the reply queue if the slot is free,
    and dropped if not. *)
Theorem receive_step_classifies (wc : t) (msg : list ascii) :
  wf_ctrl wc -> ctx_done wc = false ->
  3 <= length msg \/ is_reply_datagram msg = true ->
  (is_event_datagram msg = true ->
   if has_room (unsolicited wc)
   then exists wc',
       receive_step wc (Datagram msg) = Continue wc' /\
       queue (unsolicited wc') = queue (unsolicited wc) ++ [event_payload msg] /\
       solicited wc' = solicited wc
   else exists wc',
       receive_step wc (Datagram msg) = Blocked wc' /\
       unsolicited wc' = unsolicited wc /\ solicited wc' = solicited wc) /\
  (is_reply_datagram msg = true ->
   exists wc',
     receive_step wc (Datagram msg) = Continue wc' /\
     unsolicited wc' = unsolicited wc /\
     queue (solicited wc') =
       if has_room (solicited wc)
       then queue (solicited wc) ++ [reply_payload msg]
       else queue (solicited wc)) /\
  (is_event_datagram msg = false -> is_reply_datagram msg = false ->
   exists wc',
     receive_step wc (Datagram msg) = Continue wc' /\
     unsolicited wc' = unsolicited wc /\ solicited wc' = solicited wc) /\
  ((exists wc' v,
       receive_step wc (Datagram msg) = Continue wc' /\
       queue (unsolicited wc') = queue (unsolicited wc) ++ [v])
   <-> (is_event_datagram msg = true /\ has_room (unsolicited wc) = true)).
Proof.
  intros Hwf Hdone Hdom.
  assert (Hev : is_event_datagram msg = true ->
                receive_step wc (Datagram msg) =
                send_event (with_buf wc (copy (buf wc) msg)) (event_payload msg)).
  { intros He. unfold receive_step, Read. cbn [with_buf ctx_done buf].
    now rewrite Hdone, (route_event_datagram _ _ Hwf He). }
  assert (Hre : is_reply_datagram msg = true ->
                receive_step wc (Datagram msg) =
                Continue (offer_reply (with_buf wc (copy (buf wc) msg))
                                      (reply_payload msg))).
  { intros Hr. unfold receive_step, Read. cbn [with_buf ctx_done buf].
    now rewrite Hdone, (route_reply_datagram _ _ Hwf Hr). }
  assert (Hdr : is_event_datagram msg = false -> is_reply_datagram msg = false ->
                receive_step wc (Datagram msg) =
                Continue (with_buf wc (copy (buf wc) msg))).
  { intros He Hr. destruct Hdom as [Hlen | Hr']; [| congruence].
    destruct msg as [| b0 [| b1 [| b2 rest]]]; cbn in Hlen; try lia.
    cbn [is_event_datagram is_reply_datagram] in He, Hr.
    apply negb_false_iff in Hr. rewrite Hr in He. cbn [andb] in He.
    destruct (receive_step_three_bytes wc b0 b1 b2 rest Hwf Hdone) as [_ Hs].
    cbn zeta in Hs. rewrite Hs, Hr, He. reflexivity. }
  assert (Hsend : forall v,
             send_event (with_buf wc (copy (buf wc) msg)) v =
             if has_room (unsolicited wc)
             then Continue (mk (solicited wc) (enqueue (unsolicited wc) v)
                               (ctx_done wc) (written wc) (copy (buf wc) msg))
             else Blocked (with_buf wc (copy (buf wc) msg))).
  { intros v. unfold send_event. cbn [with_buf unsolicited solicited ctx_done
                                        written buf].
    reflexivity. }
  assert (Hoffer : forall v,
             offer_reply (with_buf wc (copy (buf wc) msg)) v =
             if has_room (solicited wc)
             then mk (enqueue (solicited wc) v) (unsolicited wc)
                     (ctx_done wc) (written wc) (copy (buf wc) msg)
             else with_buf wc (copy (buf wc) msg)).
  { intros v. unfold offer_reply. cbn [with_buf unsolicited solicited ctx_done
                                         written buf].
    reflexivity. }
  split; [| split; [| split]].
  - intros He. rewrite (Hev He), Hsend.
    destruct (has_room (unsolicited wc)); eexists; repeat split.
  - intros Hr. rewrite (Hre Hr), Hoffer.
    destruct (has_room (solicited wc)); eexists; repeat split.
  - intros He Hr. rewrite (Hdr He Hr). eexists; repeat split.
  - split.
    + intros (wc' & v & Hstep & Hq).
      destruct (is_event_datagram msg) eqn:He.
      * rewrite (Hev eq_refl), Hsend in Hstep.
        destruct (has_room (unsolicited wc)); [now split | discriminate].
      * exfalso. destruct (is_reply_datagram msg) eqn:Hr.
        -- rewrite (Hre eq_refl), Hoffer in Hstep. injection Hstep as <-.
           destruct (has_room (solicited wc)); cbn in Hq;
             symmetry in Hq; exact (app_one_neq _ _ Hq).
        -- rewrite (Hdr eq_refl eq_refl) in Hstep. injection Hstep as <-.
           cbn in Hq. symmetry in Hq. exact (app_one_neq _ _ Hq).
    + intros [He Hroom]. rewrite (Hev He), Hsend, Hroom.
      eexists. eexists. split; reflexivity.
Qed.

Lemma receive_step_classifies_witness :
  (exists wc',
      receive_step NewWPACtrl (Datagram (bytes "<2>CTRL-EVENT-CONNECTED"))
        = Continue wc' /\
      queue (unsolicited wc')
        = queue (unsolicited NewWPACtrl)
          ++ [event_payload (bytes "<2>CTRL-EVENT-CONNECTED")] /\
      solicited wc' = solicited NewWPACtrl) /\
  (exists wc',
      receive_step NewWPACtrl (Datagram (bytes "OK")) = Continue wc' /\
      unsolicited wc' = unsolicited NewWPACtrl /\
      queue (solicited wc')
        = queue (solicited NewWPACtrl) ++ [reply_payload (bytes "OK")]) /\
  (exists wc',
      receive_step NewWPACtrl (Datagram (bytes "<2x")) = Continue wc' /\
      unsolicited wc' = unsolicited NewWPACtrl /\
      solicited wc' = solicited NewWPACtrl) /\
  (exists wc' v,
      receive_step NewWPACtrl (Datagram (bytes "<a>x")) = Continue wc' /\
      queue (unsolicited wc') = queue (unsolicited NewWPACtrl) ++ [v]).
Proof.
  split; [| split; [| split]].
  - exact (proj1 (receive_step_classifies NewWPACtrl
                    (bytes "<2>CTRL-EVENT-CONNECTED") NewWPACtrl_wf eq_refl
                    (or_introl (proj1 (Nat.leb_le 3 23) eq_refl)))
                 eq_refl).
  - exact (proj1 (proj2 (receive_step_classifies NewWPACtrl (bytes "OK")
                           NewWPACtrl_wf eq_refl (or_intror eq_refl)))
                 eq_refl).
  - exact (proj1 (proj2 (proj2 (receive_step_classifies NewWPACtrl (bytes "<2x")
                           NewWPACtrl_wf eq_refl
                           (or_introl (proj1 (Nat.leb_le 3 3) eq_refl)))))
                 eq_refl eq_refl).
  - exact (proj2 (proj2 (proj2 (proj2 (receive_step_classifies NewWPACtrl
                           (bytes "<a>x") NewWPACtrl_wf eq_refl
                           (or_introl (proj1 (Nat.leb_le 3 4) eq_refl))))))
                 (conj eq_refl eq_refl)).
Defined.

End ReaderRuns.

(* ===================================================================== *)
(** ** White space around a reply *)
(* ===================================================================== *)

Section ReplyTrimming.

Import WPACtrl.

Lemma rune_in_In (r : string) (l : list string) : rune_in r l = true <-> In r l.
Proof.
  unfold rune_in. rewrite existsb_exists. split.
  - intros (x & Hx & E). apply String.eqb_eq in E. now subst x.
  - intros H. exists r. split; [exact H | apply String.eqb_refl].
Qed.

Lemma append_nil_r (s : string) : (s ++ EmptyString)%string = s.
Proof. induction s as [| c s IH]; cbn; [reflexivity | now rewrite IH]. Qed.

(** The encodings that TrimSpace looks for are the encodings of the
    White_Space code points, no more and no fewer. *)
Lemma space_runes_cases (r : string) :
  In r space_runes ->
  (exists c, r = String c EmptyString /\ ascii_space c = true) \/
  In r unicode_spaces.
Proof.
  intros H.
  assert (Hall : forallb (fun r =>
                   match r with
                   | String c EmptyString => ascii_space c
                   | _ => rune_in r unicode_spaces
                   end) space_runes = true) by (vm_compute; reflexivity).
  rewrite forallb_forall in Hall. specialize (Hall r H).
  destruct r as [| c [| d r]].
  - right. now apply rune_in_In.
  - left. now exists c.
  - right. now apply rune_in_In.
Qed.

Lemma ascii_space_rune (c : ascii) :
  ascii_space c = true -> In (String c EmptyString) space_runes.
Proof.
  intros H. apply rune_in_In.
  destruct c as [[] [] [] [] [] [] [] []];
    first [ discriminate H | vm_compute; reflexivity ].
Qed.

Lemma unicode_spaces_runes (p : string) :
  In p unicode_spaces -> In p space_runes.
Proof.
  intros H.
  assert (Hall : forallb (fun p => rune_in p space_runes) unicode_spaces = true)
    by (vm_compute; reflexivity).
  rewrite forallb_forall in Hall. apply rune_in_In. now apply Hall.
Qed.

Lemma space_runes_nonempty (r : string) : In r space_runes -> r <> EmptyString.
Proof.
  intros H.
  assert (Hall : forallb (fun r => negb (String.eqb r EmptyString)) space_runes
                 = true) by (vm_compute; reflexivity).
  rewrite forallb_forall in Hall. specialize (Hall r H).
  intros ->. discriminate Hall.
Qed.

Lemma white_run_app (a b : string) :
  white_run a -> white_run b -> white_run (a ++ b).
Proof.
  intros Ha Hb. induction Ha as [| r s Hr Hs IH]; [exact Hb |].
  rewrite append_assoc. now constructor.
Qed.

Lemma white_run_one (r : string) : In r space_runes -> white_run r.
Proof.
  intros H. rewrite <- (append_nil_r r). constructor; [exact H | constructor].
Qed.

Lemma first_cut_In (s r : string) (seqs : list string) :
  first_cut s seqs = Some r -> exists p, In p seqs /\ s = (p ++ r)%string.
Proof.
  induction seqs as [| q seqs IH]; intros H; [discriminate |].
  cbn in H. destruct (CutPrefix s q) as [r' |] eqn:E.
  - injection H as ->. exists q. split; [now left | now apply CutPrefix_split].
  - destruct (IH H) as (p & Hp & Hs). exists p. split; [now right | exact Hs].
Qed.

(** What trimming removes from the front is a run of white-space
    characters and of the encodings looked for. *)
Lemma trim_spaces_run (seqs : list string) (W : string -> Prop) :
  W EmptyString ->
  (forall c s, ascii_space c = true -> W s -> W (String c s)) ->
  (forall p s, In p seqs -> W s -> W (p ++ s)%string) ->
  forall fuel s,
    exists pre, s = (pre ++ trim_spaces fuel seqs s)%string /\ W pre.
Proof.
  intros W0 Wc Wp. induction fuel as [| fuel IH]; intros s.
  - exists EmptyString. split; [reflexivity | exact W0].
  - cbn [trim_spaces]. destruct (cut_space seqs s) as [r |] eqn:E.
    + destruct (IH r) as (pre & Hpre & Hw).
      destruct s as [| c s]; [discriminate |].
      cbn [cut_space] in E. destruct (ascii_space c) eqn:Hc.
      * injection E as ->. exists (String c pre). split.
        -- cbn. now rewrite <- Hpre.
        -- now apply Wc.
      * destruct (first_cut_In _ _ _ E) as (p & Hp & Hs).
        exists (p ++ pre)%string. split.
        -- rewrite append_assoc, <- Hpre. exact Hs.
        -- now apply Wp.
    + exists EmptyString. split; [reflexivity | exact W0].
Qed.

Lemma first_cut_none (s : string) (seqs : list string) :
  first_cut s seqs = None -> forall p, In p seqs -> HasPrefix s p = false.
Proof.
  induction seqs as [| q seqs IH]; intros H p Hp; [contradiction |].
  cbn in H. destruct (CutPrefix s q) as [r |] eqn:E; [discriminate |].
  destruct Hp as [<- | Hp]; [now apply CutPrefix_HasPrefix | now apply IH].
Qed.

(** A string that trimming leaves alone begins with no white-space
    character and with none of the encodings looked for. *)
Lemma cut_space_none (seqs : list string) (s : string) :
  cut_space seqs s = None ->
  (forall c, ascii_space c = true -> HasPrefix s (String c EmptyString) = false) /\
  (forall p, In p seqs -> p <> EmptyString -> HasPrefix s p = false).
Proof.
  intros H. destruct s as [| a s].
  - split; [reflexivity |]. intros [| b p] _ Hne; [contradiction | reflexivity].
  - cbn [cut_space] in H. destruct (ascii_space a) eqn:Ha; [discriminate |].
    split.
    + intros c Hc. cbn. unfold byte_eqb.
      destruct (Ascii.eqb_spec a c) as [-> |]; [congruence | reflexivity].
    + intros p Hp _. now apply (first_cut_none _ seqs).
Qed.

(** TrimSpace removes a run of white-space runes from the front and
    another from the back, and nothing else. *)
Lemma TrimSpace_split (s : string) :
  exists pre post,
    s = (pre ++ TrimSpace s ++ post)%string /\ white_run pre /\ white_run post.
Proof.
  unfold TrimSpace, TrimRightSpace, TrimLeftSpace.
  destruct (trim_spaces_run unicode_spaces white_run) with
    (fuel := String.length s) (s := s) as (pre & Hpre & Wpre).
  { constructor. }
  { intros c u Hc Hu.
    change (String c u) with (String c EmptyString ++ u)%string.
    constructor; [now apply ascii_space_rune | exact Hu]. }
  { intros p u Hp Hu. constructor; [now apply unicode_spaces_runes | exact Hu]. }
  set (t := trim_spaces (String.length s) unicode_spaces s) in *.
  destruct (trim_spaces_run (map revstr unicode_spaces)
              (fun p => white_run (revstr p))) with
    (fuel := String.length t) (s := revstr t) as (back & Hback & Wback).
  { constructor. }
  { intros c u Hc Hu.
    change (String c u) with (String c EmptyString ++ u)%string.
    rewrite revstr_app. apply white_run_app; [exact Hu |].
    apply white_run_one. now apply ascii_space_rune. }
  { intros p u Hp Hu. apply in_map_iff in Hp as (q & <- & Hq).
    rewrite revstr_app, revstr_involutive. apply white_run_app; [exact Hu |].
    apply white_run_one. now apply unicode_spaces_runes. }
  set (x := trim_spaces (String.length t) (map revstr unicode_spaces) (revstr t))
    in *.
  exists pre, (revstr back). split; [| split; [exact Wpre | exact Wback]].
  rewrite <- revstr_app, <- Hback, revstr_involutive. exact Hpre.
Qed.

(** What TrimSpace returns neither begins nor ends with a white-space
    rune. *)
Lemma TrimSpace_no_space_rune (s r : string) :
  In r space_runes ->
  HasPrefix (TrimSpace s) r = false /\ HasSuffix (TrimSpace s) r = false.
Proof.
  intros Hr. destruct (TrimSpace_trimmed s) as [Hlead Htrail].
  unfold leading_space in Hlead. unfold trailing_space in Htrail.
  destruct (cut_space unicode_spaces (TrimSpace s)) eqn:El; [discriminate |].
  destruct (cut_space (map revstr unicode_spaces) (revstr (TrimSpace s))) eqn:Et;
    [discriminate |].
  apply cut_space_none in El as [Elc Elp], Et as [Etc Etp].
  pose proof (space_runes_nonempty r Hr) as Hne.
  destruct (space_runes_cases r Hr) as [(c & -> & Hc) | Hu].
  - split; [now apply Elc | unfold HasSuffix; now apply Etc].
  - split; [now apply Elp |].
    unfold HasSuffix. apply Etp; [now apply in_map |].
    intros E. apply Hne. rewrite <- (revstr_involutive r), E. reflexivity.
Qed.

(** *** The trimmed text is determined by the text *)

Lemma trim_spaces_fuel (seqs : list string) :
  nonempty_all seqs = true ->
  forall f1 f2 s,
    String.length s <= f1 -> String.length s <= f2 ->
    trim_spaces f1 seqs s = trim_spaces f2 seqs s.
Proof.
  intros Hne. induction f1 as [| f1 IH]; intros f2 s H1 H2.
  - destruct s; [| cbn in H1; lia]. destruct f2; reflexivity.
  - destruct f2 as [| f2].
    + destruct s; [reflexivity | cbn in H2; lia].
    + cbn [trim_spaces]. destruct (cut_space seqs s) as [r |] eqn:E;
        [| reflexivity].
      destruct (cut_space_split s r seqs Hne E) as (p & Hp & ->).
      rewrite append_length in H1, H2.
      assert (0 < String.length p) by (destruct p; [contradiction | cbn; lia]).
      apply IH; lia.
Qed.

Lemma trim_spaces_fixed (seqs : list string) (fuel : nat) (s : string) :
  cut_space seqs s = None -> trim_spaces fuel seqs s = s.
Proof. intros H. destruct fuel; cbn [trim_spaces]; [| rewrite H]; reflexivity. Qed.

Lemma trim_spaces_step (seqs : list string) (p y : string) :
  nonempty_all seqs = true -> p <> EmptyString ->
  cut_space seqs (p ++ y) = Some y ->
  trim_spaces (String.length (p ++ y)) seqs (p ++ y)
  = trim_spaces (String.length y) seqs y.
Proof.
  intros Hne Hp H. rewrite append_length.
  destruct p as [| c p]; [contradiction |].
  cbn [String.length Nat.add trim_spaces]. rewrite H.
  apply trim_spaces_fuel; [exact Hne | lia | lia].
Qed.

Lemma HasPrefix_clash (q r z : string) :
  HasPrefix r q = false -> HasPrefix q r = false ->
  HasPrefix (r ++ z) q = false.
Proof.
  revert r. induction q as [| b q IH]; intros r H1 H2; [discriminate H1 |].
  destruct r as [| a r]; [discriminate H2 |].
  cbn in H1, H2 |- *. unfold byte_eqb in *.
  destruct (Ascii.eqb_spec a b) as [-> |]; [| reflexivity].
  rewrite Ascii.eqb_refl in H2. cbn in H1, H2 |- *. now apply IH.
Qed.

Lemma first_cut_member (l : list string) (p y : string) :
  (forall q, In q l -> q = p \/ HasPrefix (p ++ y) q = false) ->
  In p l -> first_cut (p ++ y) l = Some y.
Proof.
  induction l as [| q l IH]; intros Hall Hin; [contradiction |].
  cbn [first_cut].
  destruct (Hall q (or_introl eq_refl)) as [-> | Hq].
  - now rewrite CutPrefix_app.
  - apply CutPrefix_HasPrefix in Hq. rewrite Hq.
    apply IH.
    + intros q' Hq'. apply Hall. now right.
    + destruct Hin as [-> | Hin]; [| exact Hin].
      rewrite CutPrefix_app in Hq. discriminate Hq.
Qed.

Lemma cut_space_member (seqs : list string) (p y : string) :
  prefix_free seqs = true -> no_space_head seqs = true ->
  In p seqs -> cut_space seqs (p ++ y) = Some y.
Proof.
  intros Hpf Hhead Hin.
  unfold no_space_head in Hhead. rewrite forallb_forall in Hhead.
  specialize (Hhead p Hin). destruct p as [| c p]; [discriminate |].
  apply negb_true_iff in Hhead.
  cbn [append cut_space]. rewrite Hhead.
  change (String c (p ++ y)) with (String c p ++ y)%string.
  apply first_cut_member; [| exact Hin].
  intros q Hq. unfold prefix_free in Hpf. rewrite forallb_forall in Hpf.
  specialize (Hpf q Hq). rewrite forallb_forall in Hpf.
  specialize (Hpf (String c p) Hin).
  apply orb_prop in Hpf as [E | E].
  - left. now apply String.eqb_eq.
  - right. apply andb_prop in E as [E1 E2].
    apply negb_true_iff in E1, E2. now apply HasPrefix_clash.
Qed.

Lemma cut_space_none_intro (seqs : list string) (s : string) :
  (forall c, ascii_space c = true -> HasPrefix s (String c EmptyString) = false) ->
  (forall p, In p seqs -> HasPrefix s p = false) ->
  cut_space seqs s = None.
Proof.
  intros Hc Hp. destruct s as [| a s]; [reflexivity |].
  cbn [cut_space]. destruct (ascii_space a) eqn:Ha.
  - specialize (Hc a Ha). cbn in Hc. unfold byte_eqb in Hc.
    rewrite Ascii.eqb_refl in Hc. discriminate Hc.
  - induction seqs as [| q seqs IH]; [reflexivity |].
    cbn [first_cut]. pose proof (Hp q (or_introl eq_refl)) as Hq.
    apply CutPrefix_HasPrefix in Hq. rewrite Hq.
    apply IH. intros p Hin. apply Hp. now right.
Qed.

Lemma no_rune_no_cut (y : string) :
  (forall r, In r space_runes -> HasPrefix y r = false) ->
  cut_space unicode_spaces y = None.
Proof.
  intros H. apply cut_space_none_intro.
  - intros c Hc. apply H. now apply ascii_space_rune.
  - intros p Hp. apply H. now apply unicode_spaces_runes.
Qed.

Lemma no_rune_no_cut_back (x : string) :
  (forall r, In r space_runes -> HasSuffix x r = false) ->
  cut_space (map revstr unicode_spaces) (revstr x) = None.
Proof.
  intros H. apply cut_space_none_intro.
  - intros c Hc. exact (H _ (ascii_space_rune c Hc)).
  - intros p Hp. apply in_map_iff in Hp as (q & <- & Hq).
    exact (H _ (unicode_spaces_runes q Hq)).
Qed.

(** Trimming at the front passes over a run of white-space runes. *)
Lemma trim_front_run (pre y : string) :
  white_run pre ->
  trim_spaces (String.length (pre ++ y)) unicode_spaces (pre ++ y)
  = trim_spaces (String.length y) unicode_spaces y.
Proof.
  intros Hpre. induction Hpre as [| r s Hr Hs IH]; [reflexivity |].
  rewrite append_assoc, <- IH.
  apply trim_spaces_step;
    [reflexivity | now apply space_runes_nonempty |].
  destruct (space_runes_cases r Hr) as [(c & -> & Hc) | Hu].
  - cbn [append cut_space]. now rewrite Hc.
  - apply cut_space_member; [vm_compute; reflexivity .. | exact Hu].
Qed.

(** Trimming at the back passes over a run of white-space runes. *)
Lemma trim_back_run (post y : string) :
  white_run post ->
  trim_spaces (String.length (revstr post ++ y)) (map revstr unicode_spaces)
              (revstr post ++ y)
  = trim_spaces (String.length y) (map revstr unicode_spaces) y.
Proof.
  intros Hpost. revert y. induction Hpost as [| r s Hr Hs IH]; intros y;
    [reflexivity |].
  rewrite revstr_app, append_assoc, IH.
  apply trim_spaces_step; [reflexivity | |].
  - intros E. apply (space_runes_nonempty r Hr).
    rewrite <- (revstr_involutive r), E. reflexivity.
  - destruct (space_runes_cases r Hr) as [(c & -> & Hc) | Hu].
    + cbn [revstr list_ascii_of_string rev app string_of_list_ascii
           append cut_space].
      now rewrite Hc.
    + apply cut_space_member; [vm_compute; reflexivity .. | now apply in_map].
Qed.

Lemma space_runes_shaped (r : string) :
  In r space_runes -> rune_shaped r = true.
Proof.
  intros H.
  assert (Hall : forallb rune_shaped space_runes = true)
    by (vm_compute; reflexivity).
  rewrite forallb_forall in Hall. now apply Hall.
Qed.

(** Continuation bytes are not matched by the start of a run of
    white-space runes. *)
Lemma cont_prefix_within (u x post : string) :
  all_cont u = true -> u <> EmptyString -> white_run post ->
  HasPrefix (x ++ post) u = true -> HasPrefix x u = true.
Proof.
  intros Hu Hne Hpost. revert x.
  induction u as [| d u IH]; intros x H; [contradiction |].
  cbn [all_cont] in Hu. apply andb_prop in Hu as [Hd Hu].
  destruct x as [| b x].
  - exfalso. cbn [append] in H.
    destruct Hpost as [| r s Hr Hs]; [discriminate H |].
    pose proof (space_runes_shaped r Hr) as Hshape.
    destruct r as [| a r]; [discriminate Hshape |].
    cbn [rune_shaped] in Hshape. apply andb_prop in Hshape as [Ha _].
    cbn [append HasPrefix] in H. apply andb_prop in H as [Hab _].
    unfold byte_eqb in Hab. apply Ascii.eqb_eq in Hab. subst a.
    rewrite Hd in Ha. discriminate Ha.
  - cbn [append HasPrefix] in H |- *.
    apply andb_prop in H as [Hbd H]. rewrite Hbd. cbn [andb].
    destruct u as [| e u]; [reflexivity |].
    apply IH; [exact Hu | discriminate | exact H].
Qed.

(** A text that begins with no white-space rune still begins with none
    when a run of white-space runes is put behind it. *)
Lemma no_rune_app (x post r : string) :
  x <> EmptyString -> white_run post -> In r space_runes ->
  HasPrefix x r = false -> HasPrefix (x ++ post) r = false.
Proof.
  intros Hx Hpost Hr H.
  pose proof (space_runes_shaped r Hr) as Hshape.
  destruct r as [| a r]; [discriminate Hshape |].
  cbn [rune_shaped] in Hshape. apply andb_prop in Hshape as [_ Hcont].
  destruct x as [| b x]; [contradiction |].
  cbn [append HasPrefix] in H |- *.
  destruct (byte_eqb b a); [| reflexivity]. cbn [andb] in H |- *.
  destruct r as [| e r]; [discriminate H |].
  destruct (HasPrefix (x ++ post) (String e r)) eqn:E; [| reflexivity].
  rewrite (cont_prefix_within _ _ _ Hcont ltac:(discriminate) Hpost E) in H.
  discriminate H.
Qed.

(** TrimSpace of a text between two runs of white-space runes, when the
    text neither begins nor ends with a white-space rune, is that text. *)
Lemma TrimSpace_unique (pre x post : string) :
  white_run pre -> white_run post ->
  (forall r, In r space_runes ->
             HasPrefix x r = false /\ HasSuffix x r = false) ->
  TrimSpace (pre ++ x ++ post) = x.
Proof.
  intros Hpre Hpost Hx.
  unfold TrimSpace, TrimLeftSpace. rewrite (trim_front_run pre _ Hpre).
  destruct x as [| b x].
  - cbn [append].
    pose proof (trim_front_run post EmptyString Hpost) as Hp.
    rewrite append_nil_r in Hp. rewrite Hp. reflexivity.
  - rewrite trim_spaces_fixed.
    + unfold TrimRightSpace.
      rewrite <- revstr_length, revstr_app.
      rewrite (trim_back_run post _ Hpost).
      rewrite trim_spaces_fixed; [apply revstr_involutive |].
      apply no_rune_no_cut_back. intros r Hr. now apply Hx.
    + apply no_rune_no_cut. intros r Hr.
      apply no_rune_app; [discriminate | exact Hpost | exact Hr |].
      now apply Hx.
Qed.

(** C9: a datagram that the reader takes for a reply is delivered to the
    caller of Command with its surrounding white space trimmed.  With text
    the datagram as a string, the reply rsp that the reader puts on the
    reply queue and that Command returns satisfies text = pre ++ rsp ++ post
    where pre and post consist of white-space runes only and rsp neither
    begins nor ends with a white-space rune, and rsp is the only text of
    which that holds; and OkCommand compares that trimmed text with
    "OK". *)
Theorem reply_is_trimmed
    (wc : t) (b0 : ascii) (rest : list ascii) (cmd : string) (env : call_env) :
  wf_ctrl wc -> ctx_done wc = false ->
  queue (solicited wc) = [] -> capacity (solicited wc) = 1 ->
  b0 <> "<"%char ->
  write_err env = None -> timer_fired env = false ->
  let text := string_of_list_ascii (firstn buf_size (b0 :: rest)) in
  exists rsp pre post wc1 wc2,
    text = (pre ++ rsp ++ post)%string /\
    white_run pre /\ white_run post /\
    (forall r, In r space_runes ->
               HasPrefix rsp r = false /\ HasSuffix rsp r = false) /\
    (forall pre' rsp' post',
        text = (pre' ++ rsp' ++ post')%string ->
        white_run pre' -> white_run post' ->
        (forall r, In r space_runes ->
                   HasPrefix rsp' r = false /\ HasSuffix rsp' r = false) ->
        rsp' = rsp) /\
    rsp = TrimSpace text /\
    receive_step wc (Datagram (b0 :: rest)) = Continue wc1 /\
    queue (solicited wc1) = [rsp] /\
    Command wc1 cmd env = Some (rsp, None, wc2) /\
    OkCommand wc1 cmd env =
      Some (if String.eqb rsp "OK" then None else Some (errors_New rsp), wc2).
Proof.
  intros Hwf Hdone Hq Hcap Hb0 Hw Ht text.
  assert (Hreply : is_reply_datagram (b0 :: rest) = true).
  { cbn [is_reply_datagram]. unfold byte_eqb.
    destruct (Ascii.eqb_spec b0 "<") as [E | _]; [contradiction | reflexivity]. }
  assert (Hstep : receive_step wc (Datagram (b0 :: rest)) =
                  Continue (offer_reply (with_buf wc (copy (buf wc) (b0 :: rest)))
                                        (TrimSpace text))).
  { unfold receive_step, Read. cbn [with_buf ctx_done buf].
    rewrite Hdone, (route_reply_datagram _ _ Hwf Hreply). reflexivity. }
  clearbody text.
  destruct (TrimSpace_split text) as (pre & post & Htext & Wpre & Wpost).
  pose proof (fun r => TrimSpace_no_space_rune text r) as Hno.
  assert (Huniq : forall pre' rsp' post',
             text = (pre' ++ rsp' ++ post')%string ->
             white_run pre' -> white_run post' ->
             (forall r, In r space_runes ->
                        HasPrefix rsp' r = false /\ HasSuffix rsp' r = false) ->
             rsp' = TrimSpace text).
  { intros pre' rsp' post' E W1 W2 H. rewrite E. symmetry.
    now apply TrimSpace_unique. }
  remember (TrimSpace text) as rsp eqn:Hrsp.
  assert (Hq1 : queue (solicited
             (offer_reply (with_buf wc (copy (buf wc) (b0 :: rest))) rsp)) = [rsp]).
  { unfold offer_reply, has_room. cbn [with_buf solicited].
    rewrite Hq, Hcap. cbn [length Nat.ltb Nat.leb solicited].
    unfold enqueue. cbn [queue]. rewrite Hq. reflexivity. }
  pose proof (Command_receives _ cmd rsp [] env Hw Ht Hq1) as Hc.
  exists rsp, pre, post. eexists. eexists.
  split; [exact Htext |]. split; [exact Wpre |]. split; [exact Wpost |].
  split; [exact Hno |]. split; [exact Huniq |].
  split; [reflexivity |]. split; [exact Hstep |]. split; [exact Hq1 |].
  split; [exact Hc |].
  unfold OkCommand. rewrite Hc.
  destruct (String.eqb rsp "OK"); reflexivity.
Qed.

Lemma reply_is_trimmed_witness :
  exists rsp pre post wc1 wc2,
    String "O" (String "K" (String "010" EmptyString))
      = (pre ++ rsp ++ post)%string /\
    white_run pre /\ white_run post /\
    (forall r, In r space_runes ->
               HasPrefix rsp r = false /\ HasSuffix rsp r = false) /\
    (forall pre' rsp' post',
        String "O" (String "K" (String "010" EmptyString))
          = (pre' ++ rsp' ++ post')%string ->
        white_run pre' -> white_run post' ->
        (forall r, In r space_runes ->
                   HasPrefix rsp' r = false /\ HasSuffix rsp' r = false) ->
        rsp' = rsp) /\
    rsp = "OK"%string /\
    receive_step NewWPACtrl
      (Datagram (bytes (String "O" (String "K" (String "010" EmptyString)))))
      = Continue wc1 /\
    queue (solicited wc1) = [rsp] /\
    Command wc1 "ATTACH" calm = Some (rsp, None, wc2) /\
    OkCommand wc1 "ATTACH" calm
      = Some (if String.eqb rsp "OK" then None else Some (errors_New rsp), wc2).
Proof.
  exact (reply_is_trimmed NewWPACtrl "O" ["K"%char; "010"%char] "ATTACH" calm
           NewWPACtrl_wf eq_refl eq_refl eq_refl
           ltac:(discriminate) eq_refl eq_refl).
Defined.

End ReplyTrimming.

Section ReaderExit.

Import WPACtrl.

Lemma receive_step_closes (wc : t) (r : read_result) :
  match receive_step wc r with
  | Exited wc' | Panicked wc' _ =>
      closed (solicited wc') = true /\ closed (unsolicited wc') = true /\
      queue (solicited wc') = queue (solicited wc) /\
      queue (unsolicited wc') = queue (unsolicited wc)
  | Continue wc' | Blocked wc' =>
      closed (solicited wc') = closed (solicited wc) /\
      closed (unsolicited wc') = closed (unsolicited wc)
  end.
Proof.
  unfold receive_step.
  destruct r as [msg | e]; cbn [Read with_buf ctx_done buf].
  - destruct (ctx_done wc); [cbn; repeat split |].
    destruct (route _ _) as [[v | v |] | m]; cbn [with_buf].
    + unfold send_event. cbn [unsolicited].
      destruct (has_room _); cbn; split; reflexivity.
    + unfold offer_reply. cbn [solicited].
      destruct (has_room _); cbn; split; reflexivity.
    + cbn. split; reflexivity.
    + cbn. repeat split.
  - destruct (ctx_done wc); cbn; repeat split.
Qed.

(** However the reader stops, by a read error, by cancellation or by a
    panic, it leaves both queues closed; while it runs it closes neither. *)
Theorem reader_exit_closes_queues (reads : list read_result) (wc : t) :
  match receiveLoop wc reads with
  | Exited wc' | Panicked wc' _ =>
      closed (solicited wc') = true /\ closed (unsolicited wc') = true
  | Continue wc' | Blocked wc' =>
      closed (solicited wc') = closed (solicited wc) /\
      closed (unsolicited wc') = closed (unsolicited wc)
  end.
Proof.
  revert wc. induction reads as [| r reads IH]; intros wc.
  - cbn. split; reflexivity.
  - cbn [receiveLoop].
    pose proof (receive_step_closes wc r) as Hs.
    destruct (receive_step wc r) as [wc1 | wc1 | wc1 | wc1 m].
    + specialize (IH wc1). destruct Hs as [Hs1 Hs2].
      destruct (receiveLoop wc1 reads); [| | exact IH | exact IH];
        rewrite <- Hs1, <- Hs2; exact IH.
    + exact Hs.
    + destruct Hs as (H1 & H2 & _). now split.
    + destruct Hs as (H1 & H2 & _). now split.
Qed.

Lemma OkCommand_keeps_events (wc wc' : t) (cmd : string) (env : call_env)
    (err : option error) :
  OkCommand wc cmd env = Some (err, wc') ->
  unsolicited wc' = unsolicited wc /\ buf wc' = buf wc.
Proof.
  unfold OkCommand, Command, recv_ready.
  destruct (write_err env).
  - intros H. injection H as _ <-. split; reflexivity.
  - cbn [solicited].
    destruct (queue (solicited wc)) as [| v q];
      [destruct (closed (solicited wc)) |];
      destruct (timer_fired env); try destruct (pick_timer env);
      cbn; try discriminate;
      try destruct (negb (String.eqb v "OK"));
      intros H; injection H as _ <-; split; reflexivity.
Qed.

(** After Close the reader stops at its next read whatever that read
    yields, a datagram included: it leaves both queues closed, the queued
    events are still there, and once they are drained a consumer of
    Unsolicited gets the closed signal instead of waiting. *)
Theorem Close_stops_reader (wc wc1 : t) (env : call_env) (r : read_result) :
  Close wc env = Some wc1 ->
  exists wc2,
    receive_step wc1 r = Exited wc2 /\
    closed (solicited wc2) = true /\ closed (unsolicited wc2) = true /\
    queue (unsolicited wc2) = queue (unsolicited wc) /\
    (queue (unsolicited wc) = [] ->
     recv_unsolicited wc2 = Some (EmptyString, false, wc2)).
Proof.
  unfold Close, Detach. intros H.
  destruct (OkCommand wc "DETACH" env) as [[err wc0] |] eqn:E; [| discriminate].
  injection H as <-.
  destruct (OkCommand_keeps_events _ _ _ _ _ E) as [Hu Hb].
  assert (Hstep : receive_step (cancel wc0) r =
                  Exited (close_queues
                            (with_buf (cancel wc0)
                               match r with
                               | Datagram msg => copy (buf wc0) msg
                               | ReadError _ => buf wc0
                               end))).
  { unfold receive_step. destruct r; reflexivity. }
  eexists. split; [exact Hstep |].
  cbn. rewrite Hu. repeat split.
  intros Hq. unfold recv_unsolicited, recv_ready, close_queues, with_buf, cancel.
  cbn. rewrite Hu, Hq. reflexivity.
Qed.

Lemma Close_stops_reader_witness :
  exists wc2,
    receive_step (cancel (mk (mkChan [] 1 false) (make_chan 100) false
                             [bytes "DETACH"] (repeat zero buf_size)))
                 (Datagram (bytes "<2>CTRL-EVENT-CONNECTED")) = Exited wc2 /\
    closed (solicited wc2) = true /\ closed (unsolicited wc2) = true /\
    queue (unsolicited wc2) = queue (unsolicited (ctrl_with_reply "OK")) /\
    (queue (unsolicited (ctrl_with_reply "OK")) = [] ->
     recv_unsolicited wc2 = Some (EmptyString, false, wc2)).
Proof.
  apply (Close_stops_reader (ctrl_with_reply "OK") _ calm).
  reflexivity.
Defined.

(** A reply that comes after its command has timed out is not thrown
    away: it waits in the reply slot and is returned to the next command,
    whatever that command is. *)
Theorem late_reply_goes_to_next_command
    (wc : t) (msg : list ascii) (c1 c2 : string) :
  wf_ctrl wc -> ctx_done wc = false ->
  queue (solicited wc) = [] -> closed (solicited wc) = false ->
  capacity (solicited wc) = 1 ->
  is_reply_datagram msg = true ->
  exists wc1 wc2 wc3,
    Command wc c1 (mkEnv None true false)
      = Some (EmptyString, Some ErrTimeout, wc1) /\
    receive_step wc1 (Datagram msg) = Continue wc2 /\
    Command wc2 c2 calm = Some (reply_payload msg, None, wc3).
Proof.
  intros Hwf Hdone Hq Hcl Hcap Hr.
  pose proof (route_reply_datagram _ _ Hwf Hr) as Hroute.
  revert Hroute. generalize (reply_payload msg). intros rsp Hroute.
  eexists. eexists. eexists. split; [| split].
  - unfold Command, recv_ready. cbn [write_err timer_fired solicited].
    rewrite Hq, Hcl. reflexivity.
  - unfold receive_step, Read. cbn [with_buf ctx_done buf].
    rewrite Hdone, Hroute.
    unfold offer_reply, has_room. cbn [with_buf solicited].
    rewrite Hq, Hcap. cbn [length Nat.ltb Nat.leb]. reflexivity.
  - apply Command_receives; try reflexivity.
    cbn. rewrite Hq. reflexivity.
Qed.

Lemma late_reply_goes_to_next_command_witness :
  exists wc1 wc2 wc3,
    Command NewWPACtrl "PING" (mkEnv None true false)
      = Some (EmptyString, Some ErrTimeout, wc1) /\
    receive_step wc1 (Datagram (bytes "PONG")) = Continue wc2 /\
    Command wc2 "LIST_NETWORKS" calm = Some (reply_payload (bytes "PONG"), None, wc3).
Proof.
  apply (late_reply_goes_to_next_command NewWPACtrl (bytes "PONG")
           "PING" "LIST_NETWORKS" NewWPACtrl_wf);
    reflexivity.
Defined.

End ReaderExit.

Section CommandFailures.

Import WPACtrl.

(** Command fails in three ways only: the write failed and its error is
    wrapped, the timer fired, or the reply queue was closed. A failed
    Command returns no reply text. *)
Lemma Command_failure_kinds
    (wc wc' : t) (cmd rsp : string) (env : call_env) (e : error) :
  Command wc cmd env = Some (rsp, Some e, wc') ->
  rsp = EmptyString /\
  ((exists err, write_err env = Some err /\
                e = fmt_Errorf ("command error: " ++ Error err)) \/
   (write_err env = None /\ timer_fired env = true /\ e = ErrTimeout) \/
   (write_err env = None /\ e = errors_New "failed" /\
    queue (solicited wc) = [] /\ closed (solicited wc) = true)).
Proof.
  unfold Command, recv_ready.
  destruct (write_err env) as [err |].
  - intros H. injection H as <- <- _. split; [reflexivity |].
    left. exists err. split; reflexivity.
  - cbn [solicited].
    destruct (queue (solicited wc)) as [| v q];
      [destruct (closed (solicited wc)) |];
      destruct (timer_fired env); try destruct (pick_timer env);
      cbn; intros H; try discriminate;
      injection H as <- <- _; split; try reflexivity; tauto.
Qed.

(** The helpers built on Command hand its error to their caller as it
    is, so a timeout is still the value ErrTimeout after OkCommand,
    FailCommand, AddNetwork or ListNetworks, and ListNetworks parses
    nothing. *)
Theorem command_error_passes_through
    (wc wc' : t) (cmd rsp : string) (env : call_env) (e : error) :
  Command wc cmd env = Some (rsp, Some e, wc') ->
  OkCommand wc cmd env = Some (Some e, wc') /\
  FailCommand wc cmd env = Some (EmptyString, Some e, wc') /\
  (cmd = "ADD_NETWORK"%string ->
   WPASupplicantCtrl.AddNetwork wc env = Some (EmptyString, Some e, wc')) /\
  (cmd = "LIST_NETWORKS"%string ->
   WPASupplicantCtrl.ListNetworks wc env = Some (Ret ([], Some e), wc')) /\
  (e = ErrTimeout \/ e = errors_New "failed" \/
   exists err, write_err env = Some err /\
               e = fmt_Errorf ("command error: " ++ Error err)).
Proof.
  intros H.
  assert (Hok : OkCommand wc cmd env = Some (Some e, wc'))
    by (unfold OkCommand; now rewrite H).
  assert (Hfail : FailCommand wc cmd env = Some (EmptyString, Some e, wc'))
    by (unfold FailCommand; now rewrite H).
  split; [exact Hok |]. split; [exact Hfail |].
  split; [| split].
  - intros ->. unfold WPASupplicantCtrl.AddNetwork. now rewrite Hfail.
  - intros ->. unfold WPASupplicantCtrl.ListNetworks. now rewrite Hfail.
  - destruct (Command_failure_kinds _ _ _ _ _ _ H)
      as [_ [(err & Hw & He) | [(_ & _ & He) | (_ & He & _)]]]; eauto.
Qed.

Lemma command_error_passes_through_witness :
  OkCommand NewWPACtrl "LIST_NETWORKS" (mkEnv None true false)
    = Some (Some ErrTimeout,
            mk (make_chan 1) (make_chan 100) false [bytes "LIST_NETWORKS"]
               (repeat zero buf_size)) /\
  WPASupplicantCtrl.ListNetworks NewWPACtrl (mkEnv None true false)
    = Some (Ret ([], Some ErrTimeout),
            mk (make_chan 1) (make_chan 100) false [bytes "LIST_NETWORKS"]
               (repeat zero buf_size)).
Proof.
  destruct (command_error_passes_through NewWPACtrl
              (mk (make_chan 1) (make_chan 100) false [bytes "LIST_NETWORKS"]
                  (repeat zero buf_size))
              "LIST_NETWORKS" EmptyString (mkEnv None true false) ErrTimeout
              eq_refl) as (H1 & _ & _ & H4 & _).
  split; [exact H1 | exact (H4 eq_refl)].
Defined.

End CommandFailures.

(* ===================================================================== *)
(** ** The simulated daemon: networks added, changed and removed *)
(* ===================================================================== *)

Section MockNetworks.

Import WPAProcessMock.

Lemma ADD_NETWORK_step (w : t) (conn : nat) :
  processMockCommand w "ADD_NETWORK" conn
  = Ret (Itoa (Z.of_nat (length (networks w))),
         with_networks w (networks w ++ [fresh_network (length (networks w))])).
Proof. reflexivity. Qed.

(** ADD_NETWORK hands out the ids in sequence: n commands on a mock that
    holds k entries reply k, k+1, ..., k+n-1 in decimal, and append one
    fresh network for each. On a new mock the ids start at 0. *)
Theorem ADD_NETWORK_ids_in_sequence (n : nat) (w : t) (conn : nat) :
  exists w',
    run_commands w (repeat "ADD_NETWORK"%string n) conn
    = Ret (map (fun i => Itoa (Z.of_nat i)) (seq (length (networks w)) n), w') /\
    networks w' = networks w ++ map fresh_network (seq (length (networks w)) n) /\
    unsolConn w' = unsolConn w.
Proof.
  revert w. induction n as [| n IH]; intros w.
  - exists w. cbn. rewrite app_nil_r. repeat split.
  - cbn [repeat run_commands]. rewrite ADD_NETWORK_step. cbn [bind fst snd].
    destruct (IH (with_networks w
                    (networks w ++ [fresh_network (length (networks w))])))
      as (w' & Hrun & Hn & Hu).
    cbn [with_networks networks unsolConn] in Hrun, Hn, Hu.
    rewrite length_app in Hrun, Hn. cbn [length] in Hrun, Hn.
    rewrite Nat.add_1_r in Hrun, Hn.
    exists w'. rewrite Hrun. cbn [bind fst snd seq map].
    split; [reflexivity |]. split; [| exact Hu].
    rewrite Hn, <- app_assoc. reflexivity.
Qed.

End MockNetworks.

Section MockInvariant.

Import WPAProcessMock.

Lemma store_spec {A : Type} (a a' : list A) (i : nat) (v : A) :
  store a i v = Ret a' ->
  length a' = length a /\ i < length a /\
  forall j, nth_error a' j = if (j =? i)%nat then Some v else nth_error a j.
Proof.
  revert a' i. induction a as [| x a IH]; intros a' i H; [discriminate |].
  destruct i as [| i]; cbn in H.
  - injection H as <-. cbn. repeat split; [lia |].
    intros [| j]; reflexivity.
  - destruct (store a i v) as [r |] eqn:E; [| discriminate].
    cbn in H. injection H as <-.
    destruct (IH r i E) as (Hl & Hi & Hn).
    cbn. repeat split; [lia | lia |].
    intros [| j]; [reflexivity | apply Hn].
Qed.

Lemma store_in_range {A : Type} (a : list A) (i : nat) (v : A) :
  i < length a -> exists a', store a i v = Ret a'.
Proof.
  revert i. induction a as [| x a IH]; intros i H; [cbn in H; lia |].
  destruct i as [| i]; cbn.
  - eexists; reflexivity.
  - destruct (IH i) as [a' ->]; [cbn in H; lia |]. eexists; reflexivity.
Qed.

(** A pointer that getNetwork returns points to the entry it names. *)
Lemma getNetwork_points (w : t) (id : Z) (p : nat) (n : network) :
  getNetwork w id = Ret (Some (p, n)) ->
  p = Z.to_nat id /\ (0 <= id)%Z /\
  nth_error (networks w) p = Some (Some n).
Proof.
  unfold getNetwork, index.
  destruct (id <? 0)%Z eqn:Hneg; [discriminate |].
  destruct (id >? Z.of_nat (length (networks w)))%Z; [discriminate |].
  cbn [orb]. apply Z.ltb_ge in Hneg.
  destruct (nth_error (networks w) (Z.to_nat id)) as [[m |] |] eqn:E;
    cbn; intros H; try discriminate.
  injection H as <- <-. split; [reflexivity |]. split; [exact Hneg | exact E].
Qed.

Lemma getNetworkStr_points (w : t) (idstr : string) (p : nat) (n : network) :
  getNetworkStr w idstr = Ret (Some (p, n)) ->
  nth_error (networks w) p = Some (Some n).
Proof.
  unfold getNetworkStr. destruct (Atoi idstr) as [id |]; [| discriminate].
  intros H. now apply getNetwork_points in H.
Qed.

Lemma set_at_keeps_ids (w w' : t) (p : nat) (n : network) (f : network -> network) :
  ids_ok w -> nth_error (networks w) p = Some (Some n) ->
  id (f n) = id n ->
  set_at w (p, n) f = Ret w' -> ids_ok w'.
Proof.
  intros Hok Hp Hf. unfold set_at. cbn [fst snd].
  destruct (store (networks w) p (Some (f n))) as [ns |] eqn:E; [| discriminate].
  cbn. intros H. injection H as <-.
  destruct (store_spec _ _ _ _ E) as (_ & _ & Hn).
  intros i m. cbn [with_networks networks]. rewrite Hn.
  destruct (Nat.eqb_spec i p) as [-> |].
  - intros H. injection H as <-. rewrite Hf. now apply Hok.
  - apply Hok.
Qed.

(** Whatever the command, processMockCommand keeps every stored network
    at the position that its id names. *)
Theorem processMockCommand_keeps_ids
    (w w' : t) (cmd r : string) (conn : nat) :
  ids_ok w ->
  processMockCommand w cmd conn = Ret (r, w') ->
  ids_ok w'.
Proof.
  intros Hok. unfold processMockCommand.
  pose proof (Split_nonempty cmd " ") as Hne.
  destruct (Split cmd " ") as [| f0 fs]; [contradiction |]. clear Hne.
  cbn [index nth_error bind].
  destruct (String.eqb f0 "PING").
  { intros H. injection H as _ <-. exact Hok. }
  destruct (String.eqb f0 "ATTACH").
  { intros H. injection H as _ <-. exact Hok. }
  destruct (String.eqb f0 "LIST_NETWORKS").
  { destruct (list_lines (networks w)); cbn [bind]; intros H;
      [injection H as _ <-; exact Hok | discriminate]. }
  destruct (String.eqb f0 "ADD_NETWORK").
  { intros H. injection H as _ <-. intros i n.
    cbn [with_networks networks].
    destruct (Nat.lt_ge_cases i (length (networks w))) as [Hlt | Hge].
    - rewrite nth_error_app1 by exact Hlt. apply Hok.
    - rewrite nth_error_app2 by exact Hge.
      destruct (i - length (networks w)) as [| k] eqn:Hk.
      + cbn. intros H. injection H as <-. cbn. f_equal. lia.
      + cbn. destruct k; discriminate. }
  destruct (String.eqb f0 "REMOVE_NETWORK").
  { destruct (length (f0 :: fs) <? 2).
    { intros H. injection H as _ <-. exact Hok. }
    destruct fs as [| f1 fs]; [discriminate |].
    cbn [index nth_error bind].
    destruct (getNetworkStr w f1) as [[[p n] |] | m] eqn:E; cbn [bind];
      [| intros H; injection H as _ <-; exact Hok | discriminate].
    destruct (id n =? Z.of_nat (length (networks w)) - 1)%Z.
    - unfold slice.
      destruct ((0 <=? length (networks w) - 1)
                && (length (networks w) - 1 <=? length (networks w)));
        cbn [bind]; [| discriminate].
      intros H. injection H as _ <-. intros i m0.
      cbn [with_networks networks skipn]. rewrite nth_error_firstn.
      destruct (i <? length (networks w) - 1 - 0); [apply Hok | discriminate].
    - destruct (id n <? 0)%Z; [discriminate |].
      destruct (store (networks w) (Z.to_nat (id n)) None) as [ns |] eqn:Es;
        cbn [bind]; [| discriminate].
      intros H. injection H as _ <-.
      destruct (store_spec _ _ _ _ Es) as (_ & _ & Hn).
      intros i m0. cbn [with_networks networks]. rewrite Hn.
      destruct (i =? Z.to_nat (id n)); [discriminate | apply Hok]. }
  destruct (String.eqb f0 "ENABLE_NETWORK").
  { destruct (length (f0 :: fs) <? 2).
    { intros H. injection H as _ <-. exact Hok. }
    destruct fs as [| f1 fs]; [discriminate |].
    cbn [index nth_error bind].
    destruct (getNetworkStr w f1) as [[[p n] |] | m] eqn:E; cbn [bind];
      [| intros H; injection H as _ <-; exact Hok | discriminate].
    destruct (set_at w (p, n) _) as [w1 |] eqn:Es; cbn [bind]; [| discriminate].
    assert (Hok1 : ids_ok w1).
    { refine (set_at_keeps_ids _ _ _ _ _ Hok (getNetworkStr_points _ _ _ _ E) _ Es).
      reflexivity. }
    destruct (OnNetworkEnabled w1); [| discriminate].
    intros H. injection H as _ <-. exact Hok1. }
  destruct (String.eqb f0 "SET_NETWORK").
  { destruct (length (f0 :: fs) <? 4).
    { intros H. injection H as _ <-. exact Hok. }
    destruct fs as [| f1 [| f2 [| f3 fs]]]; try discriminate.
    - cbn [index nth_error bind].
      destruct (getNetworkStr w f1) as [[[p n] |] | m]; cbn [bind];
        [discriminate | intros H; injection H as _ <-; exact Hok | discriminate].
    - cbn [index nth_error bind].
      destruct (getNetworkStr w f1) as [[[p n] |] | m]; cbn [bind];
        [discriminate | intros H; injection H as _ <-; exact Hok | discriminate].
    - cbn [index nth_error bind].
      destruct (getNetworkStr w f1) as [[[p n] |] | m] eqn:E; cbn [bind];
        [| intros H; injection H as _ <-; exact Hok | discriminate].
      destruct (String.eqb f2 "ssid").
      + destruct (set_at w (p, n) _) as [w1 |] eqn:Es; cbn [bind]; [| discriminate].
        intros H. injection H as _ <-.
        refine (set_at_keeps_ids _ _ _ _ _ Hok (getNetworkStr_points _ _ _ _ E) _ Es).
        reflexivity.
      + destruct (String.eqb f2 "psk").
        * destruct (set_at w (p, n) _) as [w1 |] eqn:Es; cbn [bind]; [| discriminate].
          intros H. injection H as _ <-.
          refine (set_at_keeps_ids _ _ _ _ _ Hok (getNetworkStr_points _ _ _ _ E) _ Es).
          reflexivity.
        * intros H. injection H as _ <-. exact Hok. }
  intros H. injection H as _ <-. exact Hok.
Qed.

Lemma NewWPAProcessMock_ids_ok : ids_ok NewWPAProcessMock.
Proof. intros [| i] n H; discriminate. Qed.

Lemma processMockCommand_keeps_ids_witness :
  ids_ok (with_networks NewWPAProcessMock [fresh_network 0]).
Proof.
  exact (processMockCommand_keeps_ids NewWPAProcessMock _ "ADD_NETWORK" "0" 0
           NewWPAProcessMock_ids_ok eq_refl).
Defined.

End MockInvariant.

Section MockRemove.

Import WPAProcessMock.

Lemma list_lines_nil_entry (ns : list (option network)) :
  In None ns ->
  list_lines ns = Panic "invalid memory address or nil pointer dereference".
Proof.
  induction ns as [| [n |] ns IH]; intros H.
  - contradiction.
  - destruct H as [H | H]; [discriminate |].
    cbn [list_lines]. rewrite (IH H). reflexivity.
  - reflexivity.
Qed.

Lemma REMOVE_NETWORK_fields (idstr : string) :
  has_byte idstr " " = false ->
  Split ("REMOVE_NETWORK " ++ idstr) " " = ["REMOVE_NETWORK"%string; idstr].
Proof.
  intros Hid.
  change ("REMOVE_NETWORK " ++ idstr)%string
    with ("REMOVE_NETWORK" ++ String " " idstr)%string.
  rewrite Split_app_sep by reflexivity.
  now rewrite (Split_no_sep idstr " " Hid).
Qed.

(** REMOVE_NETWORK of a stored network replies "OK". The last network is
    cut off the list; any other one leaves a nil entry in its place, and
    from then on LIST_NETWORKS dereferences that nil entry and panics. *)
Theorem REMOVE_NETWORK_leaves_nil_entry
    (w : t) (idstr : string) (k : Z) (conn : nat) :
  ids_ok w -> has_byte idstr " " = false ->
  Atoi idstr = Some k -> names_network w k = true ->
  exists w',
    processMockCommand w ("REMOVE_NETWORK " ++ idstr) conn = Ret ("OK"%string, w') /\
    (k = Z.of_nat (length (networks w)) - 1 ->
     networks w' = removelast (networks w))%Z /\
    (k <> Z.of_nat (length (networks w)) - 1 ->
     length (networks w') = length (networks w) /\
     nth_error (networks w') (Z.to_nat k) = Some None /\
     processMockCommand w' "LIST_NETWORKS" conn
     = Panic "invalid memory address or nil pointer dereference")%Z.
Proof.
  intros Hok Hid Hatoi Hname.
  destruct (getNetwork_finds w k Hname) as (n & Hget & Hnth).
  assert (Hrange : (0 <= k < Z.of_nat (length (networks w)))%Z).
  { unfold names_network in Hname.
    apply andb_prop in Hname as [Hr _]. apply andb_prop in Hr as [H0 H1].
    apply Z.leb_le in H0. apply Z.ltb_lt in H1. lia. }
  assert (Hidn : id n = k) by (rewrite (Hok _ _ Hnth); lia).
  unfold processMockCommand. rewrite (REMOVE_NETWORK_fields idstr Hid).
  cbn [index nth_error bind String.eqb Ascii.eqb Bool.eqb length Nat.ltb Nat.leb].
  unfold getNetworkStr. rewrite Hatoi, Hget. cbn [bind]. rewrite Hidn.
  destruct (Z.eqb_spec k (Z.of_nat (length (networks w)) - 1)) as [Hlast | Hmid].
  - unfold slice.
    replace ((0 <=? length (networks w) - 1)
             && (length (networks w) - 1 <=? length (networks w)))
      with true
      by (symmetry; apply andb_true_intro; split; apply Nat.leb_le; lia).
    cbn [bind skipn]. eexists. split; [reflexivity |].
    split; [| intros Hc; contradiction].
    intros _. cbn [with_networks networks].
    rewrite Nat.sub_0_r, removelast_firstn_len. f_equal. lia.
  - replace (k <? 0)%Z with false by (symmetry; apply Z.ltb_ge; lia).
    destruct (store_in_range (networks w) (Z.to_nat k) None) as [ns Hs]; [lia |].
    rewrite Hs. cbn [bind]. eexists. split; [reflexivity |].
    split; [intros Hc; contradiction |].
    intros _. destruct (store_spec _ _ _ _ Hs) as (Hlen & _ & Hn).
    cbn [with_networks networks].
    assert (Hnone : nth_error ns (Z.to_nat k) = Some None)
      by (rewrite Hn, Nat.eqb_refl; reflexivity).
    split; [exact Hlen |]. split; [exact Hnone |].
    unfold processMockCommand.
    cbn [Split index nth_error bind String.eqb Ascii.eqb Bool.eqb byte_eqb
         with_networks networks].
    rewrite (list_lines_nil_entry ns (nth_error_In _ _ Hnone)). reflexivity.
Qed.

Lemma REMOVE_NETWORK_leaves_nil_entry_witness :
  exists w',
    processMockCommand
      (with_networks NewWPAProcessMock [fresh_network 0; fresh_network 1])
      "REMOVE_NETWORK 0" 0 = Ret ("OK"%string, w') /\
    (0 = Z.of_nat 2 - 1 ->
     networks w' = removelast [fresh_network 0; fresh_network 1])%Z /\
    (0 <> Z.of_nat 2 - 1 ->
     length (networks w') = 2%nat /\
     nth_error (networks w') (Z.to_nat 0) = Some None /\
     processMockCommand w' "LIST_NETWORKS" 0
     = Panic "invalid memory address or nil pointer dereference")%Z.
Proof.
  apply (REMOVE_NETWORK_leaves_nil_entry
           (with_networks NewWPAProcessMock [fresh_network 0; fresh_network 1])
           "0" 0%Z 0).
  - intros [| [| i]] n H; cbn in H;
      [injection H as <-; reflexivity | injection H as <-; reflexivity |].
    destruct i; discriminate.
  - reflexivity.
  - reflexivity.
  - reflexivity.
Defined.

End MockRemove.

(* ===================================================================== *)
(** ** The in-memory connection and the test harness *)
(* ===================================================================== *)

Section TestConnections.

Import TestConn.

Lemma copy_fresh (b : list ascii) : copy (repeat zero (length b)) b = b.
Proof.
  unfold copy. rewrite repeat_length, Nat.min_id, firstn_all.
  rewrite skipn_all2 by (rewrite repeat_length; lia).
  apply app_nil_r.
Qed.

Lemma in_of_Dial (l : link) (tc : t) : in_of l (Dial tc) = out_of l tc.
Proof. destruct tc; reflexivity. Qed.

Lemma out_of_Dial (l : link) (tc : t) : out_of l (Dial tc) = in_of l tc.
Proof. destruct tc; reflexivity. Qed.

(** What one end of a connection writes, the end dialed from it reads
    (and the other way round): the datagram is appended behind those
    already on their way, the writer's own inbox is untouched, and when
    nothing was on its way the next read of the peer yields the datagram,
    cut at the length of the reader's buffer. *)
Theorem TestConn_delivers (l : link) (tc : t) (b rbuf : list ascii) :
  closed (out_of l tc) = false -> has_room (out_of l tc) = true ->
  exists l1,
    Write l tc b = Some (Ret (length b, None, l1)) /\
    queue (in_of l1 (Dial tc)) = queue (in_of l (Dial tc)) ++ [b] /\
    in_of l1 tc = in_of l tc /\
    (queue (in_of l (Dial tc)) = [] ->
     exists l2,
       Read l1 (Dial tc) rbuf
       = Some (Nat.min (length b) (length rbuf), None, copy rbuf b, l2) /\
       queue (in_of l2 (Dial tc)) = []).
Proof.
  intros Hcl Hroom. unfold Write. rewrite Hcl, Hroom, copy_fresh.
  eexists. split; [reflexivity |].
  rewrite !in_of_Dial.
  split; [destruct tc; reflexivity |].
  split; [destruct tc; reflexivity |].
  intros Hq. unfold Read. rewrite in_of_Dial.
  assert (Hout : out_of (set_out l tc (enqueue (out_of l tc) b)) tc
                 = enqueue (out_of l tc) b) by (destruct tc; reflexivity).
  rewrite Hout. unfold recv_ready, enqueue. cbn [queue]. rewrite Hq.
  cbn [app negb capacity closed].
  eexists. split.
  - f_equal. f_equal. f_equal. f_equal.
    destruct (Nat.ltb_spec (length b) (length rbuf)); lia.
  - rewrite in_of_Dial. destruct tc; reflexivity.
Qed.

Lemma TestConn_delivers_witness :
  exists l1,
    Write NewTestListenConn Dialed (bytes "PING")
    = Some (Ret (4, None, l1)) /\
    exists l2,
      Read l1 Listening (repeat zero 2048)
      = Some (4, None, copy (repeat zero 2048) (bytes "PING"), l2) /\
      queue (in_of l2 Listening) = [].
Proof.
  destruct (TestConn_delivers NewTestListenConn Dialed (bytes "PING")
              (repeat zero 2048) eq_refl eq_refl)
    as (l1 & Hw & _ & _ & Hr).
  exists l1. split; [exact Hw |]. exact (Hr eq_refl).
Defined.

(** Close ends the conversation for both ends, since they share the two
    channels: a second Close, on either end, panics; a Write on either end
    panics; and a Read on either end reports "closed" as soon as its inbox
    is drained, instead of waiting. *)
Theorem TestConn_Close_is_final (l l1 : link) (tc : t) (b : list ascii) :
  Close l tc = Ret l1 ->
  Close l1 tc = Panic "close of closed channel" /\
  Close l1 (Dial tc) = Panic "close of closed channel" /\
  Write l1 tc b = Some (Panic "send on closed channel") /\
  Write l1 (Dial tc) b = Some (Panic "send on closed channel") /\
  (queue (in_of l tc) = [] ->
   exists l2, Read l1 tc b = Some (0, Some (errors_New "closed"), b, l2)) /\
  (queue (in_of l (Dial tc)) = [] ->
   exists l2, Read l1 (Dial tc) b = Some (0, Some (errors_New "closed"), b, l2)).
Proof.
  unfold Close, close_once.
  destruct l as [[qi ci cli] [qo co clo]].
  destruct tc; cbn [in_of out_of set_in set_out inmsgs outmsgs closed bind];
    destruct cli, clo; cbn [bind closed close set_in set_out out_of in_of
                              inmsgs outmsgs];
    try discriminate; intros H; injection H as <-;
    (split; [reflexivity |]); (split; [reflexivity |]);
    (split; [reflexivity |]); (split; [reflexivity |]);
    split; cbn [in_of out_of Dial inmsgs outmsgs queue]; intros ->;
    eexists; reflexivity.
Qed.

Lemma TestConn_Close_is_final_witness :
  Close (mkLink (mkChan [] 100 true) (mkChan [] 100 true)) Dialed
    = Panic "close of closed channel" /\
  Write (mkLink (mkChan [] 100 true) (mkChan [] 100 true)) Listening (bytes "OK")
    = Some (Panic "send on closed channel") /\
  exists l2,
    Read (mkLink (mkChan [] 100 true) (mkChan [] 100 true)) Listening
         (repeat zero 8)
    = Some (0, Some (errors_New "closed"), repeat zero 8, l2).
Proof.
  destruct (TestConn_Close_is_final NewTestListenConn
              (mkLink (mkChan [] 100 true) (mkChan [] 100 true)) Dialed
              (bytes "OK") eq_refl) as (H1 & _ & _ & H4 & _ & _).
  destruct (TestConn_Close_is_final NewTestListenConn
              (mkLink (mkChan [] 100 true) (mkChan [] 100 true)) Dialed
              (repeat zero 8) eq_refl) as (_ & _ & _ & _ & _ & H6).
  split; [exact H1 |]. split; [exact H4 |]. exact (H6 eq_refl).
Defined.

End TestConnections.

Section Harness.

Import WPAProcessMock.

(** An expectation replaces the mock's own answer for exactly one command:
    a second Expect before that command stops the test; the expected
    command is answered with the prepared reply, without being processed,
    and the expectation is gone; any other command makes the read loop
    record an error and stop without answering. *)
Theorem Expect_answers_one_command (h : harness) (c r got : string) (oc : nat) :
  expect h = None ->
  exists h1,
    Expect h c r = Done h1 /\
    Expect h1 c r = Fatal "already expecting" /\
    readLoop_step h1 (mkIO (inl c) (inl oc) None)
    = Ret (Again (mkHarness (mock h) None (t_errors h) (sent h ++ [(oc, r)]))) /\
    (got <> c ->
     readLoop_step h1 (mkIO (inl got) (inl oc) None)
     = Ret (Stopped
              (mkHarness (mock h) (Some (mkPair c r))
                         (t_errors h ++ [("cmd " ++ got ++ " is not " ++ c)%string])
                         (sent h)))).
Proof.
  intros He. unfold Expect. rewrite He. eexists. split; [reflexivity |].
  cbn [expect]. split; [reflexivity |].
  unfold readLoop_step.
  cbn [read_from get write expect cmd rsp mock t_errors sent bind].
  rewrite String.eqb_refl. cbn [negb bind mock expect t_errors sent].
  split; [reflexivity |].
  intros Hne. apply String.eqb_neq in Hne. rewrite Hne.
  cbn [negb bind]. reflexivity.
Qed.

Lemma Expect_answers_one_command_witness :
  exists h1,
    Expect NewHarness "PING" "PANG" = Done h1 /\
    Expect h1 "PING" "PANG" = Fatal "already expecting" /\
    readLoop_step h1 (mkIO (inl "PING"%string) (inl 7) None)
    = Ret (Again (mkHarness NewWPAProcessMock None [] [(7, "PANG"%string)])) /\
    readLoop_step h1 (mkIO (inl "ATTACH"%string) (inl 7) None)
    = Ret (Stopped
             (mkHarness NewWPAProcessMock (Some (mkPair "PING" "PANG"))
                        ["cmd ATTACH is not PING"%string] [])).
Proof.
  destruct (Expect_answers_one_command NewHarness "PING" "PANG" "ATTACH" 7
              eq_refl) as (h1 & H1 & H2 & H3 & H4).
  exists h1. split; [exact H1 |]. split; [exact H2 |]. split; [exact H3 |].
  exact (H4 ltac:(discriminate)).
Defined.

(** Unsolicited messages go to the connection that sent ATTACH last:
    before any ATTACH, SendUnsol calls Write on a nil connection and
    panics; once the read loop has answered an ATTACH that came from a
    connection, SendUnsol writes the message to that connection. *)
Theorem SendUnsol_goes_to_attached (h : harness) (msg : string) (oc : nat) :
  expect h = None ->
  (unsolConn (mock h) = None ->
   SendUnsol h msg (String.length msg, None)
   = Crash "invalid memory address or nil pointer dereference") /\
  exists h1,
    readLoop_step h (mkIO (inl "ATTACH"%string) (inl oc) None) = Ret (Again h1) /\
    unsolConn (mock h1) = Some oc /\
    networks (mock h1) = networks (mock h) /\
    sent h1 = sent h ++ [(oc, "OK"%string)] /\
    exists h2,
      SendUnsol h1 msg (String.length msg, None) = Done h2 /\
      sent h2 = sent h ++ [(oc, "OK"%string); (oc, msg)] /\
      mock h2 = mock h1.
Proof.
  intros He. split.
  - intros Hn. unfold SendUnsol. now rewrite Hn.
  - unfold readLoop_step. cbn [read_from get write]. rewrite He.
    eexists. split; [reflexivity |].
    cbn [mock unsolConn networks sent snd fst].
    split; [reflexivity |]. split; [reflexivity |]. split; [reflexivity |].
    unfold SendUnsol. cbn [mock unsolConn snd fst].
    rewrite Nat.eqb_refl. cbn [negb].
    eexists. split; [reflexivity |]. cbn [sent mock].
    split; [now rewrite <- app_assoc | reflexivity].
Qed.

Lemma SendUnsol_goes_to_attached_witness :
  SendUnsol NewHarness "<2>CTRL-EVENT-SCAN-STARTED" (26, None)
  = Crash "invalid memory address or nil pointer dereference" /\
  exists h1,
    readLoop_step NewHarness (mkIO (inl "ATTACH"%string) (inl 3) None)
    = Ret (Again h1) /\
    exists h2,
      SendUnsol h1 "<2>CTRL-EVENT-SCAN-STARTED" (26, None) = Done h2 /\
      sent h2 = [(3, "OK"%string); (3, "<2>CTRL-EVENT-SCAN-STARTED"%string)].
Proof.
  destruct (SendUnsol_goes_to_attached NewHarness "<2>CTRL-EVENT-SCAN-STARTED" 3
              eq_refl) as (H1 & h1 & H2 & _ & _ & _ & h2 & H3 & H4 & _).
  split; [exact (H1 eq_refl) |].
  exists h1. split; [exact H2 |]. exists h2. split; [exact H3 | exact H4].
Defined.

(** From the mock to the typed event: when AnnounceDisconnected is called
    for a stored network, with a connection attached, the datagram it
    sends is taken by the reader of a WPACtrl for an event, and the
    classifier turns the payload into a disconnect event whose reason is
    "3:sta-left-ess". *)
Theorem AnnounceDisconnected_end_to_end
    (h : harness) (k : Z) (c : nat) (p : ptr) :
  unsolConn (mock h) = Some c ->
  getNetwork (mock h) k = Ret (Some p) ->
  exists h' wc' payload,
    AnnounceDisconnected h k (String.length disconnected_message, None)
    = Done h' /\
    sent h' = sent h ++ [(c, disconnected_message)] /\
    WPACtrl.receive_step WPACtrl.NewWPACtrl
      (WPACtrl.Datagram (bytes disconnected_message)) = WPACtrl.Continue wc' /\
    queue (WPACtrl.unsolicited wc') = [payload] /\
    queue (WPACtrl.solicited wc') = [] /\
    WPASupplicantCtrl.classify payload
    = WPASupplicantCtrl.OnDisconnectedEvent payload "3:sta-left-ess" /\
    ("<2>" ++ payload)%string = disconnected_message.
Proof.
  intros Hc Hg. unfold AnnounceDisconnected, SendUnsol. rewrite Hg, Hc.
  cbn [snd fst]. rewrite Nat.eqb_refl. cbn [negb].
  eexists. eexists. eexists.
  split; [reflexivity |]. split; [reflexivity |].
  split; [vm_compute; reflexivity |].
  split; [reflexivity |]. split; [reflexivity |].
  split; vm_compute; reflexivity.
Qed.

Lemma AnnounceDisconnected_end_to_end_witness :
  exists h' wc' payload,
    AnnounceDisconnected
      (mkHarness (mk (Some 3) [fresh_network 0] false []) None [] []) 0
      (String.length disconnected_message, None) = Done h' /\
    sent h' = [(3, disconnected_message)] /\
    WPACtrl.receive_step WPACtrl.NewWPACtrl
      (WPACtrl.Datagram (bytes disconnected_message)) = WPACtrl.Continue wc' /\
    queue (WPACtrl.unsolicited wc') = [payload] /\
    queue (WPACtrl.solicited wc') = [] /\
    WPASupplicantCtrl.classify payload
    = WPASupplicantCtrl.OnDisconnectedEvent payload "3:sta-left-ess" /\
    ("<2>" ++ payload)%string = disconnected_message.
Proof.
  exact (AnnounceDisconnected_end_to_end
           (mkHarness (mk (Some 3) [fresh_network 0] false []) None [] [])
           0%Z 3 (0, mkNet 0 EmptyString EmptyString EmptyString)
           eq_refl eq_refl).
Defined.

End Harness.

Section ClientToMock.

Import WPAProcessMock.

Lemma has_byte_app (a b : string) (c : ascii) :
  has_byte (a ++ b) c = has_byte a c || has_byte b c.
Proof.
  induction a as [| x a IH]; [reflexivity |].
  cbn [append has_byte]. now rewrite IH, orb_assoc.
Qed.

Lemma has_byte_revstr (s : string) (c : ascii) :
  has_byte (revstr s) c = has_byte s c.
Proof.
  induction s as [| x s IH]; [reflexivity |].
  change (String x s) with (String x EmptyString ++ s)%string.
  rewrite revstr_app, !has_byte_app, IH. apply orb_comm.
Qed.

Lemma trim_left_byte_none (s : string) (c : ascii) :
  has_byte s c = false -> trim_left_byte s c = s.
Proof.
  destruct s as [| x s]; [reflexivity |].
  cbn [has_byte trim_left_byte]. intros H.
  apply orb_false_elim in H as [H _]. now rewrite H.
Qed.

Lemma trim_left_byte_head (s : string) (c : ascii) :
  trim_left_byte (String c s) c = trim_left_byte s c.
Proof. cbn [trim_left_byte]. unfold byte_eqb. now rewrite Ascii.eqb_refl. Qed.

Lemma revstr_snoc (s : string) (c : ascii) :
  revstr (s ++ String c EmptyString) = String c (revstr s).
Proof. now rewrite revstr_app. Qed.

(** Trim takes the double quotes off a quoted word. *)
Lemma Trim_quoted (s : string) :
  has_byte s "034" = false ->
  Trim (WPASupplicantCtrl.quote ++ s ++ WPASupplicantCtrl.quote) "034" = s.
Proof.
  intros H. unfold Trim, WPASupplicantCtrl.quote.
  change (String "034" EmptyString ++ s ++ String "034" EmptyString)%string
    with (String "034" (s ++ String "034" EmptyString)).
  rewrite trim_left_byte_head.
  destruct s as [| c s]; [reflexivity |].
  assert (Hc : byte_eqb c "034" = false).
  { cbn [has_byte] in H. now apply orb_false_elim in H as [H _]. }
  change (String c s ++ String "034" EmptyString)%string
    with (String c (s ++ String "034" EmptyString)).
  cbn [trim_left_byte]. rewrite Hc.
  change (String c (s ++ String "034" EmptyString))
    with (String c s ++ String "034" EmptyString)%string.
  rewrite revstr_snoc, trim_left_byte_head.
  rewrite trim_left_byte_none by (now rewrite has_byte_revstr).
  apply revstr_involutive.
Qed.

Lemma SET_NETWORK_fields (idstr key value : string) :
  has_byte idstr " " = false -> has_byte key " " = false ->
  has_byte value " " = false ->
  Split ("SET_NETWORK " ++ idstr ++ " " ++ key ++ " " ++ value) " "
  = ["SET_NETWORK"%string; idstr; key; value].
Proof.
  intros Hi Hk Hv.
  change ("SET_NETWORK " ++ idstr ++ " " ++ key ++ " " ++ value)%string
    with ("SET_NETWORK" ++ String " " (idstr ++ String " " (key ++ String " " value)))%string.
  rewrite !Split_app_sep by (assumption || reflexivity).
  now rewrite (Split_no_sep value " " Hv).
Qed.

Lemma Trim_open_quote (s : string) :
  has_byte s "034" = false ->
  Trim (WPASupplicantCtrl.quote ++ s) "034" = s.
Proof.
  intros H. unfold Trim, WPASupplicantCtrl.quote.
  change (String "034" EmptyString ++ s)%string with (String "034" s).
  rewrite trim_left_byte_head.
  rewrite (trim_left_byte_none s _ H).
  rewrite trim_left_byte_none by (now rewrite has_byte_revstr).
  apply revstr_involutive.
Qed.

(** SET_NETWORK on a stored network, once the command is split into
    fields. *)
Lemma SET_NETWORK_run
    (w : t) (cmd idstr key f3 : string) (rest : list string) (k : Z) (conn : nat) :
  Split cmd " " = "SET_NETWORK"%string :: idstr :: key :: f3 :: rest ->
  Atoi idstr = Some k -> names_network w k = true ->
  exists n,
    nth_error (networks w) (Z.to_nat k) = Some (Some n) /\
    processMockCommand w cmd conn =
    if String.eqb key "ssid" then
      w1 <- set_at w (Z.to_nat k, n)
              (fun n => mkNet (id n) (Trim f3 "034") (psk n) (flags n)) ;;
      Ret ("OK"%string, w1)
    else if String.eqb key "psk" then
      w1 <- set_at w (Z.to_nat k, n)
              (fun n => mkNet (id n) (ssid n) (Trim f3 "034") (flags n)) ;;
      Ret ("OK"%string, w1)
    else Ret ("FAIL"%string, w).
Proof.
  intros Hsplit Hk Hn.
  destruct (getNetwork_finds w k Hn) as (n & Hget & Hnth).
  exists n. split; [exact Hnth |].
  unfold processMockCommand. rewrite Hsplit.
  cbn [index nth_error bind length].
  cbn [String.eqb Ascii.eqb Bool.eqb].
  replace (S (S (S (S (length rest)))) <? 4) with false
    by (symmetry; apply Nat.ltb_ge; lia).
  unfold getNetworkStr. rewrite Hk, Hget. cbn [bind].
  reflexivity.
Qed.

Lemma set_at_stores (w : t) (p : nat) (n : network) (f : network -> network) :
  nth_error (networks w) p = Some (Some n) ->
  exists w1,
    set_at w (p, n) f = Ret w1 /\
    nth_error (networks w1) p = Some (Some (f n)) /\
    (forall j, j <> p -> nth_error (networks w1) j = nth_error (networks w) j) /\
    length (networks w1) = length (networks w) /\
    unsolConn w1 = unsolConn w.
Proof.
  intros Hnth.
  assert (Hlt : p < length (networks w))
    by (apply nth_error_Some; rewrite Hnth; discriminate).
  destruct (store_in_range (networks w) p (Some (f n)) Hlt) as [ns Hs].
  destruct (store_spec _ _ _ _ Hs) as (Hlen & _ & Hall).
  exists (with_networks w ns). unfold set_at. cbn [fst snd]. rewrite Hs.
  cbn [bind with_networks networks unsolConn].
  split; [reflexivity |]. split.
  - rewrite Hall, Nat.eqb_refl. reflexivity.
  - split; [| split; [exact Hlen | reflexivity]].
    intros j Hj. rewrite Hall.
    apply Nat.eqb_neq in Hj. now rewrite Hj.
Qed.

(** SetSSID and SetPSK reach the mock: the command that the client builds
    for a text without space or double quote makes the mock store exactly
    that text in the ssid, or the psk, of the network that the id names,
    and reply "OK"; the other fields of the network and the other networks
    stay as they are. *)
Theorem SetSSID_SetPSK_reach_mock
    (w : t) (idstr text : string) (k : Z) (conn : nat) :
  has_byte idstr " " = false -> Atoi idstr = Some k ->
  names_network w k = true ->
  has_byte text " " = false -> has_byte text "034" = false ->
  exists n w1 w2,
    nth_error (networks w) (Z.to_nat k) = Some (Some n) /\
    processMockCommand w (WPASupplicantCtrl.SetSSID_command idstr text) conn
    = Ret ("OK"%string, w1) /\
    nth_error (networks w1) (Z.to_nat k)
    = Some (Some (mkNet (id n) text (psk n) (flags n))) /\
    (forall j, j <> Z.to_nat k ->
               nth_error (networks w1) j = nth_error (networks w) j) /\
    processMockCommand w (WPASupplicantCtrl.SetPSK_command idstr text) conn
    = Ret ("OK"%string, w2) /\
    nth_error (networks w2) (Z.to_nat k)
    = Some (Some (mkNet (id n) (ssid n) text (flags n))) /\
    (forall j, j <> Z.to_nat k ->
               nth_error (networks w2) j = nth_error (networks w) j).
Proof.
  intros Hi Hk Hn Hsp Hq.
  assert (Hv : has_byte (WPASupplicantCtrl.quote ++ text ++ WPASupplicantCtrl.quote)
                        " " = false).
  { rewrite !has_byte_app, Hsp. reflexivity. }
  destruct (SET_NETWORK_run w (WPASupplicantCtrl.SetSSID_command idstr text)
              idstr "ssid"
              (WPASupplicantCtrl.quote ++ text ++ WPASupplicantCtrl.quote) []
              k conn) as (n & Hnth & Hrun1);
    [apply (SET_NETWORK_fields idstr "ssid"); [exact Hi | reflexivity | exact Hv]
    | exact Hk | exact Hn |].
  destruct (SET_NETWORK_run w (WPASupplicantCtrl.SetPSK_command idstr text)
              idstr "psk"
              (WPASupplicantCtrl.quote ++ text ++ WPASupplicantCtrl.quote) []
              k conn) as (n' & Hnth' & Hrun2);
    [apply (SET_NETWORK_fields idstr "psk"); [exact Hi | reflexivity | exact Hv]
    | exact Hk | exact Hn |].
  assert (n' = n) by congruence. subst n'.
  cbn [String.eqb Ascii.eqb Bool.eqb] in Hrun1, Hrun2.
  rewrite (Trim_quoted text Hq) in Hrun1, Hrun2.
  destruct (set_at_stores w (Z.to_nat k) n
              (fun n => mkNet (id n) text (psk n) (flags n)) Hnth)
    as (w1 & Hs1 & Hn1 & Ho1 & _).
  destruct (set_at_stores w (Z.to_nat k) n
              (fun n => mkNet (id n) (ssid n) text (flags n)) Hnth)
    as (w2 & Hs2 & Hn2 & Ho2 & _).
  rewrite Hs1 in Hrun1. rewrite Hs2 in Hrun2. cbn [bind] in Hrun1, Hrun2.
  exists n, w1, w2. repeat split; assumption.
Qed.

Lemma SetSSID_SetPSK_reach_mock_witness :
  exists n w1 w2,
    nth_error [fresh_network 0] 0 = Some (Some n) /\
    processMockCommand (mk None [fresh_network 0] false [])
      (WPASupplicantCtrl.SetSSID_command "0" "home") 5 = Ret ("OK"%string, w1) /\
    nth_error (networks w1) 0
    = Some (Some (mkNet (id n) "home" (psk n) (flags n))) /\
    processMockCommand (mk None [fresh_network 0] false [])
      (WPASupplicantCtrl.SetPSK_command "0" "secret12") 5 = Ret ("OK"%string, w2).
Proof.
  destruct (SetSSID_SetPSK_reach_mock (mk None [fresh_network 0] false [])
              "0" "home" 0%Z 5 eq_refl eq_refl eq_refl eq_refl eq_refl)
    as (n & w1 & _ & H1 & H2 & H3 & _).
  destruct (SetSSID_SetPSK_reach_mock (mk None [fresh_network 0] false [])
              "0" "secret12" 0%Z 5 eq_refl eq_refl eq_refl eq_refl eq_refl)
    as (_ & _ & w2 & _ & _ & _ & _ & H5 & _).
  exists n, w1, w2. repeat split; assumption.
Defined.

(** The mock splits a command at every space, so of an SSID that holds a
    space it stores only what stands before the first space. *)
Theorem SetSSID_cut_at_space
    (w : t) (idstr a b : string) (k : Z) (conn : nat) :
  has_byte idstr " " = false -> Atoi idstr = Some k ->
  names_network w k = true ->
  has_byte a " " = false -> has_byte a "034" = false ->
  exists n w1,
    nth_error (networks w) (Z.to_nat k) = Some (Some n) /\
    processMockCommand w
      (WPASupplicantCtrl.SetSSID_command idstr (a ++ " " ++ b)) conn
    = Ret ("OK"%string, w1) /\
    nth_error (networks w1) (Z.to_nat k)
    = Some (Some (mkNet (id n) a (psk n) (flags n))).
Proof.
  intros Hi Hk Hn Hsp Hq.
  assert (Hsplit :
    Split (WPASupplicantCtrl.SetSSID_command idstr (a ++ " " ++ b)) " "
    = "SET_NETWORK"%string :: idstr :: "ssid"%string
      :: (WPASupplicantCtrl.quote ++ a)%string
      :: Split (b ++ WPASupplicantCtrl.quote) " ").
  { unfold WPASupplicantCtrl.SetSSID_command.
    replace ("SET_NETWORK " ++ idstr ++ " ssid " ++ WPASupplicantCtrl.quote
             ++ (a ++ " " ++ b) ++ WPASupplicantCtrl.quote)%string
      with ("SET_NETWORK" ++ String " " (idstr ++ String " " ("ssid" ++ String " "
              ((WPASupplicantCtrl.quote ++ a)
                 ++ String " " (b ++ WPASupplicantCtrl.quote)))))%string.
    - rewrite !Split_app_sep; (assumption || reflexivity).
    - cbn [append]. do 2 f_equal.
      rewrite !append_assoc. reflexivity. }
  destruct (SET_NETWORK_run w _ idstr "ssid" _ _ k conn Hsplit Hk Hn)
    as (n & Hnth & Hrun).
  cbn [String.eqb Ascii.eqb Bool.eqb] in Hrun.
  rewrite (Trim_open_quote a Hq) in Hrun.
  destruct (set_at_stores w (Z.to_nat k) n
              (fun n => mkNet (id n) a (psk n) (flags n)) Hnth)
    as (w1 & Hs1 & Hn1 & _).
  rewrite Hs1 in Hrun. cbn [bind] in Hrun.
  exists n, w1. repeat split; assumption.
Qed.

Lemma SetSSID_cut_at_space_witness :
  exists n w1,
    nth_error [fresh_network 0] 0 = Some (Some n) /\
    processMockCommand (mk None [fresh_network 0] false [])
      (WPASupplicantCtrl.SetSSID_command "0" "my net") 5 = Ret ("OK"%string, w1) /\
    nth_error (networks w1) 0 = Some (Some (mkNet (id n) "my" (psk n) (flags n))).
Proof.
  exact (SetSSID_cut_at_space (mk None [fresh_network 0] false [])
           "0" "my" "net" 0%Z 5 eq_refl eq_refl eq_refl eq_refl eq_refl).
Defined.

End ClientToMock.

Section MockToClient.

Import WPAProcessMock.

Lemma digits_no_low_byte (d : Decimal.uint) (c : ascii) :
  (nat_of_ascii c <? 45)%nat = true ->
  has_byte (NilEmpty.string_of_uint d) c = false.
Proof.
  intros Hc.
  assert (Hd : forall x, (45 <? nat_of_ascii x)%nat = true -> byte_eqb x c = false).
  { intros x Hx. unfold byte_eqb.
    destruct (Ascii.eqb_spec x c) as [-> |]; [| reflexivity].
    apply Nat.ltb_lt in Hc, Hx. lia. }
  induction d as [| d IH | d IH | d IH | d IH | d IH | d IH | d IH | d IH
                  | d IH | d IH];
    cbn [NilEmpty.string_of_uint has_byte]; [reflexivity | ..];
    rewrite IH, Hd by reflexivity; reflexivity.
Qed.

(** A number in decimal holds neither a tab nor a line feed. *)
Lemma Itoa_no_low_byte (z : Z) (c : ascii) :
  (nat_of_ascii c <? 45)%nat = true -> has_byte (Itoa z) c = false.
Proof.
  intros Hc. unfold Itoa, NilZero.string_of_int.
  assert (Hu : forall d, has_byte (NilZero.string_of_uint d) c = false).
  { intros d. unfold NilZero.string_of_uint.
    destruct d; try apply digits_no_low_byte; try exact Hc.
    cbn [has_byte]. unfold byte_eqb.
    destruct (Ascii.eqb_spec "0" c) as [<- |]; [discriminate Hc | reflexivity]. }
  destruct (Z.to_int z) as [d | d]; [apply Hu |].
  cbn [has_byte]. rewrite Hu. unfold byte_eqb.
  destruct (Ascii.eqb_spec "-" c) as [<- |]; [discriminate Hc | reflexivity].
Qed.

(** Splitting at the separator undoes joining, for lines that do not
    hold the separator. *)
Lemma Split_Join (l0 : string) (lines : list string) (sep : ascii) :
  forallb (fun l => negb (has_byte l sep)) (l0 :: lines) = true ->
  Split (Join (l0 :: lines) (String sep EmptyString)) sep = l0 :: lines.
Proof.
  revert l0. induction lines as [| l1 lines IH]; intros l0 H.
  - cbn [forallb] in H. apply andb_prop in H as [H _].
    apply negb_true_iff in H. cbn [Join]. now apply Split_no_sep.
  - cbn [forallb] in H. apply andb_prop in H as [H0 H].
    apply negb_true_iff in H0.
    change (Join (l0 :: l1 :: lines) (String sep EmptyString))
      with (l0 ++ String sep (Join (l1 :: lines) (String sep EmptyString)))%string.
    rewrite (Split_app_sep _ _ _ H0). f_equal. now apply IH.
Qed.

Lemma list_lines_stored (ns : list network) :
  list_lines (map Some ns) = Ret (map list_line ns).
Proof.
  induction ns as [| n ns IH]; [reflexivity |].
  cbn [map list_lines]. rewrite IH. reflexivity.
Qed.

Lemma list_line_fields (n : network) :
  has_byte (ssid n) "009" = false ->
  exists rest, Split (list_line n) "009" = Itoa (id n) :: ssid n :: rest.
Proof.
  intros Hs. unfold list_line.
  rewrite Split_app_sep by (now apply Itoa_no_low_byte).
  rewrite Split_app_sep by exact Hs.
  eexists. reflexivity.
Qed.

(** From the mock to the client: when no entry of the mock's list is nil
    and no SSID holds a tab or a line feed (nor the flags a line feed),
    ListNetworks parses the reply that the mock gives to LIST_NETWORKS
    into the ids and SSIDs of the networks the mock holds, in their
    order. *)
Theorem ListNetworks_reads_the_mock (w : t) (ns : list network) (conn : nat) :
  networks w = map Some ns ->
  forallb (fun n => negb (has_byte (ssid n) "009")
                    && negb (has_byte (ssid n) "010")
                    && negb (has_byte (flags n) "010")) ns = true ->
  exists rsp,
    processMockCommand w "LIST_NETWORKS" conn = Ret (rsp, w) /\
    WPASupplicantCtrl.parse_networks rsp None
    = Ret (map (fun n => WPASupplicantCtrl.mkNetwork (Itoa (id n)) (ssid n)) ns,
           None).
Proof.
  intros Hw Hok.
  assert (Hrun : processMockCommand w "LIST_NETWORKS" conn
                 = Ret (Join ("network id / ssid / bssid / flags"%string
                              :: map list_line ns) (String "010" EmptyString), w)).
  { unfold processMockCommand. cbn [Split byte_eqb Ascii.eqb Bool.eqb].
    cbn [index nth_error bind String.eqb Ascii.eqb Bool.eqb].
    rewrite Hw, list_lines_stored. reflexivity. }
  eexists. split; [exact Hrun |].
  rewrite parse_networks_spec. cbn zeta.
  rewrite Split_Join.
  - cbn [tl].
    assert (Hf : forallb fields_ok (map list_line ns) = true).
    { apply forallb_forall. intros l Hl. apply in_map_iff in Hl as (n & <- & Hn).
      rewrite forallb_forall in Hok. specialize (Hok n Hn).
      apply andb_prop in Hok as [Hok _]. apply andb_prop in Hok as [Hok _].
      apply negb_true_iff in Hok.
      destruct (list_line_fields n Hok) as [rest Hs].
      unfold fields_ok. rewrite Hs. reflexivity. }
    rewrite Hf. f_equal. f_equal. rewrite map_map.
    apply map_ext_in. intros n Hn.
    rewrite forallb_forall in Hok. specialize (Hok n Hn).
    apply andb_prop in Hok as [Hok _]. apply andb_prop in Hok as [Hok _].
    apply negb_true_iff in Hok.
    destruct (list_line_fields n Hok) as [rest Hs].
    unfold network_of_line. rewrite Hs. reflexivity.
  - cbn [forallb]. apply andb_true_intro. split; [reflexivity |].
    apply forallb_forall. intros l Hl. apply in_map_iff in Hl as (n & <- & Hn).
    rewrite forallb_forall in Hok. specialize (Hok n Hn).
    apply andb_prop in Hok as [Hok Hfl]. apply andb_prop in Hok as [_ Hss].
    apply negb_true_iff in Hfl, Hss.
    apply negb_true_iff. unfold list_line.
    repeat (rewrite has_byte_app || cbn [has_byte append]).
    rewrite Hss, Hfl, (Itoa_no_low_byte (id n) "010" eq_refl). reflexivity.
Qed.

Lemma ListNetworks_reads_the_mock_witness :
  exists rsp,
    processMockCommand
      (mk None [Some (mkNet 0 "home" "secret12" "CURRENT");
                Some (mkNet 1 "work" EmptyString EmptyString)] false [])
      "LIST_NETWORKS" 5
    = Ret (rsp, mk None [Some (mkNet 0 "home" "secret12" "CURRENT");
                         Some (mkNet 1 "work" EmptyString EmptyString)] false []) /\
    WPASupplicantCtrl.parse_networks rsp None
    = Ret ([WPASupplicantCtrl.mkNetwork "0" "home";
            WPASupplicantCtrl.mkNetwork "1" "work"], None).
Proof.
  exact (ListNetworks_reads_the_mock
           (mk None [Some (mkNet 0 "home" "secret12" "CURRENT");
                     Some (mkNet 1 "work" EmptyString EmptyString)] false [])
           [mkNet 0 "home" "secret12" "CURRENT";
            mkNet 1 "work" EmptyString EmptyString] 5 eq_refl eq_refl).
Defined.

End MockToClient.

Section MockEnable.

Import WPAProcessMock.

(** ENABLE_NETWORK on a stored network: without a callback set, starting
    the callback panics; with one, the mock replies "OK", sets the flags of
    that network to CURRENT, starts the callback with the id of the
    network, and leaves every other network as it is, a network enabled
    before included. *)
Theorem ENABLE_NETWORK_marks_current
    (w : t) (idstr : string) (k : Z) (conn : nat) :
  has_byte idstr " " = false -> Atoi idstr = Some k ->
  names_network w k = true ->
  exists n,
    nth_error (networks w) (Z.to_nat k) = Some (Some n) /\
    (OnNetworkEnabled w = false ->
     processMockCommand w (WPASupplicantCtrl.EnableNetwork_command idstr) conn
     = Panic "go of nil func value") /\
    (OnNetworkEnabled w = true ->
     exists w',
       processMockCommand w (WPASupplicantCtrl.EnableNetwork_command idstr) conn
       = Ret ("OK"%string, w') /\
       nth_error (networks w') (Z.to_nat k)
       = Some (Some (mkNet (id n) (ssid n) (psk n) "CURRENT")) /\
       (forall j, j <> Z.to_nat k ->
                  nth_error (networks w') j = nth_error (networks w) j) /\
       enabled w' = enabled w ++ [id n]).
Proof.
  intros Hi Hk Hn.
  destruct (getNetwork_finds w k Hn) as (n & Hget & Hnth).
  exists n. split; [exact Hnth |].
  assert (Hsplit : Split (WPASupplicantCtrl.EnableNetwork_command idstr) " "
                   = ["ENABLE_NETWORK"%string; idstr]).
  { unfold WPASupplicantCtrl.EnableNetwork_command.
    change ("ENABLE_NETWORK " ++ idstr)%string
      with ("ENABLE_NETWORK" ++ String " " idstr)%string.
    rewrite Split_app_sep by reflexivity.
    now rewrite (Split_no_sep idstr " " Hi). }
  destruct (set_at_stores w (Z.to_nat k) n
              (fun n => mkNet (id n) (ssid n) (psk n) "CURRENT") Hnth)
    as (w1 & Hs & Hn1 & Ho1 & _ & _).
  assert (Hw1 : OnNetworkEnabled w1 = OnNetworkEnabled w /\ enabled w1 = enabled w).
  { unfold set_at in Hs. cbn [fst snd] in Hs.
    destruct (store (networks w) (Z.to_nat k)
                    (Some (mkNet (id n) (ssid n) (psk n) "CURRENT")));
      [| discriminate Hs].
    cbn [bind] in Hs. injection Hs as <-. split; reflexivity. }
  destruct Hw1 as [Hcb Hen].
  assert (Hrun : processMockCommand w
                   (WPASupplicantCtrl.EnableNetwork_command idstr) conn
                 = if OnNetworkEnabled w
                   then Ret ("OK"%string,
                             mk (unsolConn w1) (networks w1) (OnNetworkEnabled w1)
                                (enabled w1 ++ [id n]))
                   else Panic "go of nil func value").
  { unfold processMockCommand. rewrite Hsplit.
    cbn [index nth_error bind length].
    cbn [String.eqb Ascii.eqb Bool.eqb Nat.ltb Nat.leb].
    unfold getNetworkStr. rewrite Hk, Hget. cbn [bind].
    rewrite Hs. cbn [bind snd]. rewrite Hcb. reflexivity. }
  split.
  - intros Hoff. now rewrite Hrun, Hoff.
  - intros Hon. rewrite Hrun, Hon. eexists. split; [reflexivity |].
    cbn [networks enabled]. split; [exact Hn1 |]. split; [exact Ho1 |].
    now rewrite Hen.
Qed.

Lemma ENABLE_NETWORK_marks_current_witness :
  processMockCommand (mk None [fresh_network 0] false [])
    (WPASupplicantCtrl.EnableNetwork_command "0") 5
  = Panic "go of nil func value" /\
  exists w',
    processMockCommand
      (mk None [Some (mkNet 0 "home" EmptyString "CURRENT"); fresh_network 1]
          true [0%Z])
      (WPASupplicantCtrl.EnableNetwork_command "1") 5
    = Ret ("OK"%string, w') /\
    nth_error (networks w') 0 = Some (Some (mkNet 0 "home" EmptyString "CURRENT")) /\
    enabled w' = [0%Z; 1%Z].
Proof.
  destruct (ENABLE_NETWORK_marks_current (mk None [fresh_network 0] false [])
              "0" 0%Z 5 eq_refl eq_refl eq_refl) as (n & _ & Hoff & _).
  destruct (ENABLE_NETWORK_marks_current
              (mk None [Some (mkNet 0 "home" EmptyString "CURRENT");
                        fresh_network 1] true [0%Z])
              "1" 1%Z 5 eq_refl eq_refl eq_refl) as (n' & Hn' & _ & Hon).
  split; [exact (Hoff eq_refl) |].
  destruct (Hon eq_refl) as (w' & Hrun & _ & Hoth & Hen).
  exists w'. split; [exact Hrun |]. split.
  - exact (Hoth 0 ltac:(discriminate)).
  - injection Hn' as <-. exact Hen.
Defined.

End MockEnable.
